(** * The OPM technical bot: classifier, resolver and renderer of chat_engine.py

    A shallow embedding of [chat_engine.py]: the text normalizer
    ([clean_to_digits], [format_clean_description]), the intent classifier
    ([detect_intent]), the answer resolver ([find_best_answer]) and the
    response renderer ([generate_ai_response]), followed by the properties
    of the specification that concern them.

    Python strings are sequences of Unicode code points, so a string is a
    list of code points here.  What the program takes from the Python
    runtime (case mapping, the whitespace stripped by [str.strip], the
    character classes [\d] and [\w] of [re], [repr]/[ast.literal_eval] and
    the regular-expression engine behind pandas' [str.contains]) is the
    interface [PyRuntime]; every theorem holds for every runtime that
    satisfies it. *)

From Stdlib Require Import List NArith ZArith Bool Lia.
From Stdlib Require String Ascii.
Import String.StringSyntax.
Delimit Scope string_scope with string.
From Stdlib Require Import Permutation DecimalString.
Import ListNotations.

(** ** Strings *)

Module Str.

Definition pystr := list N.

(** An ASCII literal as a Python string. *)
Definition py (s : String.string) : pystr :=
  map Ascii.N_of_ascii (String.list_ascii_of_string s).
Arguments py s%_string.

Fixpoint eqb (a b : pystr) : bool :=
  match a, b with
  | [], [] => true
  | x :: a', y :: b' => N.eqb x y && eqb a' b'
  | _, _ => false
  end.

(** [x in l] for a list of strings. *)
Definition mem (x : pystr) (l : list pystr) : bool := existsb (eqb x) l.

(** [strip_prefix p s] is the rest of [s] after its prefix [p], if any. *)
Fixpoint strip_prefix (p s : pystr) : option pystr :=
  match p with
  | [] => Some s
  | x :: p' =>
      match s with
      | y :: s' => if N.eqb x y then strip_prefix p' s' else None
      | [] => None
      end
  end.

Definition startswith (p s : pystr) : bool :=
  match strip_prefix p s with Some _ => true | None => false end.

(** [needle in hay] for strings: substring test. *)
Fixpoint contains (needle hay : pystr) : bool :=
  startswith needle hay
  || match hay with
     | [] => false
     | _ :: t => contains needle t
     end.

Fixpoint dropwhile (f : N -> bool) (s : pystr) : pystr :=
  match s with
  | [] => []
  | c :: t => if f c then dropwhile f t else s
  end.

(** [s.strip()] for the whitespace class [sp]. *)
Definition strip (sp : N -> bool) (s : pystr) : pystr :=
  rev (dropwhile sp (rev (dropwhile sp s))).

(** [s.split(sep)[0]] for a one-character separator. *)
Fixpoint before (sep : N) (s : pystr) : pystr :=
  match s with
  | [] => []
  | c :: t => if N.eqb c sep then [] else c :: before sep t
  end.

(** [sep.join(l)]. *)
Fixpoint join (sep : pystr) (l : list pystr) : pystr :=
  match l with
  | [] => []
  | [x] => x
  | x :: t => x ++ sep ++ join sep t
  end.

(** Lexicographic order on code points: [a <= b] for Python strings. *)
Fixpoint leb (a b : pystr) : bool :=
  match a, b with
  | [], _ => true
  | _ :: _, [] => false
  | x :: a', y :: b' =>
      if N.ltb x y then true else if N.eqb x y then leb a' b' else false
  end.

Fixpoint insert_sorted (x : pystr) (l : list pystr) : list pystr :=
  match l with
  | [] => [x]
  | y :: t => if leb x y then x :: l else y :: insert_sorted x t
  end.

(** [sorted(l)] for a list of strings. *)
Definition sorted (l : list pystr) : list pystr :=
  fold_right insert_sorted [] l.

(** The ASCII range. *)
Definition is_ascii (c : N) : bool := N.ltb c 128.
Definition ascii_digit (c : N) : bool := N.leb 48 c && N.leb c 57.
Definition ascii_upper_letter (c : N) : bool := N.leb 65 c && N.leb c 90.
Definition ascii_lower_letter (c : N) : bool := N.leb 97 c && N.leb c 122.
Definition ascii_lower (c : N) : N :=
  if ascii_upper_letter c then (c + 32)%N else c.
Definition ascii_upper (c : N) : N :=
  if ascii_lower_letter c then (c - 32)%N else c.
(** Whitespace of [str.isspace] below 128: tab to carriage return, the
    four separators 28..31 and the space. *)
Definition ascii_space (c : N) : bool :=
  (N.leb 9 c && N.leb c 13) || (N.leb 28 c && N.leb c 31) || N.eqb c 32.
Definition ascii_word (c : N) : bool :=
  ascii_digit c || ascii_upper_letter c || ascii_lower_letter c || N.eqb c 95.

(** Characters that stand for themselves in a regular expression. *)
Definition re_plain (c : N) : bool :=
  negb (existsb (N.eqb c)
          [46; 94; 36; 42; 43; 63; 123; 125; 91; 93; 92; 124; 40; 41]%N).

End Str.

Import Str.
Arguments py s%_string.

(** ** Python values the program handles *)

(** A value of a dict obtained from [ast.literal_eval]: a [str], or any
    other literal, known by its [str()]. *)
Inductive pyval :=
| VStr (s : pystr)
| VOther (shown : pystr).

(** The result of [ast.literal_eval]: a dict, of which only the string keys
    are kept (the program looks up string keys only), or any other object. *)
Inductive pyobj :=
| PyDict (items : list (pystr * pyval))
| PyOther.

Definition pydict := list (pystr * pystr).

Definition as_items (d : pydict) : list (pystr * pyval) :=
  map (fun kv => (fst kv, VStr (snd kv))) d.

(** [str(d)] for a dict [d] of strings, given [repr] on strings. *)
Definition dict_str (repr : pystr -> pystr) (d : pydict) : pystr :=
  [123%N]
  ++ join (py ", ")
       (map (fun kv => repr (fst kv) ++ py ": " ++ repr (snd kv)) d)
  ++ [125%N].

(** ** The runtime interface *)

Class PyRuntime := {
  (** [str.lower] and [str.upper] *)
  str_lower : pystr -> pystr;
  str_upper : pystr -> pystr;
  (** the characters removed by [str.strip()] *)
  isspace : N -> bool;
  (** the classes [\d] and [\w] of [re] on [str] patterns *)
  re_d : N -> bool;
  re_w : N -> bool;
  (** [repr] of a [str] *)
  str_repr : pystr -> pystr;
  (** [ast.literal_eval]; [None] when it raises *)
  literal_eval : pystr -> option pyobj;
  (** [re.compile(pat)] succeeds; [re.search(pat, s) is not None] *)
  re_valid : pystr -> bool;
  re_search : pystr -> pystr -> bool;

  lower_ascii : forall s,
    forallb is_ascii s = true -> str_lower s = map ascii_lower s;
  lower_digits : forall s,
    forallb re_d s = true -> str_lower s = s;
  upper_ascii : forall s,
    forallb is_ascii s = true -> str_upper s = map ascii_upper s;
  isspace_ascii : forall c,
    is_ascii c = true -> isspace c = ascii_space c;
  re_d_ascii : forall c,
    is_ascii c = true -> re_d c = ascii_digit c;
  re_w_ascii : forall c,
    is_ascii c = true -> re_w c = ascii_word c;
  (** the Arabic-Indic digits U+0660..U+0669 are decimal digits *)
  re_d_arabic_indic : forall c,
    (1632 <= c <= 1641)%N -> re_d c = true;
  (** no decimal digit is white space *)
  digit_not_space : forall c,
    re_d c = true -> isspace c = false;
  (** [literal_eval(str(d)) == d] for a dict of strings *)
  literal_eval_dict_str : forall d,
    NoDup (map fst d) ->
    literal_eval (dict_str str_repr d) = Some (PyDict (as_items d));
  (** a pattern without special characters is searched as a substring *)
  re_plain_search : forall p s,
    forallb re_plain p = true ->
    re_valid p = true /\ re_search p s = contains p s;
  (** an opening parenthesis that is never closed does not compile *)
  re_unclosed_group : forall p,
    forallb re_plain p = true -> re_valid (p ++ [40%N]) = false
}.

(** ** Data model *)

(** A cell of the knowledge-base table as read from SQLite. *)
Inductive scalar :=
| NoneVal                      (* None *)
| NaN                          (* float('nan') *)
| StrVal (s : pystr)
| IntVal (z : Z)
| FloatVal (shown : pystr).    (* a float that is not NaN, by its str() *)

(** [pd.isna(val)] *)
Definition isna (val : scalar) : bool :=
  match val with
  | NoneVal | NaN => true
  | _ => false
  end.

(** [str(val)] *)
Definition str_of (val : scalar) : pystr :=
  match val with
  | NoneVal => py "None"
  | NaN => py "nan"
  | StrVal s => s
  | IntVal z => py (NilZero.string_of_int (Z.to_int z))
  | FloatVal shown => shown
  end.

(** A row of the loaded table; the fields are named after the column
    constants of the source. *)
Record record := {
  CODE_COL : pystr;
  NAME_COL : pystr;
  SUB_CODE_COL : pystr;
  DESCRIPTION_COL : pystr
}.

(** A row of the table as read.  The name cell is given by its text: what
    [astype(str)] makes of a missing name depends on the version of pandas
    (the text [nan] or [None], or a value that stays missing), and a record
    holds text only, so a table with a missing name is outside the model. *)
Record raw_row := {
  raw_code : scalar;
  raw_name : pystr;
  raw_sub_code : scalar;
  raw_description : scalar
}.

(** What [pd.read_sql_query] finds: nothing it can read (no file, no table,
    a missing column), or the rows of the table. *)
Inductive db_source :=
| Unreadable
| Table (rows : list raw_row).

Inductive intent :=
| CONFIRMATION | EXIT | NAME_QUERY | CODE_QUERY | CONVERSATIONAL | TECHNICAL.

Inductive status := READY | DATA_MISSING | SHOW_PROCEDURE | NONE.

(** A turn of the conversation history: [{'role': ..., 'content': ...}]. *)
Record turn := { role : pystr; content : pystr }.

(** The 4-tuple returned by [find_best_answer]. *)
Record answer := {
  match_found : bool;
  excel_text : pystr;
  data_str : pystr;
  answer_status : status
}.

Inductive exn := ReError | IndexError.

Inductive outcome (A : Type) :=
| Returns (a : A)
| Raises (e : exn).
Arguments Returns {A} a.
Arguments Raises {A} e.

Definition bind {A B} (m : outcome A) (k : A -> outcome B) : outcome B :=
  match m with
  | Returns a => k a
  | Raises e => Raises e
  end.

Notation "x <- m ;; k" := (bind m (fun x => k))
  (at level 61, m at next level, right associativity).

(** ** Literals of the source *)

Definition NL : pystr := [10%N].

(** The light-bulb marker, with the code points it has in the source file. *)
Definition BULB : pystr := [240; 376; 8217; 161]%N.

Definition SUB_OFFER : pystr := Eval cbv in py "know the sub code".
Definition PROCEDURE_OFFER : pystr := Eval cbv in py "how to set the 08 code".
Definition CODE_TAG_OPEN : pystr := Eval cbv in py "(Code: ".

Definition confirmation_words : list pystr := Eval cbv in
  [py "yes"; py "y"; py "yep"; py "ok"; py "okay"; py "show"; py "show me";
   py "got it"; py "correct"].
Definition exit_words : list pystr := Eval cbv in
  [py "no"; py "n"; py "nope"; py "stop"; py "exit"; py "cancel"].
Definition name_phrases : list pystr := Eval cbv in
  [py "setting name"; py "name of"; py "what is the name"].
Definition code_phrases : list pystr := Eval cbv in
  [py "access code for"; py "code for"; py "what is the code"].
Definition courtesy_words : list pystr := Eval cbv in
  [py "hi"; py "hello"; py "hey"; py "thanks"; py "help"].

(** The alternatives of the pattern that [find_best_answer] deletes. *)
Definition BOILERPLATE : list pystr := Eval cbv in
  [py "what is the"; py "access code for"; py "code for";
   py "setting name of"; py "name of code"; py "the code for";
   py "setting name for"].

Definition NOT_FOUND_MESSAGE : pystr :=
  [240; 376; 8221]%N
  ++ py " I couldn't find any technical data for that."
  ++ py " Please check the spelling or try the Access Code.".

Definition PROCEDURE_TEXT : pystr :=
  py "### " ++ [240; 376; 8250; 160; 239; 184]%N
  ++ py " 08 Service Mode Procedure" ++ NL ++ NL
  ++ py "1. Go to **User Function** -> **Setting Icon**." ++ NL
  ++ py "2. Enter **Password** -> Select **08 Code**." ++ NL
  ++ py "3. Enter the **08 Code** -> Press **Enter**." ++ NL
  ++ py "4. Enter **Sub Code** -> **Enter**." ++ NL
  ++ py "5. Enter **Value** -> **Enter** to save.".

Definition EXIT_MESSAGE : pystr :=
  py "Understood. Let me know if you need help with other codes!".
Definition GREETING : pystr :=
  py "Hello! I am your Technical Assistant. How can I help you today?".
Definition FALLBACK_GREETING : pystr :=
  py "Hello! How can I help you today?".

(** ** Generic list helpers of pandas *)

(** Keep the first row of every key: [unique()] and
    [drop_duplicates(subset=..., keep='first')]. *)
Fixpoint dedup_from {A K : Type} (keq : K -> K -> bool) (key : A -> K)
    (seen : list K) (l : list A) : list A :=
  match l with
  | [] => []
  | x :: t =>
      if existsb (keq (key x)) seen then dedup_from keq key seen t
      else x :: dedup_from keq key (key x :: seen) t
  end.

Definition unique (l : list pystr) : list pystr :=
  dedup_from Str.eqb (fun x => x) [] l.

Definition pair_eqb (a b : pystr * pystr) : bool :=
  Str.eqb (fst a) (fst b) && Str.eqb (snd a) (snd b).

Definition drop_duplicates {K : Type} (keq : K -> K -> bool)
    (key : record -> K) (rows : list record) : list record :=
  dedup_from keq key [] rows.

(** ** The program *)

Section Engine.

Context {R : PyRuntime}.

(** *** Text normalizer *)

Definition clean_to_digits (val : scalar) : pystr :=
  if isna val
     || Str.eqb (str_lower (str_of val)) (py "nan")
     || Str.eqb (strip isspace (str_of val)) []
  then []
  else
    let s := before 46 (str_of val) in
    (* re.sub(r'\D', '', s): every character that is not a digit goes *)
    strip isspace (filter re_d s).

(** The anchored match of [\d+] followed by the character [close]; the
    digits matched, greedy with backtracking. *)
Fixpoint digits_then (close : N) (s : pystr) : option pystr :=
  match s with
  | [] => None
  | c :: rest =>
      if re_d c then
        match digits_then close rest with
        | Some ds => Some (c :: ds)
        | None =>
            match rest with
            | c' :: _ => if N.eqb c' close then Some [c] else None
            | [] => None
            end
        end
      else None
  end.

(** [re.split(r'(\d+:)', text)]: the text before the first label, and each
    label with the text that follows it up to the next label.  [skip]
    counts the characters of the current label still to pass. *)
Fixpoint re_split_labels (skip : nat) (s : pystr)
  : pystr * list (pystr * pystr) :=
  match s with
  | [] => ([], [])
  | c :: t =>
      match skip with
      | S k => re_split_labels k t
      | O =>
          match digits_then 58 s with
          | Some ds =>
              let '(v, more) := re_split_labels (length ds) t in
              ([], (ds ++ [58%N], v) :: more)
          | None =>
              let '(v, more) := re_split_labels 0 t in
              (c :: v, more)
          end
      end
  end.

Definition format_clean_description (text : pystr) : pystr :=
  let text := strip isspace text in
  match snd (re_split_labels 0 text) with
  | [] => text
  | parts =>
      join (py " <br> ")
        (map (fun lv => fst lv ++ py " " ++ strip isspace (snd lv)) parts)
  end.

(** *** Intent classifier *)

Definition detect_intent (text : pystr) : intent :=
  let clean := strip isspace (str_lower text) in
  if mem clean confirmation_words then CONFIRMATION
  else if mem clean exit_words then EXIT
  else if existsb (fun phrase => contains phrase clean) name_phrases
       then NAME_QUERY
  else if existsb (fun phrase => contains phrase clean) code_phrases
       then CODE_QUERY
  else if existsb (fun word => contains word clean) courtesy_words
       then CONVERSATIONAL
  else TECHNICAL.

(** *** Record store *)

Definition fillna (default : pystr) (val : scalar) : scalar :=
  if isna val then StrVal default else val.

Definition load_database (src : db_source) : list record :=
  match src with
  | Unreadable => []
  | Table rows =>
      map (fun r =>
             {| CODE_COL := clean_to_digits (raw_code r);
                NAME_COL := strip isspace (raw_name r);
                SUB_CODE_COL :=
                  strip isspace (str_of (fillna (py "-") (raw_sub_code r)));
                DESCRIPTION_COL :=
                  strip isspace
                    (str_of (fillna (py "No data") (raw_description r))) |})
          rows
  end.

(** *** Answer resolver *)

Definition mk_answer (found : bool) (d : pystr) (st : status) : answer :=
  {| match_found := found; excel_text := []; data_str := d;
     answer_status := st |}.

(** [str({...})] *)
Definition descriptor (d : pydict) : pystr := dict_str str_repr d.

Definition sub_label (sub : pystr) : pystr :=
  if Str.eqb sub (py "-") then py "NA" else sub.

(** The sub-code table of the [SUB_TABLE] and [SINGLE] answers. *)
Definition sub_table (rows : list record) : pystr :=
  join NL
    ([py "| Sub-Code | Description / Values |"; py "| :--- | :--- |"]
     ++ map (fun r =>
               py "| " ++ sub_label (SUB_CODE_COL r) ++ py " | "
               ++ format_clean_description (DESCRIPTION_COL r) ++ py " |")
            rows).

(** [re.search(r'\(Code: (\d+)\)', s)]: group 1 of the leftmost match. *)
Definition code_tag_at (s : pystr) : option pystr :=
  match strip_prefix CODE_TAG_OPEN s with
  | Some rest => digits_then 41 rest
  | None => None
  end.

Fixpoint code_tag_search (s : pystr) : option pystr :=
  match code_tag_at s with
  | Some code => Some code
  | None =>
      match s with
      | [] => None
      | _ :: t => code_tag_search t
      end
  end.

(** [history[-1]['content']] when the history is not empty. *)
Definition last_content (history : list turn) : option pystr :=
  match rev history with
  | [] => None
  | t :: _ => Some (content t)
  end.

Definition rows_with_code (df : list record) (code : pystr) : list record :=
  filter (fun r => Str.eqb (CODE_COL r) code) df.

Definition confirmation_answer (df : list record) (history : list turn)
  : answer :=
  match last_content history with
  | Some last_msg =>
      match (if contains SUB_OFFER last_msg
             then code_tag_search last_msg else None) with
      | Some code =>
          mk_answer true
            (descriptor [(py "mode", py "SUB_TABLE");
                         (py "table", sub_table (rows_with_code df code));
                         (py "code", code)])
            READY
      | None =>
          if contains PROCEDURE_OFFER last_msg || contains BULB last_msg
          then mk_answer true (py "{}") SHOW_PROCEDURE
          else mk_answer false (py "{}") NONE
      end
  | None => mk_answer false (py "{}") NONE
  end.

(** The length of the first alternative that matches at the head of [s]. *)
Fixpoint first_alternative (alts : list pystr) (s : pystr) : option nat :=
  match alts with
  | [] => None
  | a :: more =>
      if startswith a s then Some (length a) else first_alternative more s
  end.

(** [re.sub('(a1|a2|...)', '', s)]: every leftmost match is deleted. *)
Fixpoint re_sub_alternatives (alts : list pystr) (skip : nat) (s : pystr)
  : pystr :=
  match s with
  | [] => []
  | c :: t =>
      match skip with
      | S k => re_sub_alternatives alts k t
      | O =>
          match first_alternative alts s with
          | Some n => re_sub_alternatives alts (Nat.pred n) t
          | None => c :: re_sub_alternatives alts 0 t
          end
      end
  end.

Definition search_term_of (user_text : pystr) : pystr :=
  strip isspace (re_sub_alternatives BOILERPLATE 0 user_text).

(** [\b] between two positions of a string. *)
Definition is_word (c : option N) : bool :=
  match c with
  | Some c => re_w c
  | None => false
  end.

Definition boundary (prev next : option N) : bool :=
  xorb (is_word prev) (is_word next).

Definition digits_exactly (n : nat) (s : pystr) : bool :=
  Nat.eqb (length (firstn n s)) n && forallb re_d (firstn n s).

(** The match of [\b\d{4,5}\b] at the head of [s], [prev] being the
    character before it: five digits are tried before four. *)
Definition code_token_at (prev : option N) (s : pystr) : option pystr :=
  if boundary prev (nth_error s 0) then
    if digits_exactly 5 s && boundary (nth_error s 4) (nth_error s 5)
    then Some (firstn 5 s)
    else if digits_exactly 4 s && boundary (nth_error s 3) (nth_error s 4)
    then Some (firstn 4 s)
    else None
  else None.

(** [re.findall(r'\b\d{4,5}\b', s)] *)
Fixpoint findall_codes (prev : option N) (skip : nat) (s : pystr)
  : list pystr :=
  match s with
  | [] => []
  | c :: t =>
      match skip with
      | S k => findall_codes (Some c) k t
      | O =>
          match code_token_at prev s with
          | Some tok => tok :: findall_codes (Some c) (Nat.pred (length tok)) t
          | None => findall_codes (Some c) 0 t
          end
      end
  end.

(** The rows found by name: an exact match on the lowercased name, else
    [str.contains], which compiles the term as a regular expression. *)
Definition rows_with_name (df : list record) (search_term : pystr)
  : outcome (list record) :=
  match filter (fun r => Str.eqb (str_lower (NAME_COL r)) search_term) df with
  | [] =>
      if re_valid search_term
      then Returns
             (filter (fun r => re_search search_term (str_lower (NAME_COL r)))
                     df)
      else Raises ReError
  | rows => Returns rows
  end.

Definition name_only (name code : pystr) : answer :=
  mk_answer true
    (descriptor [(py "mode", py "NAME_ONLY"); (py "name", name);
                 (py "code", code)])
    READY.

(** [rows.iloc[0]] *)
Definition iloc0 (rows : list record) : outcome record :=
  match rows with
  | [] => Raises IndexError
  | r :: _ => Returns r
  end.

(** The rows of the [LIST] table, in the order the source emits them. *)
Definition match_list (rows : list record) : list (pystr * pystr) :=
  map (fun r => (CODE_COL r, NAME_COL r))
    (drop_duplicates pair_eqb (fun r => (CODE_COL r, NAME_COL r)) rows).

Definition list_table (pairs : list (pystr * pystr)) : pystr :=
  py "| Access Code | Setting Name |" ++ NL ++ py "| :--- | :--- |" ++ NL
  ++ concat (map (fun p => py "| " ++ fst p ++ py " | " ++ snd p
                           ++ py " |" ++ NL) pairs).

Definition compare_cell (rows : list record) (c sub : pystr) : pystr :=
  match filter (fun r => Str.eqb (CODE_COL r) c
                         && Str.eqb (SUB_CODE_COL r) sub) rows with
  | [] => py "-"
  | r :: _ => format_clean_description (DESCRIPTION_COL r)
  end.

Definition compare_table (rows : list record) (c1 n1 c2 n2 : pystr) : pystr :=
  join NL
    ([py "| Sub | " ++ c1 ++ py " (" ++ n1 ++ py ") | " ++ c2 ++ py " ("
        ++ n2 ++ py ") |";
      py "| :--- | :--- | :--- |"]
     ++ map (fun sub =>
               py "| " ++ sub_label sub ++ py " | "
               ++ compare_cell rows c1 sub ++ py " | "
               ++ compare_cell rows c2 sub ++ py " |")
            (sorted (unique (map SUB_CODE_COL rows)))).

(** Lines 143-177: the answer for the rows found. *)
Definition process_results (search_term : pystr) (rows : list record)
  : outcome answer :=
  match rows with
  | [] =>
      Returns (mk_answer true
                 (descriptor [(py "mode", py "NOT_FOUND");
                              (py "query", search_term)])
                 DATA_MISSING)
  | _ :: _ =>
      let unique_codes := sorted (unique (map CODE_COL rows)) in
      if Nat.ltb 2 (length unique_codes) then
        Returns (mk_answer true
                   (descriptor [(py "mode", py "LIST");
                                (py "query", str_upper search_term);
                                (py "content", list_table (match_list rows))])
                   READY)
      else if Nat.eqb (length unique_codes) 2 then
        let c1 := nth 0 unique_codes [] in
        let c2 := nth 1 unique_codes [] in
        r1 <- iloc0 (rows_with_code rows c1) ;;
        r2 <- iloc0 (rows_with_code rows c2) ;;
        Returns (mk_answer true
                   (descriptor [(py "mode", py "COMPARE");
                                (py "query", str_upper search_term);
                                (py "table",
                                 compare_table rows c1 (NAME_COL r1)
                                   c2 (NAME_COL r2))])
                   READY)
      else
        let rows := drop_duplicates Str.eqb SUB_CODE_COL rows in
        r0 <- iloc0 rows ;;
        Returns (mk_answer true
                   (descriptor [(py "mode", py "SINGLE");
                                (py "name", NAME_COL r0);
                                (py "code", CODE_COL r0);
                                (py "table", sub_table rows)])
                   READY)
  end.

(** Lines 121-141: the rows for the search term, or the answer that
    short-circuits the search. *)
Definition search_rows (df : list record) (intent : intent)
    (search_term : pystr) : outcome (answer + list record) :=
  match findall_codes None 0 search_term with
  | code :: _ =>
      let rows := rows_with_code df code in
      match intent, rows with
      | NAME_QUERY, r :: _ => Returns (inl (name_only (NAME_COL r) code))
      | _, _ => Returns (inr rows)
      end
  | [] =>
      rows <- rows_with_name df search_term ;;
      match intent, rows with
      | CODE_QUERY, r :: _ =>
          Returns (inl (name_only (NAME_COL r) (CODE_COL r)))
      | _, _ => Returns (inr rows)
      end
  end.

Definition technical_search (df : list record) (intent : intent)
    (user_text : pystr) : outcome answer :=
  let search_term := search_term_of user_text in
  if Nat.ltb (length search_term) 2 || Str.eqb search_term (py "ok")
  then Returns (mk_answer false (py "{}") NONE)
  else
    found <- search_rows df intent search_term ;;
    match found with
    | inl short => Returns short
    | inr rows => process_results search_term rows
    end.

Definition find_best_answer (df : list record) (user_prompt : pystr)
    (history : list turn) : outcome answer :=
  match df with
  | [] =>
      Returns (mk_answer true (descriptor [(py "mode", py "NOT_FOUND")])
                 DATA_MISSING)
  | _ :: _ =>
      let user_text := strip isspace (str_lower user_prompt) in
      match detect_intent user_text with
      | EXIT =>
          Returns (mk_answer true (descriptor [(py "mode", py "EXIT")]) READY)
      | CONVERSATIONAL => Returns (mk_answer false (py "{}") NONE)
      | CONFIRMATION => Returns (confirmation_answer df history)
      | intent => technical_search df intent user_text
      end
  end.

(** *** Response renderer *)

(** [info.get(key)] *)
Fixpoint dict_get (info : list (pystr * pyval)) (key : pystr) : option pyval :=
  match info with
  | [] => None
  | (k, v) :: more => if Str.eqb k key then Some v else dict_get more key
  end.

(** What an f-string shows for a value, and for [None]. *)
Definition shown_value (v : pyval) : pystr :=
  match v with
  | VStr s => s
  | VOther shown => shown
  end.

Definition shown_get (info : list (pystr * pyval)) (key : pystr) : pystr :=
  match dict_get info key with
  | Some v => shown_value v
  | None => py "None"
  end.

(** [info[key]] inside an f-string; [None] is the [KeyError]. *)
Definition shown_item (info : list (pystr * pyval)) (key : pystr)
  : option pystr :=
  option_map shown_value (dict_get info key).

(** [mode == tag] *)
Definition mode_is (mode : option pyval) (tag : pystr) : bool :=
  match mode with
  | Some (VStr s) => Str.eqb s tag
  | _ => false
  end.

Definition SUB_CODE_QUESTION (code : pystr) : pystr :=
  py "**." ++ NL ++ NL ++ py " " ++ BULB
  ++ py " Do you want to know the sub code for that? (Code: " ++ code
  ++ py ")".

Definition name_only_text (current_intent : intent) (name code : pystr)
  : pystr :=
  match current_intent with
  | NAME_QUERY =>
      py "The setting name for **" ++ code ++ py "** is **" ++ name
      ++ SUB_CODE_QUESTION code
  | _ =>
      py "The Access Code for **" ++ name ++ py "** is **" ++ code
      ++ SUB_CODE_QUESTION code
  end.

Definition sub_table_text (code table : pystr) : pystr :=
  py "Here are the sub codes for code **" ++ code ++ py "**:" ++ NL ++ NL
  ++ table ++ NL ++ NL ++ py " " ++ BULB
  ++ py " Do you want to know how to set the 08 code?".

Definition single_text (name code table : pystr) : pystr :=
  py "Technical Record for **" ++ name ++ py "** (Code: " ++ code ++ py ")"
  ++ NL ++ NL ++ table ++ NL ++ NL ++ BULB
  ++ py " **Suggestion:** Type **Yes** to see the 08 procedure.".

Definition list_text (query content : pystr) : pystr :=
  py "I found several entries for **" ++ query ++ py "**:" ++ NL ++ NL
  ++ content ++ NL ++ NL ++ BULB
  ++ py " Please type the specific **Access Code** you need.".

Definition compare_text (query table : pystr) : pystr :=
  py "### " ++ [240; 376; 8220; 352]%N ++ py " Side-by-Side Comparison: "
  ++ query ++ NL ++ NL ++ table ++ NL ++ NL ++ BULB
  ++ py " **Tip:** Use these to check state differences.".

(** The body of the [try] block; [None] when it raises before it yields. *)
Definition render_descriptor (user_prompt data_str : pystr) : option pystr :=
  match literal_eval data_str with
  | None => None
  | Some PyOther => None
  | Some (PyDict info) =>
      let mode := dict_get info (py "mode") in
      if mode_is mode (py "EXIT") then Some EXIT_MESSAGE
      else if mode_is mode (py "NAME_ONLY") then
        match shown_item info (py "code"), shown_item info (py "name") with
        | Some code, Some name =>
            Some (name_only_text (detect_intent user_prompt) name code)
        | _, _ => None
        end
      else if mode_is mode (py "SUB_TABLE") then
        match shown_item info (py "code"), shown_item info (py "table") with
        | Some code, Some table => Some (sub_table_text code table)
        | _, _ => None
        end
      else if mode_is mode (py "SINGLE") then
        match shown_item info (py "name"), shown_item info (py "code"),
              shown_item info (py "table") with
        | Some name, Some code, Some table =>
            Some (single_text name code table)
        | _, _, _ => None
        end
      else if mode_is mode (py "LIST") then
        match shown_item info (py "content") with
        | Some content => Some (list_text (shown_get info (py "query")) content)
        | None => None
        end
      else if mode_is mode (py "COMPARE") then
        match shown_item info (py "table") with
        | Some table => Some (compare_text (shown_get info (py "query")) table)
        | None => None
        end
      else Some GREETING
  end.

(** The chunks the generator yields. *)
Definition generate_ai_response (user_prompt : pystr) (history : list turn)
    (data_str : pystr) (intent : intent) (status : status) : list pystr :=
  match status with
  | DATA_MISSING => [NOT_FOUND_MESSAGE]
  | SHOW_PROCEDURE => [PROCEDURE_TEXT]
  | _ =>
      match render_descriptor user_prompt data_str with
      | Some text => [text]
      | None => [FALLBACK_GREETING]
      end
  end.

(** The text stored as the assistant's turn: the chunks accumulated by
    [chat_submit]. *)
Definition full_response (chunks : list pystr) : pystr := concat chunks.

End Engine.

(** ** Notions of the specification *)

(** The tags the renderer knows. *)
Definition known_tags : list pystr := Eval cbv in
  [py "EXIT"; py "NAME_ONLY"; py "SUB_TABLE"; py "SINGLE"; py "LIST";
   py "COMPARE"].

Section Notions.

Context {R : PyRuntime}.

(** The tag of a descriptor string: the ["mode"] of the dict it decodes to. *)
Definition descriptor_mode (data : pystr) : option pystr :=
  match literal_eval data with
  | Some (PyDict info) =>
      match dict_get info (py "mode") with
      | Some (VStr m) => Some m
      | _ => None
      end
  | _ => None
  end.

(** The fields of a tagged result that the renderer reads with
    [info[...]], by tag. *)
Definition payload_keys (tag : pystr) : list pystr :=
  if Str.eqb tag (py "NAME_ONLY") then [py "code"; py "name"]
  else if Str.eqb tag (py "SUB_TABLE") then [py "code"; py "table"]
  else if Str.eqb tag (py "SINGLE") then [py "name"; py "code"; py "table"]
  else if Str.eqb tag (py "LIST") then [py "content"]
  else if Str.eqb tag (py "COMPARE") then [py "table"]
  else [].

Definition has_key (info : list (pystr * pyval)) (key : pystr) : bool :=
  match dict_get info key with
  | Some _ => true
  | None => false
  end.

(** The descriptor string parses into a tagged result: it decodes to a dict
    whose mode is a known tag and which holds the fields of that tag. *)
Definition parses (data : pystr) : bool :=
  match literal_eval data with
  | Some (PyDict info) =>
      existsb
        (fun tag =>
           mode_is (dict_get info (py "mode")) tag
           && forallb (has_key info) (payload_keys tag))
        known_tags
  | _ => false
  end.

(** The intent [find_best_answer] works with. *)
Definition intent_of (user_prompt : pystr) : intent :=
  detect_intent (strip isspace (str_lower user_prompt)).

(** The utterance gets past the guard of line 124. *)
Definition searchable (user_prompt : pystr) : Prop :=
  let term := search_term_of (strip isspace (str_lower user_prompt)) in
  2 <= length term /\ term <> py "ok".

End Notions.

(** The histories the conversation layer hands over: [add_new_conversation]
    and [append_to_conversation] store a user turn and the assistant's
    answer together. *)
Inductive conversation : list turn -> Prop :=
| conversation_empty : conversation []
| conversation_pair (history : list turn) (prompt response : pystr) :
    conversation history ->
    conversation
      (history ++ [{| role := py "user"; content := prompt |};
                   {| role := py "assistant"; content := response |}]).

(** The content of the most recent assistant turn. *)
Definition last_assistant_content (history : list turn) : option pystr :=
  match filter (fun t => Str.eqb (role t) (py "assistant")) (rev history) with
  | [] => None
  | t :: _ => Some (content t)
  end.

(** [rows] has exactly [n] distinct codes. *)
Definition distinct_codes (rows : list record) (n : nat) : Prop :=
  exists codes,
    NoDup codes
    /\ (forall c, In c codes <-> exists r, In r rows /\ CODE_COL r = c)
    /\ length codes = n.

(** The elements of a list without repetition, each at its first place. *)
Fixpoint first_occurrences (l : list (pystr * pystr)) : list (pystr * pystr) :=
  match l with
  | [] => []
  | p :: t => p :: filter (fun q => negb (pair_eqb q p)) (first_occurrences t)
  end.

(** Ascending order of a list of codes. *)
Fixpoint ascending (l : list pystr) : bool :=
  match l with
  | [] => true
  | x :: t =>
      match t with
      | [] => true
      | y :: _ => Str.leb x y && ascending t
      end
  end.

(** The tag and the status the specification gives for [n] distinct codes. *)
Definition tag_for (n : nat) : pystr * status :=
  match n with
  | 0 => (py "NOT_FOUND", DATA_MISSING)
  | 1 => (py "SINGLE", READY)
  | 2 => (py "COMPARE", READY)
  | _ => (py "LIST", READY)
  end.

(** Every character is one of [0-9]. *)
Definition ascii_digits (s : pystr) : bool := forallb ascii_digit s.

(** The descriptors of the three answers that show search results. *)
Inductive result_payload :=
| Single (name code table : pystr)
| Listing (query content : pystr)
| Comparison (query table : pystr).

Definition result_dict (p : result_payload) : pydict :=
  match p with
  | Single name code table =>
      [(py "mode", py "SINGLE"); (py "name", name); (py "code", code);
       (py "table", table)]
  | Listing query content =>
      [(py "mode", py "LIST"); (py "query", query); (py "content", content)]
  | Comparison query table =>
      [(py "mode", py "COMPARE"); (py "query", query); (py "table", table)]
  end.

(** The texts of the records and of the query that such an answer shows. *)
Definition payload_texts (p : result_payload) : list pystr :=
  match p with
  | Single name code table => [name; code; table]
  | Listing query content => [query; content]
  | Comparison query table => [query; table]
  end.

(** What the renderer makes of such a descriptor. *)
Definition result_text (p : result_payload) : pystr :=
  match p with
  | Single name code table => single_text name code table
  | Listing query content => list_text query content
  | Comparison query table => compare_text query table
  end.

(** ** Sample inputs *)

Definition mk_record (code name sub description : String.string) : record :=
  {| CODE_COL := py code; NAME_COL := py name; SUB_CODE_COL := py sub;
     DESCRIPTION_COL := py description |}.
Arguments mk_record (code name sub description)%_string.

Definition user_turn (text : pystr) : turn :=
  {| role := py "user"; content := text |}.
Definition assistant_turn (text : pystr) : turn :=
  {| role := py "assistant"; content := text |}.

(** Three settings whose names share a word, stored in descending order of
    their codes. *)
Definition mode_store : list record :=
  [mk_record "3000" "mode a" "-" "0: Off 1: On";
   mk_record "2000" "mode b" "1" "No data";
   mk_record "1000" "mode c" "-" "No data"].

Definition abc_store : list record := [mk_record "1000" "abc" "-" "No data"].

(** The store of the scenarios: a setting with two sub-codes, and another. *)
Definition network_store : list record :=
  [mk_record "621" "Network Protocol" "-" "0: Off 1: On";
   mk_record "621" "Network Protocol" "1" "No data";
   mk_record "700" "Fax Mode" "-" "No data"].

(** A setting whose name quotes another code. *)
Definition fax_store : list record :=
  [mk_record "621" "Fax (Code: 999)" "-" "0: Off 1: On"].

(** A setting whose name contains the words of the sub-code offer. *)
Definition offer_store : list record :=
  [mk_record "1234" "know the sub code" "-" "No data"].

(** ** A reference runtime

    The smallest runtime the examples run on: case mapping, whitespace and
    character classes of the ASCII range (with the Arabic-Indic digits),
    [repr] and [literal_eval] for dicts of strings quoted with ['], and a
    pattern engine that accepts the patterns without special characters. *)

Module Reference.

Definition lower (s : pystr) : pystr := map ascii_lower s.
Definition upper (s : pystr) : pystr := map ascii_upper s.

Definition arabic_indic (c : N) : bool := N.leb 1632 c && N.leb c 1641.
Definition digit (c : N) : bool := ascii_digit c || arabic_indic c.
Definition word (c : N) : bool := ascii_word c || arabic_indic c.

Definition escape (s : pystr) : pystr :=
  flat_map (fun c => if N.eqb c 39 || N.eqb c 92 then [92%N; c] else [c]) s.

Definition repr (s : pystr) : pystr := [39%N] ++ escape s ++ [39%N].

(** The body of a quoted string up to its closing quote, and what follows. *)
Fixpoint unescape (s : pystr) : option (pystr * pystr) :=
  match s with
  | [] => None
  | c :: t =>
      if N.eqb c 39 then Some ([], t)
      else if N.eqb c 92 then
        match t with
        | e :: t' =>
            if N.eqb e 39 || N.eqb e 92 then
              match unescape t' with
              | Some (body, rest) => Some (e :: body, rest)
              | None => None
              end
            else None
        | [] => None
        end
      else
        match unescape t with
        | Some (body, rest) => Some (c :: body, rest)
        | None => None
        end
  end.

Definition read_str (s : pystr) : option (pystr * pystr) :=
  match s with
  | c :: t => if N.eqb c 39 then unescape t else None
  | [] => None
  end.

Fixpoint read_items (fuel : nat) (s : pystr) : option pydict :=
  match fuel with
  | O => None
  | S fuel' =>
      match read_str s with
      | Some (k, r1) =>
          match strip_prefix (py ": ") r1 with
          | Some r2 =>
              match read_str r2 with
              | Some (v, r3) =>
                  if Str.eqb r3 [125%N] then Some [(k, v)]
                  else
                    match strip_prefix (py ", ") r3 with
                    | Some r4 =>
                        match read_items fuel' r4 with
                        | Some d => Some ((k, v) :: d)
                        | None => None
                        end
                    | None => None
                    end
              | None => None
              end
          | None => None
          end
      | None => None
      end
  end.

Definition eval (s : pystr) : option pyobj :=
  match s with
  | c :: t =>
      if N.eqb c 123 then
        if Str.eqb t [125%N] then Some (PyDict [])
        else
          match read_items (length t) t with
          | Some d => Some (PyDict (as_items d))
          | None => None
          end
      else None
  | [] => None
  end.

(** One entry of [str(d)]. *)
Definition item (kv : pystr * pystr) : pystr :=
  repr (fst kv) ++ py ": " ++ repr (snd kv).

Definition valid (p : pystr) : bool := forallb re_plain p.

End Reference.

(** * Properties *)

(** ** Strings *)

Lemma eqb_refl (a : pystr) : Str.eqb a a = true.
Proof.
  induction a as [|x a IH]; simpl; [reflexivity|].
  now rewrite N.eqb_refl, IH.
Qed.

Lemma eqb_eq (a b : pystr) : Str.eqb a b = true <-> a = b.
Proof.
  split; [|intros ->; apply eqb_refl].
  revert b; induction a as [|x a IH]; intros [|y b]; simpl;
    try discriminate; try reflexivity.
  intros H. apply andb_true_iff in H as [Hx Hab].
  apply N.eqb_eq in Hx. apply IH in Hab. now subst.
Qed.

Lemma eqb_neq (a b : pystr) : Str.eqb a b = false <-> a <> b.
Proof.
  rewrite <- eqb_eq. destruct (Str.eqb a b); split; intros H;
    try discriminate; try reflexivity; try congruence.
Qed.

Lemma strip_prefix_app (p s : pystr) : strip_prefix p (p ++ s) = Some s.
Proof.
  induction p as [|x p IH]; simpl; [reflexivity|].
  now rewrite N.eqb_refl.
Qed.

Lemma strip_prefix_Some (p s r : pystr) :
  strip_prefix p s = Some r -> s = p ++ r.
Proof.
  revert s; induction p as [|x p IH]; intros s; simpl.
  - now intros [= ->].
  - destruct s as [|y s]; [discriminate|].
    destruct (N.eqb x y) eqn:E; [|discriminate].
    apply N.eqb_eq in E. subst y. intros H. now rewrite (IH _ H).
Qed.

(** A prefix cannot reach over a character it does not contain. *)
Lemma strip_prefix_sep (p a b r : pystr) (c : N) :
  ~ In c p ->
  strip_prefix p (a ++ c :: b) = Some r ->
  exists a', strip_prefix p a = Some a' /\ r = a' ++ c :: b.
Proof.
  revert a; induction p as [|x p IH]; intros a Hc; simpl.
  - intros [= <-]. now exists a.
  - destruct a as [|y a]; simpl.
    + destruct (N.eqb x c) eqn:E; [|discriminate].
      apply N.eqb_eq in E. subst. exfalso. apply Hc. now left.
    + destruct (N.eqb x y); [|discriminate].
      apply IH. intros H. apply Hc. now right.
Qed.

Lemma startswith_app (p s : pystr) : startswith p (p ++ s) = true.
Proof. unfold startswith. now rewrite strip_prefix_app. Qed.

Lemma startswith_true (p s : pystr) :
  startswith p s = true -> exists r, s = p ++ r.
Proof.
  unfold startswith. destruct (strip_prefix p s) as [r|] eqn:E;
    [|discriminate].
  intros _. exists r. now apply strip_prefix_Some.
Qed.

Lemma startswith_sep (n a b : pystr) (c : N) :
  ~ In c n -> startswith n (a ++ c :: b) = startswith n a.
Proof.
  intros Hc. unfold startswith.
  destruct (strip_prefix n (a ++ c :: b)) as [r|] eqn:E.
  - destruct (strip_prefix_sep _ _ _ _ _ Hc E) as [a' [Ha _]]. now rewrite Ha.
  - destruct (strip_prefix n a) as [a'|] eqn:Ea; [|reflexivity].
    apply strip_prefix_Some in Ea. subst a.
    rewrite <- app_assoc, strip_prefix_app in E. discriminate.
Qed.

Lemma contains_cons (n : pystr) (c : N) (s : pystr) :
  contains n (c :: s) = startswith n (c :: s) || contains n s.
Proof. reflexivity. Qed.

Lemma contains_prefix (n b : pystr) : contains n (n ++ b) = true.
Proof.
  destruct (n ++ b) eqn:E; simpl; rewrite <- E, startswith_app; reflexivity.
Qed.

Lemma contains_app_r (n a b : pystr) :
  contains n b = true -> contains n (a ++ b) = true.
Proof.
  intros H. induction a as [|x a IH]; simpl; [assumption|].
  rewrite IH. apply orb_true_r.
Qed.

Lemma contains_spec (n h : pystr) :
  contains n h = true <-> exists a b, h = a ++ n ++ b.
Proof.
  split.
  - induction h as [|x h IH]; simpl.
    + rewrite orb_false_r. intros H. apply startswith_true in H as [r ->].
      now exists [], r.
    + intros H. apply orb_true_iff in H as [H|H].
      * apply startswith_true in H as [r ->]. now exists [], r.
      * destruct (IH H) as [a [b ->]]. now exists (x :: a), b.
  - intros [a [b ->]]. apply contains_app_r, contains_prefix.
Qed.

(** An occurrence cannot lie across a character the needle does not have. *)
Lemma contains_sep (n a b : pystr) (c : N) :
  ~ In c n -> contains n (a ++ c :: b) = contains n a || contains n b.
Proof.
  intros Hc. induction a as [|y a IH].
  - simpl app. rewrite contains_cons.
    change (c :: b) with ([] ++ c :: b). rewrite (startswith_sep _ [] b _ Hc).
    destruct n as [|x n]; reflexivity.
  - change ((y :: a) ++ c :: b) with (y :: (a ++ c :: b)).
    rewrite !contains_cons, IH.
    change (y :: a ++ c :: b) with ((y :: a) ++ c :: b).
    rewrite (startswith_sep _ (y :: a) b _ Hc). now rewrite orb_assoc.
Qed.

Lemma dropwhile_suffix (f : N -> bool) (s : pystr) :
  exists a, s = a ++ dropwhile f s /\ forallb f a = true.
Proof.
  induction s as [|c s [a [IH Ha]]]; simpl.
  - now exists [].
  - destruct (f c) eqn:E.
    + exists (c :: a). simpl. rewrite E, Ha. split; [now f_equal | reflexivity].
    + now exists [].
Qed.

Lemma dropwhile_head (f : N -> bool) (s : pystr) (c : N) (t : pystr) :
  dropwhile f s = c :: t -> f c = false.
Proof.
  induction s as [|x s IH]; simpl; [discriminate|].
  destruct (f x) eqn:E; [assumption|]. now intros [= <- _].
Qed.

Lemma dropwhile_fixed (f : N -> bool) (s : pystr) :
  match s with [] => True | c :: _ => f c = false end ->
  dropwhile f s = s.
Proof. destruct s as [|c s]; simpl; [reflexivity|]. now intros ->. Qed.

Lemma dropwhile_ext (f g : N -> bool) (s : pystr) :
  (forall c, In c s -> f c = g c) -> dropwhile f s = dropwhile g s.
Proof.
  induction s as [|c s IH]; intros H; simpl; [reflexivity|].
  rewrite <- (H c (or_introl eq_refl)).
  destruct (f c); [|reflexivity]. apply IH. intros x Hx. apply H. now right.
Qed.

Lemma dropwhile_incl (f : N -> bool) (s : pystr) (c : N) :
  In c (dropwhile f s) -> In c s.
Proof.
  induction s as [|x s IH]; simpl; [tauto|].
  destruct (f x); [|tauto]. intros H. right. now apply IH.
Qed.

Lemma strip_incl (sp : N -> bool) (s : pystr) (c : N) :
  In c (strip sp s) -> In c s.
Proof.
  unfold strip. intros H. apply in_rev in H.
  apply dropwhile_incl in H. apply in_rev in H.
  now apply dropwhile_incl in H.
Qed.

Lemma strip_forallb (sp f : N -> bool) (s : pystr) :
  forallb f s = true -> forallb f (strip sp s) = true.
Proof.
  rewrite !forallb_forall. intros H c Hc. apply H.
  eapply strip_incl; eassumption.
Qed.

Lemma strip_ext (f g : N -> bool) (s : pystr) :
  (forall c, In c s -> f c = g c) -> strip f s = strip g s.
Proof.
  intros H. unfold strip.
  rewrite (dropwhile_ext f g s H). f_equal. apply dropwhile_ext.
  intros c Hc. apply H. apply in_rev in Hc.
  eapply dropwhile_incl; eassumption.
Qed.

(** The last character of a stripped string is not white. *)
Lemma strip_rev_head (sp : N -> bool) (s : pystr) :
  match rev (strip sp s) with [] => True | c :: _ => sp c = false end.
Proof.
  unfold strip. rewrite rev_involutive.
  destruct (dropwhile sp (rev (dropwhile sp s))) eqn:E; [exact I|].
  eapply dropwhile_head; eassumption.
Qed.

Lemma strip_head (sp : N -> bool) (s : pystr) :
  match strip sp s with [] => True | c :: _ => sp c = false end.
Proof.
  unfold strip.
  destruct (dropwhile_suffix sp (rev (dropwhile sp s))) as [a [E Ha]].
  set (x := dropwhile sp (rev (dropwhile sp s))) in *.
  destruct (rev x) as [|c t] eqn:Ex; [exact I|].
  assert (Hr : dropwhile sp s = rev x ++ rev a).
  { rewrite <- rev_app_distr, <- E. now rewrite rev_involutive. }
  rewrite Ex in Hr. simpl in Hr.
  eapply dropwhile_head; eassumption.
Qed.

Lemma strip_idem (sp : N -> bool) (s : pystr) :
  strip sp (strip sp s) = strip sp s.
Proof.
  pose proof (strip_head sp s) as Hh.
  pose proof (strip_rev_head sp s) as Hl.
  set (x := strip sp s) in *. unfold strip at 1.
  rewrite (dropwhile_fixed sp x Hh), (dropwhile_fixed sp (rev x) Hl).
  apply rev_involutive.
Qed.

Lemma before_fixed (sep : N) (s : pystr) : ~ In sep s -> before sep s = s.
Proof.
  induction s as [|c s IH]; simpl; [reflexivity|]. intros H.
  destruct (N.eqb c sep) eqn:E.
  - apply N.eqb_eq in E. exfalso. apply H. now left.
  - f_equal. apply IH. tauto.
Qed.

Lemma before_incl (sep : N) (s : pystr) (c : N) :
  In c (before sep s) -> In c s.
Proof.
  induction s as [|x s IH]; simpl; [tauto|].
  destruct (N.eqb x sep); simpl; [tauto|]. intros [H|H]; [now left|].
  right. now apply IH.
Qed.

Lemma filter_fixed (f : N -> bool) (s : pystr) :
  forallb f s = true -> filter f s = s.
Proof.
  induction s as [|c s IH]; simpl; [reflexivity|].
  intros H. apply andb_true_iff in H as [Hc Hs]. rewrite Hc. f_equal. auto.
Qed.

Lemma filter_forallb (f : N -> bool) (s : pystr) :
  forallb f (filter f s) = true.
Proof.
  apply forallb_forall. intros c Hc. now apply filter_In in Hc.
Qed.

(** ** Lists: first occurrences and sorting *)

Section Dedup.

Variables (A K : Type) (keq : K -> K -> bool) (key : A -> K).
Hypothesis keq_eq : forall a b, keq a b = true <-> a = b.

Lemma existsb_keq (k : K) (seen : list K) :
  existsb (keq k) seen = true <-> In k seen.
Proof.
  rewrite existsb_exists. split.
  - intros [y [Hy E]]. apply keq_eq in E. now subst.
  - intros H. exists k. split; [assumption | now apply keq_eq].
Qed.

Lemma dedup_from_keys (seen : list K) (l : list A) (k : K) :
  In k (map key (dedup_from keq key seen l))
  <-> In k (map key l) /\ ~ In k seen.
Proof.
  revert seen; induction l as [|x l IH]; intros seen; simpl; [tauto|].
  destruct (existsb (keq (key x)) seen) eqn:E.
  - apply existsb_keq in E. rewrite IH. split.
    + intros [H1 H2]. tauto.
    + intros [[H1|H1] H2]; [subst; contradiction | tauto].
  - assert (Hx : ~ In (key x) seen).
    { intros H. apply existsb_keq in H. congruence. }
    simpl. rewrite IH. simpl. split.
    + intros [H|[H1 H2]]; [subst; tauto | tauto].
    + intros [[H|H] H2]; [now left|].
      destruct (keq (key x) k) eqn:Ek.
      * apply keq_eq in Ek. now left.
      * right. split; [assumption|]. intros [H3|H3]; [|contradiction].
        apply keq_eq in H3. congruence.
Qed.

Lemma dedup_from_NoDup (seen : list K) (l : list A) :
  NoDup (map key (dedup_from keq key seen l)).
Proof.
  revert seen; induction l as [|x l IH]; intros seen; simpl; [constructor|].
  destruct (existsb (keq (key x)) seen); [apply IH|].
  simpl. constructor; [|apply IH].
  rewrite dedup_from_keys. simpl. tauto.
Qed.

End Dedup.

Lemma dedup_from_head {A K : Type} (keq : K -> K -> bool) (key : A -> K)
    (x : A) (l : list A) :
  dedup_from keq key [] (x :: l) = x :: dedup_from keq key [key x] l.
Proof. reflexivity. Qed.

Lemma pair_eqb_eq (a b : pystr * pystr) : pair_eqb a b = true <-> a = b.
Proof.
  destruct a as [a1 a2], b as [b1 b2]. unfold pair_eqb. simpl.
  rewrite andb_true_iff, !eqb_eq. split; [intros [-> ->] | intros [= -> ->]];
    auto.
Qed.

Lemma unique_In (l : list pystr) (c : pystr) : In c (unique l) <-> In c l.
Proof.
  unfold unique.
  pose proof (dedup_from_keys _ _ Str.eqb (fun x : pystr => x) eqb_eq [] l c)
    as H.
  rewrite !map_id in H. rewrite H. simpl. tauto.
Qed.

Lemma unique_NoDup (l : list pystr) : NoDup (unique l).
Proof.
  unfold unique.
  pose proof (dedup_from_NoDup _ _ Str.eqb (fun x : pystr => x) eqb_eq [] l)
    as H.
  now rewrite map_id in H.
Qed.

Lemma insert_sorted_perm (x : pystr) (l : list pystr) :
  Permutation (insert_sorted x l) (x :: l).
Proof.
  induction l as [|y l IH]; simpl; [reflexivity|].
  destruct (Str.leb x y); [reflexivity|].
  rewrite IH. apply perm_swap.
Qed.

Lemma sorted_perm (l : list pystr) : Permutation (sorted l) l.
Proof.
  induction l as [|x l IH]; simpl; [reflexivity|].
  rewrite insert_sorted_perm. now constructor.
Qed.

(** The number of entries of [sorted(rows[CODE_COL].unique())]. *)
Lemma unique_codes_length (rows : list record) (n : nat) :
  distinct_codes rows n ->
  length (sorted (unique (map CODE_COL rows))) = n.
Proof.
  intros [codes [Hnd [Hin Hlen]]].
  rewrite (Permutation_length (sorted_perm _)), <- Hlen.
  apply Permutation_length, NoDup_Permutation;
    [apply unique_NoDup | assumption |].
  intros c. rewrite unique_In, Hin, in_map_iff.
  split; intros [r [H1 H2]]; exists r; tauto.
Qed.

Lemma distinct_codes_exists (rows : list record) :
  distinct_codes rows (length (unique (map CODE_COL rows))).
Proof.
  exists (unique (map CODE_COL rows)).
  split; [apply unique_NoDup|]. split; [|reflexivity].
  intros c. rewrite unique_In, in_map_iff.
  split; intros [r [H1 H2]]; exists r; tauto.
Qed.

Lemma distinct_codes_zero (rows : list record) :
  distinct_codes rows 0 <-> rows = [].
Proof.
  split.
  - intros [codes [_ [Hin Hlen]]]. destruct codes; [|discriminate].
    destruct rows as [|r rows]; [reflexivity|].
    exfalso. apply (Hin (CODE_COL r)). exists r. split; [now left|reflexivity].
  - intros ->. exists []. split; [constructor|]. split; [|reflexivity].
    intros c. split; [intros [] | intros [r [[] _]]].
Qed.

Lemma rows_with_code_nonempty (rows : list record) (c : pystr) :
  In c (map CODE_COL rows) -> rows_with_code rows c <> [].
Proof.
  intros H. apply in_map_iff in H as [r [Hc Hr]].
  assert (Hin : In r (rows_with_code rows c)).
  { apply filter_In. split; [assumption|]. now apply eqb_eq. }
  intros E. now rewrite E in Hin.
Qed.

(** ** The engine *)

Ltac distinct_keys :=
  vm_compute; repeat constructor; simpl; intuition discriminate.

Section Properties.

Context {R : PyRuntime}.

Lemma lower_strip_ascii (s : pystr) :
  forallb is_ascii s = true ->
  strip isspace (str_lower s) = strip ascii_space (map ascii_lower s).
Proof.
  intros H. rewrite (lower_ascii s H). apply strip_ext.
  intros c Hc. apply isspace_ascii.
  apply in_map_iff in Hc as [x [<- Hx]].
  rewrite forallb_forall in H. specialize (H x Hx).
  unfold is_ascii, ascii_lower, ascii_upper_letter in *.
  apply N.ltb_lt in H. apply N.ltb_lt.
  destruct (N.leb 65 x && N.leb x 90) eqn:E; [|assumption].
  apply andb_true_iff in E as [_ E]. apply N.leb_le in E. lia.
Qed.

Lemma descriptor_mode_descriptor (m : pystr) (d : pydict) :
  NoDup (map fst ((py "mode", m) :: d)) ->
  descriptor_mode (descriptor ((py "mode", m) :: d)) = Some m.
Proof.
  intros H. unfold descriptor_mode, descriptor.
  rewrite (literal_eval_dict_str _ H). reflexivity.
Qed.

Lemma unique_codes_In (rows : list record) (c : pystr) :
  In c (sorted (unique (map CODE_COL rows))) -> In c (map CODE_COL rows).
Proof.
  intros H. apply unique_In.
  eapply Permutation_in; [apply sorted_perm | exact H].
Qed.

(** Lines 143-177 never raise, and the tag follows the number of codes. *)
Lemma process_results_tag (term : pystr) (rows : list record) (n : nat) :
  distinct_codes rows n ->
  exists a,
    process_results term rows = Returns a
    /\ descriptor_mode (data_str a) = Some (fst (tag_for n))
    /\ answer_status a = snd (tag_for n).
Proof.
  intros Hn. pose proof (unique_codes_length _ _ Hn) as Hlen.
  destruct rows as [|r rows].
  - simpl in Hlen. subst n. eexists. split; [reflexivity|].
    split; [apply descriptor_mode_descriptor; distinct_keys | reflexivity].
  - remember (r :: rows) as rs eqn:Ers.
    assert (Hcase : process_results term rs =
      let unique_codes := sorted (unique (map CODE_COL rs)) in
      if Nat.ltb 2 (length unique_codes) then
        Returns (mk_answer true
                   (descriptor [(py "mode", py "LIST");
                                (py "query", str_upper term);
                                (py "content", list_table (match_list rs))])
                   READY)
      else if Nat.eqb (length unique_codes) 2 then
        let c1 := nth 0 unique_codes [] in
        let c2 := nth 1 unique_codes [] in
        r1 <- iloc0 (rows_with_code rs c1) ;;
        r2 <- iloc0 (rows_with_code rs c2) ;;
        Returns (mk_answer true
                   (descriptor [(py "mode", py "COMPARE");
                                (py "query", str_upper term);
                                (py "table",
                                 compare_table rs c1 (NAME_COL r1)
                                   c2 (NAME_COL r2))])
                   READY)
      else
        let rows := drop_duplicates Str.eqb SUB_CODE_COL rs in
        r0 <- iloc0 rows ;;
        Returns (mk_answer true
                   (descriptor [(py "mode", py "SINGLE");
                                (py "name", NAME_COL r0);
                                (py "code", CODE_COL r0);
                                (py "table", sub_table rows)])
                   READY)).
    { subst rs. reflexivity. }
    rewrite Hcase. clear Hcase. cbv zeta. rewrite Hlen.
    destruct n as [|[|[|n]]].
    + apply distinct_codes_zero in Hn. subst rs. discriminate.
    + simpl Nat.ltb. simpl Nat.eqb. cbv iota.
      subst rs. unfold drop_duplicates. rewrite dedup_from_head.
      eexists. split; [reflexivity|].
      split; [apply descriptor_mode_descriptor; distinct_keys | reflexivity].
    + simpl Nat.ltb. simpl Nat.eqb. cbv iota.
      set (codes := sorted (unique (map CODE_COL rs))) in *.
      assert (H1 : rows_with_code rs (nth 0 codes []) <> []).
      { apply rows_with_code_nonempty, unique_codes_In, nth_In.
        fold codes. lia. }
      assert (H2 : rows_with_code rs (nth 1 codes []) <> []).
      { apply rows_with_code_nonempty, unique_codes_In, nth_In.
        fold codes. lia. }
      destruct (rows_with_code rs (nth 0 codes [])) as [|r1 t1];
        [contradiction|].
      destruct (rows_with_code rs (nth 1 codes [])) as [|r2 t2];
        [contradiction|].
      eexists. split; [reflexivity|].
      split; [apply descriptor_mode_descriptor; distinct_keys | reflexivity].
    + simpl Nat.ltb. cbv iota.
      eexists. split; [reflexivity|].
      split; [apply descriptor_mode_descriptor; distinct_keys | reflexivity].
Qed.

Lemma technical_search_rows (df : list record) (i : intent)
    (user_text : pystr) (rows : list record) :
  2 <= length (search_term_of user_text) ->
  search_term_of user_text <> py "ok" ->
  search_rows df i (search_term_of user_text) = Returns (inr rows) ->
  technical_search df i user_text
  = process_results (search_term_of user_text) rows.
Proof.
  intros Hlen Hok Hrows. unfold technical_search. cbv zeta.
  assert (E1 : Nat.ltb (length (search_term_of user_text)) 2 = false)
    by (apply Nat.ltb_ge; exact Hlen).
  assert (E2 : Str.eqb (search_term_of user_text) (py "ok") = false)
    by (apply eqb_neq; exact Hok).
  rewrite E1, E2, Hrows. reflexivity.
Qed.

Lemma find_best_answer_search (r : record) (df : list record)
    (user_prompt : pystr) (history : list turn) :
  In (intent_of user_prompt) [TECHNICAL; NAME_QUERY; CODE_QUERY] ->
  find_best_answer (r :: df) user_prompt history
  = technical_search (r :: df) (intent_of user_prompt)
      (strip isspace (str_lower user_prompt)).
Proof.
  unfold find_best_answer, intent_of. cbv zeta.
  intros [H|[H|[H|[]]]]; rewrite <- H; reflexivity.
Qed.

(** X24.  With a non-empty record store and an utterance of intent
    TECHNICAL, NAME_QUERY or CODE_QUERY that passes the guard on the search
    term, whenever the search of lines 127-141 yields rows (the name filter
    does not raise and no NAME_ONLY answer short-circuits),
    [find_best_answer] returns a descriptor whose tag follows the number [n]
    of distinct codes among these rows: NOT_FOUND with status DATA_MISSING
    for no row, SINGLE for one code, COMPARE for two, LIST for three or
    more, the last three with status READY. *)
Theorem search_tag_by_distinct_codes (df : list record) (user_prompt : pystr)
    (history : list turn) (rows : list record) (n : nat) :
  df <> [] ->
  In (intent_of user_prompt) [TECHNICAL; NAME_QUERY; CODE_QUERY] ->
  searchable user_prompt ->
  search_rows df (intent_of user_prompt)
    (search_term_of (strip isspace (str_lower user_prompt)))
  = Returns (inr rows) ->
  distinct_codes rows n ->
  exists a,
    find_best_answer df user_prompt history = Returns a
    /\ descriptor_mode (data_str a) = Some (fst (tag_for n))
    /\ answer_status a = snd (tag_for n).
Proof.
  intros Hdf Hint [Hlen Hok] Hrows Hn.
  destruct df as [|r df]; [contradiction|].
  rewrite (find_best_answer_search _ _ _ _ Hint).
  rewrite (technical_search_rows _ _ _ _ Hlen Hok Hrows).
  apply process_results_tag, Hn.
Qed.

(** When the substring fallback gets a term with an unclosed parenthesis
    and no name equals the term, the name filter raises. *)
Lemma rows_with_name_unclosed (df : list record) (p : pystr) :
  forallb re_plain p = true ->
  (forall r, In r df -> str_lower (NAME_COL r) <> p ++ [40%N]) ->
  rows_with_name df (p ++ [40%N]) = Raises ReError.
Proof.
  intros Hp Hne. unfold rows_with_name.
  assert (E : filter (fun r => Str.eqb (str_lower (NAME_COL r)) (p ++ [40%N]))
                df = []).
  { induction df as [|r df IH]; simpl; [reflexivity|].
    assert (Hr : Str.eqb (str_lower (NAME_COL r)) (p ++ [40%N]) = false)
      by (apply eqb_neq, Hne; now left).
    rewrite Hr. apply IH. intros x Hx. apply Hne. now right. }
  rewrite E, (re_unclosed_group _ Hp). reflexivity.
Qed.

(** ** Confirmations *)

Lemma find_best_answer_confirmation (r : record) (df : list record)
    (user_prompt : pystr) (history : list turn) :
  intent_of user_prompt = CONFIRMATION ->
  find_best_answer (r :: df) user_prompt history
  = Returns (confirmation_answer (r :: df) history).
Proof.
  unfold find_best_answer, intent_of. cbv zeta. now intros ->.
Qed.

(** In a history of the conversation layer the last turn is the last
    assistant turn. *)
Lemma conversation_last_turn (history : list turn) :
  conversation history ->
  last_content history = last_assistant_content history.
Proof.
  intros [|h prompt response _]; [reflexivity|].
  unfold last_content, last_assistant_content.
  rewrite rev_app_distr. reflexivity.
Qed.

(** C3.  With a non-empty record store, an utterance of intent
    CONFIRMATION and a history whose last turn (the assistant's, in the
    histories the conversation layer hands over) contains neither the
    sub-code offer marker nor a procedure offer marker, or an empty
    history, [find_best_answer] returns the empty descriptor with status
    NONE; the answer is the same for every non-empty store, so no record is
    looked up. *)
Theorem confirmation_without_offer (df : list record) (user_prompt : pystr)
    (history : list turn) :
  df <> [] ->
  intent_of user_prompt = CONFIRMATION ->
  (forall last_msg,
      last_content history = Some last_msg ->
      contains SUB_OFFER last_msg = false
      /\ contains PROCEDURE_OFFER last_msg = false
      /\ contains BULB last_msg = false) ->
  find_best_answer df user_prompt history
  = Returns (mk_answer false (py "{}") NONE)
  /\ forall df',
       df' <> [] ->
       find_best_answer df' user_prompt history
       = find_best_answer df user_prompt history.
Proof.
  intros Hdf Hint Hlast.
  assert (Hall : forall d, d <> [] ->
            find_best_answer d user_prompt history
            = Returns (mk_answer false (py "{}") NONE)).
  { intros [|r d] Hd; [contradiction|].
    rewrite (find_best_answer_confirmation _ _ _ _ Hint).
    unfold confirmation_answer.
    destruct (last_content history) as [last_msg|]; [|reflexivity].
    destruct (Hlast last_msg eq_refl) as [H1 [H2 H3]].
    now rewrite H1, H2, H3. }
  split; [now apply Hall|].
  intros df' Hdf'. now rewrite !Hall.
Qed.

(** ** The empty store and the renderer *)

(** C6.  With an empty record store, which is also what an unreadable source
    loads as, [find_best_answer] returns for every utterance and history a
    NOT_FOUND descriptor with status DATA_MISSING, and under that status the
    renderer emits the fixed message whatever the descriptor is. *)
Theorem empty_store_data_missing :
  load_database Unreadable = []
  /\ load_database (Table []) = []
  /\ (forall user_prompt history,
        exists a,
          find_best_answer [] user_prompt history = Returns a
          /\ descriptor_mode (data_str a) = Some (py "NOT_FOUND")
          /\ answer_status a = DATA_MISSING)
  /\ (forall user_prompt history data i,
        generate_ai_response user_prompt history data i DATA_MISSING
        = [NOT_FOUND_MESSAGE]).
Proof.
  repeat split.
  intros user_prompt history. eexists. split; [reflexivity|].
  split; [apply descriptor_mode_descriptor; distinct_keys | reflexivity].
Qed.

Lemma known_tag_mode (mode : option pyval) (tag : pystr) :
  In tag known_tags -> mode_is mode tag = true ->
  existsb (mode_is mode) known_tags = true.
Proof. intros Hin Hm. apply existsb_exists. now exists tag. Qed.

Lemma shown_item_has_key (info : list (pystr * pyval)) (key : pystr) :
  has_key info key = false -> shown_item info key = None.
Proof.
  unfold has_key, shown_item. now destruct (dict_get info key).
Qed.

(** C7.  For a descriptor string that does not parse into a tagged result
    ([ast.literal_eval] raises, or gives something that is not a dict, or a
    dict without a known mode, or a dict with a known mode that lacks a
    field of that mode) and a status other than DATA_MISSING and
    SHOW_PROCEDURE, the renderer yields exactly one chunk, a generic
    greeting: the greeting of the final [else] when the string decodes to a
    dict without a known mode, the fallback greeting of the [except] branch
    in every other case. *)
Theorem malformed_descriptor_greeting (user_prompt : pystr)
    (history : list turn) (data : pystr) (i : intent) (st : status) :
  st <> DATA_MISSING ->
  st <> SHOW_PROCEDURE ->
  parses data = false ->
  generate_ai_response user_prompt history data i st
  = match literal_eval data with
    | Some (PyDict info) =>
        if existsb (mode_is (dict_get info (py "mode"))) known_tags
        then [FALLBACK_GREETING]
        else [GREETING]
    | _ => [FALLBACK_GREETING]
    end.
Proof.
  intros H1 H2 Hp.
  assert (E : generate_ai_response user_prompt history data i st
              = match render_descriptor user_prompt data with
                | Some text => [text]
                | None => [FALLBACK_GREETING]
                end).
  { destruct st; try reflexivity; contradiction. }
  rewrite E. clear E. unfold parses in Hp. unfold render_descriptor.
  destruct (literal_eval data) as [[info|]|]; try reflexivity.
  cbv zeta. set (mode := dict_get info (py "mode")) in *.
  assert (Hall : forall tag,
            In tag known_tags ->
            mode_is mode tag = true ->
            forallb (has_key info) (payload_keys tag) = false).
  { intros tag Hin Hm.
    destruct (forallb (has_key info) (payload_keys tag)) eqn:Ef;
      [|reflexivity].
    assert (Hex : existsb
                    (fun tag =>
                       mode_is mode tag
                       && forallb (has_key info) (payload_keys tag))
                    known_tags = true).
    { apply existsb_exists. exists tag. split; [exact Hin|].
      now rewrite Hm, Ef. }
    rewrite Hex in Hp. discriminate Hp. }
  destruct (mode_is mode (py "EXIT")) eqn:E1.
  { specialize (Hall (py "EXIT") ltac:(vm_compute; tauto) E1).
    discriminate Hall. }
  destruct (mode_is mode (py "NAME_ONLY")) eqn:E2.
  { rewrite (known_tag_mode mode (py "NAME_ONLY") ltac:(vm_compute; tauto) E2).
    specialize (Hall (py "NAME_ONLY") ltac:(vm_compute; tauto) E2).
    change (payload_keys (py "NAME_ONLY")) with [py "code"; py "name"]
      in Hall.
    cbn [forallb] in Hall.
    destruct (has_key info (py "code")) eqn:K1;
      [|now rewrite (shown_item_has_key _ _ K1)].
    destruct (has_key info (py "name")) eqn:K2; [discriminate Hall|].
    rewrite (shown_item_has_key _ _ K2).
    now destruct (shown_item info (py "code")). }
  destruct (mode_is mode (py "SUB_TABLE")) eqn:E3.
  { rewrite (known_tag_mode mode (py "SUB_TABLE") ltac:(vm_compute; tauto) E3).
    specialize (Hall (py "SUB_TABLE") ltac:(vm_compute; tauto) E3).
    change (payload_keys (py "SUB_TABLE")) with [py "code"; py "table"]
      in Hall.
    cbn [forallb] in Hall.
    destruct (has_key info (py "code")) eqn:K1;
      [|now rewrite (shown_item_has_key _ _ K1)].
    destruct (has_key info (py "table")) eqn:K2; [discriminate Hall|].
    rewrite (shown_item_has_key _ _ K2).
    now destruct (shown_item info (py "code")). }
  destruct (mode_is mode (py "SINGLE")) eqn:E4.
  { rewrite (known_tag_mode mode (py "SINGLE") ltac:(vm_compute; tauto) E4).
    specialize (Hall (py "SINGLE") ltac:(vm_compute; tauto) E4).
    change (payload_keys (py "SINGLE"))
      with [py "name"; py "code"; py "table"] in Hall.
    cbn [forallb] in Hall.
    destruct (has_key info (py "name")) eqn:K1;
      [|now rewrite (shown_item_has_key _ _ K1)].
    destruct (has_key info (py "code")) eqn:K2;
      [|rewrite (shown_item_has_key _ _ K2);
        now destruct (shown_item info (py "name"))].
    destruct (has_key info (py "table")) eqn:K3; [discriminate Hall|].
    rewrite (shown_item_has_key _ _ K3).
    now destruct (shown_item info (py "name")),
                 (shown_item info (py "code")). }
  destruct (mode_is mode (py "LIST")) eqn:E5.
  { rewrite (known_tag_mode mode (py "LIST") ltac:(vm_compute; tauto) E5).
    specialize (Hall (py "LIST") ltac:(vm_compute; tauto) E5).
    change (payload_keys (py "LIST")) with [py "content"] in Hall.
    cbn [forallb] in Hall.
    destruct (has_key info (py "content")) eqn:K1; [discriminate Hall|].
    now rewrite (shown_item_has_key _ _ K1). }
  destruct (mode_is mode (py "COMPARE")) eqn:E6.
  { rewrite (known_tag_mode mode (py "COMPARE") ltac:(vm_compute; tauto) E6).
    specialize (Hall (py "COMPARE") ltac:(vm_compute; tauto) E6).
    change (payload_keys (py "COMPARE")) with [py "table"] in Hall.
    cbn [forallb] in Hall.
    destruct (has_key info (py "table")) eqn:K1; [discriminate Hall|].
    now rewrite (shown_item_has_key _ _ K1). }
  assert (Hnone : existsb (mode_is mode) known_tags = false).
  { apply not_true_is_false. intros Hx. apply existsb_exists in Hx.
    destruct Hx as [tag [Hin Hm]]. unfold known_tags in Hin.
    cbn [In] in Hin.
    destruct Hin as [<-|[<-|[<-|[<-|[<-|[<-|[]]]]]]].
    - exact (eq_true_false_abs _ Hm E1).
    - exact (eq_true_false_abs _ Hm E2).
    - exact (eq_true_false_abs _ Hm E3).
    - exact (eq_true_false_abs _ Hm E4).
    - exact (eq_true_false_abs _ Hm E5).
    - exact (eq_true_false_abs _ Hm E6). }
  now rewrite Hnone.
Qed.

(** ** The classifier *)

(** C5.  [detect_intent] is a function of its input alone: it returns one
    of the six intents, equal inputs get equal intents, and the rules are
    tried in the order confirmation, exit, name query, code query,
    conversational, technical, the first that matches the lowercased,
    trimmed text giving the intent; a text that is exactly [ok] after
    lowercasing and trimming is a CONFIRMATION, not TECHNICAL. *)
Theorem detect_intent_priority (text : pystr) :
  let clean := strip isspace (str_lower text) in
  let confirmation := mem clean confirmation_words in
  let exit := mem clean exit_words in
  let name_query :=
    existsb (fun phrase => contains phrase clean) name_phrases in
  let code_query :=
    existsb (fun phrase => contains phrase clean) code_phrases in
  let conversational :=
    existsb (fun word => contains word clean) courtesy_words in
  In (detect_intent text)
     [CONFIRMATION; EXIT; NAME_QUERY; CODE_QUERY; CONVERSATIONAL; TECHNICAL]
  /\ (forall text', text' = text -> detect_intent text' = detect_intent text)
  /\ (detect_intent text = CONFIRMATION <-> confirmation = true)
  /\ (detect_intent text = EXIT <-> confirmation = false /\ exit = true)
  /\ (detect_intent text = NAME_QUERY
      <-> confirmation = false /\ exit = false /\ name_query = true)
  /\ (detect_intent text = CODE_QUERY
      <-> confirmation = false /\ exit = false /\ name_query = false
          /\ code_query = true)
  /\ (detect_intent text = CONVERSATIONAL
      <-> confirmation = false /\ exit = false /\ name_query = false
          /\ code_query = false /\ conversational = true)
  /\ (detect_intent text = TECHNICAL
      <-> confirmation = false /\ exit = false /\ name_query = false
          /\ code_query = false /\ conversational = false)
  /\ (clean = py "ok"
      -> detect_intent text = CONFIRMATION /\ detect_intent text <> TECHNICAL).
Proof.
  intros clean confirmation exit name_query code_query conversational.
  assert (E : detect_intent text =
              if confirmation then CONFIRMATION
              else if exit then EXIT
              else if name_query then NAME_QUERY
              else if code_query then CODE_QUERY
              else if conversational then CONVERSATIONAL
              else TECHNICAL) by reflexivity.
  assert (Hok : clean = py "ok" -> confirmation = true).
  { intros H. unfold confirmation. rewrite H. reflexivity. }
  split.
  { rewrite E. simpl.
    destruct confirmation, exit, name_query, code_query, conversational;
      tauto. }
  split; [now intros text' ->|].
  rewrite E.
  destruct confirmation, exit, name_query, code_query, conversational;
    repeat split; intros; try discriminate; try reflexivity;
    try (specialize (Hok ltac:(assumption)); discriminate);
    repeat match goal with H : _ /\ _ |- _ => destruct H end;
    discriminate.
Qed.

(** C10.  The conversational rule looks for its words as substrings: when
    the lowercased, trimmed text matches none of the four earlier rules and
    has one of [hi], [hello], [hey], [thanks], [help] anywhere inside it,
    between any two pieces of text, the intent is CONVERSATIONAL. *)
Theorem courtesy_word_substring (text before_it word after_it : pystr) :
  let clean := strip isspace (str_lower text) in
  mem clean confirmation_words = false ->
  mem clean exit_words = false ->
  existsb (fun phrase => contains phrase clean) name_phrases = false ->
  existsb (fun phrase => contains phrase clean) code_phrases = false ->
  In word courtesy_words ->
  clean = before_it ++ word ++ after_it ->
  detect_intent text = CONVERSATIONAL
  /\ detect_intent text <> TECHNICAL.
Proof.
  intros clean H1 H2 H3 H4 Hw Hc.
  assert (E : detect_intent text = CONVERSATIONAL).
  { unfold detect_intent. fold clean. rewrite H1, H2, H3, H4.
    assert (H5 : existsb (fun w => contains w clean) courtesy_words = true).
    { apply existsb_exists. exists word. split; [assumption|].
      apply contains_spec. now exists before_it, after_it. }
    now rewrite H5. }
  split; [assumption | congruence].
Qed.

(** ** The normalizer *)

Lemma re_d_not_ascii_other (c : N) :
  is_ascii c = true -> ascii_digit c = false -> re_d c = false.
Proof. intros H1 H2. now rewrite (re_d_ascii c H1). Qed.

Lemma digits_without (s : pystr) (c : N) :
  forallb re_d s = true -> re_d c = false -> ~ In c s.
Proof.
  intros Hs Hc Hin. rewrite forallb_forall in Hs.
  rewrite (Hs c Hin) in Hc. discriminate.
Qed.

Lemma clean_to_digits_digits (val : scalar) :
  forallb re_d (clean_to_digits val) = true.
Proof.
  unfold clean_to_digits.
  destruct (isna val || Str.eqb (str_lower (str_of val)) (py "nan")
            || Str.eqb (strip isspace (str_of val)) []); [reflexivity|].
  apply strip_forallb, filter_forallb.
Qed.

Lemma clean_to_digits_stripped (val : scalar) :
  strip isspace (clean_to_digits val) = clean_to_digits val.
Proof.
  unfold clean_to_digits.
  destruct (isna val || Str.eqb (str_lower (str_of val)) (py "nan")
            || Str.eqb (strip isspace (str_of val)) []); [reflexivity|].
  apply strip_idem.
Qed.

Lemma clean_to_digits_of_digits (r : pystr) :
  forallb re_d r = true -> strip isspace r = r ->
  clean_to_digits (StrVal r) = r.
Proof.
  intros Hd Hs. unfold clean_to_digits. simpl isna. simpl str_of.
  rewrite Hs, (lower_digits r Hd). simpl orb.
  destruct (Str.eqb r []) eqn:Ee.
  - apply eqb_eq in Ee. rewrite orb_true_r. now subst.
  - rewrite orb_false_r.
    destruct (Str.eqb r (py "nan")) eqn:En.
    + apply eqb_eq in En. subst r. exfalso.
      apply (digits_without _ 110%N Hd);
        [now apply re_d_not_ascii_other | now left].
    + rewrite before_fixed, (filter_fixed _ _ Hd); [assumption|].
      apply (digits_without _ _ Hd). now apply re_d_not_ascii_other.
Qed.

Lemma clean_to_digits_ascii (val : scalar) :
  forallb is_ascii (str_of val) = true ->
  ascii_digits (clean_to_digits val) = true.
Proof.
  intros Ha. unfold ascii_digits. apply forallb_forall. intros c Hc.
  assert (Hd : re_d c = true).
  { pose proof (clean_to_digits_digits val) as H.
    rewrite forallb_forall in H. now apply H. }
  assert (Hin : In c (str_of val)).
  { unfold clean_to_digits in Hc.
    destruct (isna val || Str.eqb (str_lower (str_of val)) (py "nan")
              || Str.eqb (strip isspace (str_of val)) []); [destruct Hc|].
    apply strip_incl in Hc. apply filter_In in Hc as [Hc _].
    eapply before_incl; eassumption. }
  rewrite forallb_forall in Ha.
  now rewrite <- (re_d_ascii c (Ha c Hin)).
Qed.

(** C8 (as amended).  [clean_to_digits] is idempotent, and its output is
    made of decimal digits only, in the sense of the class [\d] of the
    runtime: it matches [^[0-9]*$] whenever the text of the input is ASCII.
    So does the code of every record that [load_database] produces. *)
Theorem clean_to_digits_idempotent (val : scalar) :
  clean_to_digits (StrVal (clean_to_digits val)) = clean_to_digits val
  /\ forallb re_d (clean_to_digits val) = true
  /\ (forallb is_ascii (str_of val) = true ->
      ascii_digits (clean_to_digits val) = true)
  /\ (forall src r,
        In r (load_database src) -> forallb re_d (CODE_COL r) = true).
Proof.
  split; [|split; [|split]].
  - apply clean_to_digits_of_digits;
      [apply clean_to_digits_digits | apply clean_to_digits_stripped].
  - apply clean_to_digits_digits.
  - apply clean_to_digits_ascii.
  - intros [|rows] r; simpl; [intros []|].
    intros H. apply in_map_iff in H as [raw [<- _]]. simpl.
    apply clean_to_digits_digits.
Qed.

(** An Arabic-Indic digit goes through [clean_to_digits] unchanged. *)
Lemma clean_to_digits_arabic_indic :
  clean_to_digits (StrVal [1635%N]) = [1635%N].
Proof.
  assert (Hd : forallb re_d [1635%N] = true).
  { simpl. rewrite re_d_arabic_indic; [reflexivity | lia]. }
  apply clean_to_digits_of_digits; [assumption|].
  assert (Hs : isspace 1635%N = false).
  { apply digit_not_space, re_d_arabic_indic. lia. }
  unfold strip. simpl. rewrite Hs. simpl. now rewrite Hs.
Qed.

(** ** The code tag of an offer *)

Lemma digits_then_sep (close c : N) (a b : pystr) :
  digits_then close a = None -> re_d c = false -> c <> close ->
  digits_then close (a ++ c :: b) = None.
Proof.
  intros Ha Hc Hne. induction a as [|x a IH]; simpl in *.
  - now rewrite Hc.
  - destruct (re_d x); [|reflexivity].
    destruct (digits_then close a) as [ds|]; [discriminate|].
    rewrite (IH eq_refl).
    destruct a as [|y a]; simpl.
    + apply N.eqb_neq in Hne. now rewrite Hne.
    + destruct (N.eqb y close); [discriminate | reflexivity].
Qed.

Lemma digits_then_cons (close c : N) (rest : pystr) :
  digits_then close (c :: rest)
  = if re_d c then
      match digits_then close rest with
      | Some ds => Some (c :: ds)
      | None =>
          match rest with
          | c' :: _ => if N.eqb c' close then Some [c] else None
          | [] => None
          end
      end
    else None.
Proof. reflexivity. Qed.

Lemma digits_then_close (close : N) (code : pystr) :
  code <> [] -> forallb re_d code = true -> re_d close = false ->
  digits_then close (code ++ [close]) = Some code.
Proof.
  intros Hne Hd Hc. induction code as [|c code IH]; [contradiction|].
  simpl in Hd. apply andb_true_iff in Hd as [Hdc Hd].
  destruct code as [|c' code].
  - simpl. now rewrite Hdc, Hc, N.eqb_refl.
  - change ((c :: c' :: code) ++ [close])
      with (c :: ((c' :: code) ++ [close])).
    rewrite digits_then_cons, Hdc.
    now rewrite (IH ltac:(discriminate) Hd).
Qed.

Lemma code_tag_search_cons (c : N) (s : pystr) :
  code_tag_search (c :: s)
  = match code_tag_at (c :: s) with
    | Some code => Some code
    | None => code_tag_search s
    end.
Proof. reflexivity. Qed.

Lemma code_tag_search_at (s code : pystr) :
  code_tag_at s = Some code -> code_tag_search s = Some code.
Proof.
  intros H. destruct s as [|c s].
  - change (code_tag_search [])
      with (match code_tag_at [] with
            | Some code => Some code
            | None => None
            end).
    now rewrite H.
  - rewrite code_tag_search_cons. now rewrite H.
Qed.

Lemma code_tag_at_other (c : N) (s : pystr) :
  c <> 40%N -> code_tag_at (c :: s) = None.
Proof.
  intros H. unfold code_tag_at.
  change (strip_prefix CODE_TAG_OPEN (c :: s))
    with (if N.eqb 40 c then strip_prefix (tl CODE_TAG_OPEN) s else None).
  destruct (N.eqb_spec 40 c) as [E|_]; [now subst | reflexivity].
Qed.

(** A stretch without an opening parenthesis holds no code tag. *)
Lemma code_tag_search_no_paren (seg rest : pystr) :
  ~ In 40%N seg -> code_tag_search (seg ++ rest) = code_tag_search rest.
Proof.
  induction seg as [|c seg IH]; intros H; [reflexivity|].
  change ((c :: seg) ++ rest) with (c :: (seg ++ rest)).
  rewrite code_tag_search_cons, code_tag_at_other.
  - apply IH. intros Hin. apply H. now right.
  - intros ->. apply H. now left.
Qed.

Lemma code_tag_at_sep (a b : pystr) :
  code_tag_at a = None -> code_tag_at (a ++ 42%N :: b) = None.
Proof.
  unfold code_tag_at. intros Ha.
  destruct (strip_prefix CODE_TAG_OPEN (a ++ 42%N :: b)) as [r|] eqn:E;
    [|reflexivity].
  apply strip_prefix_sep in E as [a' [Ea ->]].
  - rewrite Ea in Ha. apply digits_then_sep; [assumption | | discriminate].
    now apply re_d_not_ascii_other.
  - vm_compute. intuition discriminate.
Qed.

(** A payload without a code tag, followed by an asterisk, adds none. *)
Lemma code_tag_search_payload (seg rest : pystr) :
  code_tag_search seg = None ->
  code_tag_search (seg ++ 42%N :: rest) = code_tag_search (42%N :: rest).
Proof.
  induction seg as [|c seg IH]; intros H; [reflexivity|].
  rewrite code_tag_search_cons in H.
  destruct (code_tag_at (c :: seg)) eqn:E; [discriminate|].
  change ((c :: seg) ++ 42%N :: rest) with (c :: (seg ++ 42%N :: rest)).
  rewrite code_tag_search_cons.
  change (c :: seg ++ 42%N :: rest) with ((c :: seg) ++ 42%N :: rest).
  rewrite (code_tag_at_sep _ _ E). now apply IH.
Qed.

Lemma code_tag_search_tag (code : pystr) :
  code <> [] -> forallb re_d code = true ->
  code_tag_search (CODE_TAG_OPEN ++ code ++ [41%N]) = Some code.
Proof.
  intros Hne Hd. apply code_tag_search_at. unfold code_tag_at.
  rewrite strip_prefix_app. apply digits_then_close; try assumption.
  now apply re_d_not_ascii_other.
Qed.

Lemma digits_no_paren (code : pystr) :
  forallb re_d code = true -> ~ In 40%N code.
Proof.
  intros Hd. apply (digits_without _ _ Hd). now apply re_d_not_ascii_other.
Qed.

(** The code tag found in a rendered NAME_ONLY answer. *)
Lemma code_tag_search_name_only (i : intent) (name code : pystr) :
  code <> [] -> forallb re_d code = true -> code_tag_search name = None ->
  code_tag_search (name_only_text i name code) = Some code.
Proof.
  intros Hne Hd Hname.
  pose proof (digits_no_paren _ Hd) as Hcode.
  set (question := py "*." ++ NL ++ NL ++ py " " ++ BULB
                   ++ py " Do you want to know the sub code for that? ").
  assert (Hq : ~ In 40%N question) by (vm_compute; intuition discriminate).
  destruct i.
  1, 2, 4, 5, 6:
    change (name_only_text _ name code)
      with (py "The Access Code for **"
            ++ name ++ 42%N
            :: (py "* is **"
                ++ code ++ 42%N
                :: question ++ (CODE_TAG_OPEN ++ code ++ [41%N])));
    rewrite code_tag_search_no_paren
      by (vm_compute; intuition discriminate);
    rewrite (code_tag_search_payload _ _ Hname);
    change (42%N :: py "* is **" ++ ?x) with (py "** is **" ++ x);
    rewrite code_tag_search_no_paren
      by (vm_compute; intuition discriminate);
    rewrite (code_tag_search_no_paren code) by assumption;
    change (42%N :: question ++ ?x) with ((42%N :: question) ++ x);
    rewrite code_tag_search_no_paren
      by (vm_compute; intuition discriminate);
    now apply code_tag_search_tag.
  change (name_only_text _ name code)
    with (py "The setting name for **"
          ++ code
          ++ py "** is **"
          ++ name ++ 42%N
          :: question ++ (CODE_TAG_OPEN ++ code ++ [41%N])).
  rewrite code_tag_search_no_paren by (vm_compute; intuition discriminate).
  rewrite (code_tag_search_no_paren code) by assumption.
  rewrite code_tag_search_no_paren by (vm_compute; intuition discriminate).
  rewrite (code_tag_search_payload _ _ Hname).
  change (42%N :: question ++ ?x) with ((42%N :: question) ++ x).
  rewrite code_tag_search_no_paren by (vm_compute; intuition discriminate).
  now apply code_tag_search_tag.
Qed.

(** ** The round trip of the sub-code offer *)

Lemma render_name_only (user_prompt name code : pystr) :
  render_descriptor user_prompt
    (descriptor [(py "mode", py "NAME_ONLY"); (py "name", name);
                 (py "code", code)])
  = Some (name_only_text (detect_intent user_prompt) name code).
Proof.
  unfold render_descriptor, descriptor.
  rewrite literal_eval_dict_str by distinct_keys. reflexivity.
Qed.

Lemma name_only_text_question (i : intent) (name code : pystr) :
  exists prefix,
    name_only_text i name code
    = prefix ++ SUB_OFFER
      ++ py " for that? " ++ (CODE_TAG_OPEN ++ code ++ [41%N]) ++ [].
Proof.
  destruct i;
    [ exists (py "The Access Code for **" ++ name ++ py "** is **" ++ code
              ++ py "**." ++ NL ++ NL ++ py " " ++ BULB
              ++ py " Do you want to ")
    | exists (py "The Access Code for **" ++ name ++ py "** is **" ++ code
              ++ py "**." ++ NL ++ NL ++ py " " ++ BULB
              ++ py " Do you want to ")
    | exists (py "The setting name for **" ++ code ++ py "** is **" ++ name
              ++ py "**." ++ NL ++ NL ++ py " " ++ BULB
              ++ py " Do you want to ")
    | exists (py "The Access Code for **" ++ name ++ py "** is **" ++ code
              ++ py "**." ++ NL ++ NL ++ py " " ++ BULB
              ++ py " Do you want to ")
    | exists (py "The Access Code for **" ++ name ++ py "** is **" ++ code
              ++ py "**." ++ NL ++ NL ++ py " " ++ BULB
              ++ py " Do you want to ")
    | exists (py "The Access Code for **" ++ name ++ py "** is **" ++ code
              ++ py "**." ++ NL ++ NL ++ py " " ++ BULB
              ++ py " Do you want to ") ];
    unfold name_only_text, SUB_CODE_QUESTION;
    repeat rewrite <- app_assoc; reflexivity.
Qed.

Lemma name_only_text_has_tag (i : intent) (name code : pystr) :
  contains (CODE_TAG_OPEN ++ code ++ [41%N]) (name_only_text i name code)
  = true.
Proof.
  destruct (name_only_text_question i name code) as [prefix ->].
  apply contains_app_r, contains_app_r, contains_app_r, contains_prefix.
Qed.

Lemma name_only_text_has_offer (i : intent) (name code : pystr) :
  contains SUB_OFFER (name_only_text i name code) = true.
Proof.
  destruct (name_only_text_question i name code) as [prefix ->].
  apply contains_app_r, contains_prefix.
Qed.

Lemma intent_of_yes : intent_of (py "yes") = CONFIRMATION.
Proof.
  unfold intent_of, detect_intent.
  rewrite (lower_strip_ascii (py "yes") eq_refl).
  change (strip ascii_space (map ascii_lower (py "yes"))) with (py "yes").
  rewrite (lower_strip_ascii (py "yes") eq_refl).
  reflexivity.
Qed.

Lemma last_content_snoc (history : list turn) (t : turn) :
  last_content (history ++ [t]) = Some (content t).
Proof. unfold last_content. now rewrite rev_unit. Qed.

(** C2 (as amended).  For every name and code, the rendered NAME_ONLY
    answer contains [(Code: <code>)]; and when the record store is not
    empty, the code is a non-empty string of digits and the name holds no
    [(Code: <digits>)] of its own, the utterance [yes] after that answer
    gets the SUB_TABLE descriptor with that code, with status READY.  Its
    table is the two header lines and then, for every record of the store
    whose code is that code, in the order of the store, one line with the
    sub-code ([NA] for [-]) and the formatted description. *)
Theorem name_only_round_trip (df : list record) (user_prompt : pystr)
    (history : list turn) (i : intent) (name code : pystr) :
  let text :=
    full_response
      (generate_ai_response user_prompt history
         (descriptor [(py "mode", py "NAME_ONLY"); (py "name", name);
                      (py "code", code)])
         i READY) in
  contains (py "(Code: " ++ code ++ py ")") text = true
  /\ (df <> [] ->
      code <> [] ->
      forallb re_d code = true ->
      code_tag_search name = None ->
      find_best_answer df (py "yes")
        (history ++ [{| role := py "assistant"; content := text |}])
      = Returns
          (mk_answer true
             (descriptor
                [(py "mode", py "SUB_TABLE");
                 (py "table",
                  join NL
                    ([py "| Sub-Code | Description / Values |";
                      py "| :--- | :--- |"]
                     ++ map (fun r =>
                               py "| "
                               ++ (if Str.eqb (SUB_CODE_COL r) (py "-")
                                   then py "NA" else SUB_CODE_COL r)
                               ++ py " | "
                               ++ format_clean_description (DESCRIPTION_COL r)
                               ++ py " |")
                            (filter (fun r => Str.eqb (CODE_COL r) code) df)));
                 (py "code", code)])
             READY)).
Proof.
  intros text.
  assert (Et : text = name_only_text (detect_intent user_prompt) name code).
  { unfold text, generate_ai_response. rewrite render_name_only.
    unfold full_response. simpl. apply app_nil_r. }
  rewrite Et. split; [apply name_only_text_has_tag|].
  intros Hdf Hne Hd Hname.
  destruct df as [|r df]; [contradiction|].
  rewrite (find_best_answer_confirmation _ _ _ _ intent_of_yes).
  unfold confirmation_answer. rewrite last_content_snoc.
  cbn [content].
  rewrite name_only_text_has_offer.
  rewrite (code_tag_search_name_only _ _ _ Hne Hd Hname).
  reflexivity.
Qed.

(** ** The procedure offer after search results *)

Lemma render_result (user_prompt : pystr) (p : result_payload) :
  render_descriptor user_prompt (descriptor (result_dict p))
  = Some (result_text p).
Proof.
  unfold render_descriptor, descriptor.
  destruct p; simpl result_dict;
    rewrite literal_eval_dict_str by distinct_keys; reflexivity.
Qed.

Lemma result_text_has_bulb (p : result_payload) :
  contains BULB (result_text p) = true.
Proof.
  destruct p; unfold result_text, single_text, list_text, compare_text;
    repeat (apply contains_prefix || apply contains_app_r).
Qed.

Lemma offer_skip (c : N) (s : pystr) :
  c <> 107%N -> contains SUB_OFFER (c :: s) = contains SUB_OFFER s.
Proof.
  intros H. rewrite contains_cons.
  change (startswith SUB_OFFER (c :: s))
    with (match (if N.eqb 107 c then strip_prefix (tl SUB_OFFER) s else None)
          with Some _ => true | None => false end).
  destruct (N.eqb_spec 107 c) as [E|_]; [now subst | reflexivity].
Qed.

Lemma offer_sep (a b : pystr) (c : N) :
  ~ In c SUB_OFFER ->
  contains SUB_OFFER a = false ->
  contains SUB_OFFER (a ++ c :: b) = contains SUB_OFFER b.
Proof. intros Hc Ha. now rewrite (contains_sep _ _ _ _ Hc), Ha. Qed.

Ltac not_in_offer := vm_compute; intuition discriminate.

Lemma result_text_no_offer (p : result_payload) :
  Forall (fun s => contains SUB_OFFER s = false) (payload_texts p) ->
  contains SUB_OFFER (result_text p) = false.
Proof.
  destruct p as [name code table | query content | query table];
    simpl payload_texts; intros H.
  - inversion_clear H as [|? ? Hname H1].
    inversion_clear H1 as [|? ? Hcode H2].
    inversion_clear H2 as [|? ? Htable _].
    change (result_text (Single name code table))
      with (py "Technical Record for *"
            ++ 42%N
            :: name
            ++ 42%N
            :: py "* (Code"
            ++ 58%N
            :: 32%N
            :: code
            ++ 41%N
            :: 10%N
            :: 10%N
            :: table
            ++ 10%N
            :: [10%N] ++ BULB
            ++ py " **Suggestion:** Type **Yes** to see the 08 procedure.").
    rewrite offer_sep by (not_in_offer || reflexivity).
    rewrite (offer_sep name) by (not_in_offer || assumption).
    rewrite offer_sep by (not_in_offer || reflexivity).
    rewrite offer_skip by discriminate.
    rewrite (offer_sep code) by (not_in_offer || assumption).
    rewrite !offer_skip by discriminate.
    rewrite (offer_sep table) by (not_in_offer || assumption).
    reflexivity.
  - inversion_clear H as [|? ? Hquery H1].
    inversion_clear H1 as [|? ? Hcontent _].
    change (result_text (Listing query content))
      with (py "I found several entries for *"
            ++ 42%N
            :: query
            ++ 42%N
            :: py "*:"
            ++ 10%N
            :: 10%N
            :: content
            ++ 10%N
            :: [10%N] ++ BULB
            ++ py " Please type the specific **Access Code** you need.").
    rewrite offer_sep by (not_in_offer || reflexivity).
    rewrite (offer_sep query) by (not_in_offer || assumption).
    rewrite offer_sep by (not_in_offer || reflexivity).
    rewrite offer_skip by discriminate.
    rewrite (offer_sep content) by (not_in_offer || assumption).
    reflexivity.
  - inversion_clear H as [|? ? Hquery H1].
    inversion_clear H1 as [|? ? Htable _].
    change (result_text (Comparison query table))
      with ((py "### " ++ [240; 376; 8220; 352]%N
             ++ py " Side-by-Side Comparison")
            ++ 58%N
            :: 32%N
            :: query
            ++ 10%N
            :: 10%N
            :: table
            ++ 10%N
            :: [10%N] ++ BULB
            ++ py " **Tip:** Use these to check state differences.").
    rewrite offer_sep by (not_in_offer || reflexivity).
    rewrite offer_skip by discriminate.
    rewrite (offer_sep query) by (not_in_offer || assumption).
    rewrite offer_skip by discriminate.
    rewrite (offer_sep table) by (not_in_offer || assumption).
    reflexivity.
Qed.

(** C9 (as amended).  A rendered SINGLE, LIST or COMPARE answer contains
    the marker that the confirmation branch takes for a procedure offer;
    when the texts it shows (name, code, table, query, content) do not
    themselves contain the sub-code offer marker, neither does the answer,
    and with a non-empty record store an utterance of intent CONFIRMATION
    that follows it gets status SHOW_PROCEDURE instead of the no-op. *)
Theorem confirmation_after_results (df : list record)
    (shown_prompt user_prompt : pystr) (history : list turn) (i : intent)
    (p : result_payload) :
  let text :=
    full_response
      (generate_ai_response shown_prompt history (descriptor (result_dict p))
         i READY) in
  contains BULB text = true
  /\ (Forall (fun s => contains SUB_OFFER s = false) (payload_texts p) ->
      contains SUB_OFFER text = false
      /\ (df <> [] ->
          intent_of user_prompt = CONFIRMATION ->
          find_best_answer df user_prompt
            (history ++ [{| role := py "assistant"; content := text |}])
          = Returns (mk_answer true (py "{}") SHOW_PROCEDURE))).
Proof.
  intros text.
  assert (Et : text = result_text p).
  { unfold text, generate_ai_response. rewrite render_result.
    unfold full_response. simpl. apply app_nil_r. }
  rewrite Et. split; [apply result_text_has_bulb|].
  intros Hp. pose proof (result_text_no_offer p Hp) as Hno.
  split; [assumption|]. intros Hdf Hint.
  destruct df as [|r df]; [contradiction|].
  rewrite (find_best_answer_confirmation _ _ _ _ Hint).
  unfold confirmation_answer. rewrite last_content_snoc.
  cbn [content].
  now rewrite Hno, result_text_has_bulb, orb_true_r.
Qed.

(** ** The LIST table *)

Lemma filter_twice {A : Type} (f g : A -> bool) (l : list A) :
  filter f (filter g l) = filter (fun x => g x && f x) l.
Proof.
  induction l as [|x l IH]; simpl; [reflexivity|].
  destruct (g x); simpl; [destruct (f x)|]; now rewrite IH.
Qed.

Lemma filter_all {A : Type} (l : list A) : filter (fun _ => true) l = l.
Proof. induction l as [|x l IH]; simpl; [reflexivity | now rewrite IH]. Qed.

Lemma dedup_pairs_first_occurrences (seen : list (pystr * pystr))
    (rows : list record) :
  map (fun r => (CODE_COL r, NAME_COL r))
    (dedup_from pair_eqb (fun r => (CODE_COL r, NAME_COL r)) seen rows)
  = filter (fun q => negb (existsb (pair_eqb q) seen))
      (first_occurrences (map (fun r => (CODE_COL r, NAME_COL r)) rows)).
Proof.
  revert seen; induction rows as [|x rows IH]; intros seen; [reflexivity|].
  simpl dedup_from. simpl map at 2. simpl first_occurrences. simpl filter.
  set (p := (CODE_COL x, NAME_COL x)).
  destruct (existsb (pair_eqb p) seen) eqn:E; simpl negb; cbv iota.
  - rewrite IH, filter_twice. apply filter_ext_in. intros q _.
    destruct (pair_eqb q p) eqn:Eq; [|reflexivity].
    apply pair_eqb_eq in Eq. subst q. now rewrite E.
  - simpl map. f_equal. rewrite IH, filter_twice. apply filter_ext_in.
    intros q _. simpl existsb. now rewrite negb_orb.
Qed.

(** The rows of the LIST table are the distinct pairs, first come first. *)
Lemma match_list_first_occurrences (rows : list record) :
  match_list rows
  = first_occurrences (map (fun r => (CODE_COL r, NAME_COL r)) rows).
Proof.
  unfold match_list, drop_duplicates.
  rewrite dedup_pairs_first_occurrences. apply filter_all.
Qed.

Lemma match_list_NoDup (rows : list record) : NoDup (match_list rows).
Proof.
  unfold match_list, drop_duplicates.
  apply dedup_from_NoDup, pair_eqb_eq.
Qed.

Lemma match_list_In (rows : list record) (q : pystr * pystr) :
  In q (match_list rows)
  <-> In q (map (fun r => (CODE_COL r, NAME_COL r)) rows).
Proof.
  unfold match_list, drop_duplicates.
  rewrite (dedup_from_keys _ _ pair_eqb _ pair_eqb_eq). simpl. tauto.
Qed.

Lemma process_results_list (term : pystr) (rows : list record) (n : nat) :
  distinct_codes rows n -> 2 < n ->
  process_results term rows
  = Returns (mk_answer true
               (descriptor [(py "mode", py "LIST");
                            (py "query", str_upper term);
                            (py "content", list_table (match_list rows))])
               READY).
Proof.
  intros Hn Hlt. pose proof (unique_codes_length _ _ Hn) as Hlen.
  destruct rows as [|r rows]; [simpl in Hlen; lia|].
  unfold process_results. cbv zeta. rewrite Hlen.
  apply Nat.ltb_lt in Hlt. now rewrite Hlt.
Qed.

(** C4 (as amended).  For a search whose rows have more than two distinct
    codes, the table of the LIST answer is the two header lines and then one
    line, [| code | name |], for each of the distinct (code, name) pairs of
    these rows, each once, in the order in which they first occur among the
    rows; every line ends with a newline. *)
Theorem list_table_order (df : list record) (user_prompt : pystr)
    (history : list turn) (rows : list record) (n : nat) :
  df <> [] ->
  In (intent_of user_prompt) [TECHNICAL; NAME_QUERY; CODE_QUERY] ->
  searchable user_prompt ->
  search_rows df (intent_of user_prompt)
    (search_term_of (strip isspace (str_lower user_prompt)))
  = Returns (inr rows) ->
  distinct_codes rows n ->
  2 < n ->
  let pairs :=
    first_occurrences (map (fun r => (CODE_COL r, NAME_COL r)) rows) in
  find_best_answer df user_prompt history
  = Returns
      (mk_answer true
         (descriptor
            [(py "mode", py "LIST");
             (py "query",
              str_upper
                (search_term_of (strip isspace (str_lower user_prompt))));
             (py "content",
              py "| Access Code | Setting Name |" ++ NL
              ++ py "| :--- | :--- |" ++ NL
              ++ concat
                   (map (fun p =>
                           py "| " ++ fst p ++ py " | " ++ snd p ++ py " |"
                           ++ NL)
                      pairs))])
         READY)
  /\ NoDup pairs
  /\ (forall q,
        In q pairs <-> exists r, In r rows /\ q = (CODE_COL r, NAME_COL r)).
Proof.
  intros Hdf Hint [Hlen Hok] Hrows Hn Hlt pairs.
  unfold pairs. rewrite <- match_list_first_occurrences.
  split; [|split].
  - destruct df as [|r df]; [contradiction|].
    rewrite (find_best_answer_search _ _ _ _ Hint).
    rewrite (technical_search_rows _ _ _ _ Hlen Hok Hrows).
    rewrite (process_results_list _ _ n Hn Hlt). reflexivity.
  - apply match_list_NoDup.
  - intros q. rewrite match_list_In, in_map_iff.
    split; intros [r [H1 H2]]; exists r; split; auto.
Qed.

End Properties.

(** ** The reference runtime satisfies the interface *)

Module ReferenceFacts.

Import Reference.

Lemma lower_digit_fixed (s : pystr) :
  forallb digit s = true -> lower s = s.
Proof.
  intros H. unfold lower. rewrite <- (map_id s) at 2.
  apply map_ext_in. intros c Hc.
  rewrite forallb_forall in H. specialize (H c Hc).
  unfold digit, ascii_digit, arabic_indic in H.
  unfold ascii_lower, ascii_upper_letter.
  destruct (N.leb_spec 65 c), (N.leb_spec c 90); simpl; try reflexivity.
  exfalso.
  apply orb_true_iff in H as [H|H]; apply andb_true_iff in H as [Ha Hb];
    apply N.leb_le in Ha, Hb; lia.
Qed.

Lemma digit_ascii (c : N) : is_ascii c = true -> digit c = ascii_digit c.
Proof.
  unfold is_ascii, digit, arabic_indic. intros H. apply N.ltb_lt in H.
  destruct (N.leb_spec 1632 c); [lia|]. simpl. apply orb_false_r.
Qed.

Lemma word_ascii (c : N) : is_ascii c = true -> word c = ascii_word c.
Proof.
  unfold is_ascii, word, arabic_indic. intros H. apply N.ltb_lt in H.
  destruct (N.leb_spec 1632 c); [lia|]. simpl. apply orb_false_r.
Qed.

Lemma digit_arabic_indic (c : N) : (1632 <= c <= 1641)%N -> digit c = true.
Proof.
  intros [H1 H2]. unfold digit, arabic_indic.
  apply N.leb_le in H1, H2. rewrite H1, H2. apply orb_true_r.
Qed.

Lemma digit_not_white (c : N) : digit c = true -> ascii_space c = false.
Proof.
  unfold digit, ascii_digit, arabic_indic, ascii_space. intros H.
  destruct (N.leb_spec 9 c), (N.leb_spec c 13), (N.leb_spec 28 c),
    (N.leb_spec c 31), (N.eqb_spec c 32); simpl; try reflexivity;
    exfalso;
    apply orb_true_iff in H as [H|H]; apply andb_true_iff in H as [Ha Hb];
    apply N.leb_le in Ha, Hb; lia.
Qed.

Lemma unescape_cons (c : N) (t : pystr) :
  unescape (c :: t)
  = if N.eqb c 39 then Some ([], t)
    else if N.eqb c 92 then
      match t with
      | e :: t' =>
          if N.eqb e 39 || N.eqb e 92 then
            match unescape t' with
            | Some (body, rest) => Some (e :: body, rest)
            | None => None
            end
          else None
      | [] => None
      end
    else
      match unescape t with
      | Some (body, rest) => Some (c :: body, rest)
      | None => None
      end.
Proof. reflexivity. Qed.

Lemma unescape_escape (s r : pystr) :
  unescape (escape s ++ 39%N :: r) = Some (s, r).
Proof.
  induction s as [|c s IH].
  - reflexivity.
  - unfold escape. simpl flat_map. fold (escape s).
    destruct (N.eqb_spec c 39) as [->|H39].
    + simpl app. rewrite unescape_cons. simpl N.eqb. cbv iota.
      simpl orb. cbv iota. now rewrite IH.
    + destruct (N.eqb_spec c 92) as [->|H92].
      * simpl app. rewrite unescape_cons. simpl N.eqb. cbv iota.
        simpl orb. cbv iota. now rewrite IH.
      * simpl app. rewrite unescape_cons.
        apply N.eqb_neq in H39, H92. now rewrite H39, H92, IH.
Qed.

Lemma read_str_repr (s r : pystr) : read_str (repr s ++ r) = Some (s, r).
Proof.
  unfold repr. rewrite <- !app_assoc. simpl. apply unescape_escape.
Qed.

Lemma read_items_cons (fuel : nat) (s : pystr) :
  read_items (S fuel) s
  = match read_str s with
    | Some (k, r1) =>
        match strip_prefix (py ": ") r1 with
        | Some r2 =>
            match read_str r2 with
            | Some (v, r3) =>
                if Str.eqb r3 [125%N] then Some [(k, v)]
                else
                  match strip_prefix (py ", ") r3 with
                  | Some r4 =>
                      match read_items fuel r4 with
                      | Some d => Some ((k, v) :: d)
                      | None => None
                      end
                  | None => None
                  end
            | None => None
            end
        | None => None
        end
    | None => None
    end.
Proof. reflexivity. Qed.

Lemma read_items_join (d : pydict) (fuel : nat) :
  d <> [] -> length d <= fuel ->
  read_items fuel (join (py ", ") (map item d) ++ [125%N]) = Some d.
Proof.
  revert fuel; induction d as [|[k v] d IH]; intros fuel Hne Hlen;
    [contradiction|].
  destruct fuel as [|fuel]; [simpl in Hlen; lia|].
  rewrite read_items_cons.
  destruct d as [|kv d].
  - simpl map. simpl join. unfold item. simpl fst. simpl snd.
    rewrite <- !app_assoc, read_str_repr.
    rewrite strip_prefix_app, read_str_repr.
    reflexivity.
  - change (join (py ", ") (map item ((k, v) :: kv :: d)))
      with (item (k, v) ++ py ", " ++ join (py ", ") (map item (kv :: d))).
    unfold item at 1. simpl fst. simpl snd.
    rewrite <- !app_assoc, read_str_repr.
    rewrite strip_prefix_app, read_str_repr.
    change (Str.eqb (py ", " ++ ?x) [125%N]) with false. cbv iota.
    rewrite strip_prefix_app, IH; [reflexivity | discriminate |].
    simpl in Hlen. simpl. lia.
Qed.

Lemma item_length (kv : pystr * pystr) : 1 <= length (item kv).
Proof. unfold item, repr. rewrite !length_app. simpl. lia. Qed.

Lemma join_length (d : pydict) :
  length d <= length (join (py ", ") (map item d)).
Proof.
  induction d as [|kv d IH]; [simpl; lia|].
  pose proof (item_length kv) as Hkv.
  destruct d as [|kv' d].
  - change (join (py ", ") (map item [kv])) with (item kv).
    simpl length at 1. lia.
  - change (join (py ", ") (map item (kv :: kv' :: d)))
      with (item kv ++ py ", " ++ join (py ", ") (map item (kv' :: d))).
    rewrite !length_app.
    change (length (kv :: kv' :: d)) with (S (length (kv' :: d))). lia.
Qed.

Lemma dict_str_items (d : pydict) :
  dict_str repr d = 123%N :: (join (py ", ") (map item d) ++ [125%N]).
Proof. reflexivity. Qed.

Lemma eval_brace (t : pystr) :
  eval (123%N :: t)
  = if Str.eqb t [125%N] then Some (PyDict [])
    else
      match read_items (length t) t with
      | Some d => Some (PyDict (as_items d))
      | None => None
      end.
Proof. reflexivity. Qed.

Lemma eval_dict_str (d : pydict) :
  eval (dict_str repr d) = Some (PyDict (as_items d)).
Proof.
  destruct d as [|kv d]; [reflexivity|].
  rewrite dict_str_items, eval_brace.
  pose proof (join_length (kv :: d)) as Hj.
  set (body := join (py ", ") (map item (kv :: d))) in *.
  assert (Hb : Str.eqb (body ++ [125%N]) [125%N] = false).
  { apply eqb_neq. intros H.
    assert (Hl : length (body ++ [125%N]) = 1) by now rewrite H.
    rewrite length_app in Hl. simpl in Hl, Hj. lia. }
  rewrite Hb. unfold body.
  rewrite read_items_join; [reflexivity | discriminate |].
  rewrite length_app. fold body. lia.
Qed.

Lemma valid_unclosed (p : pystr) : valid (p ++ [40%N]) = false.
Proof.
  unfold valid. rewrite forallb_app. simpl. apply andb_false_r.
Qed.

End ReferenceFacts.

#[export] Instance reference_runtime : PyRuntime := {|
  str_lower := Reference.lower;
  str_upper := Reference.upper;
  isspace := ascii_space;
  re_d := Reference.digit;
  re_w := Reference.word;
  str_repr := Reference.repr;
  literal_eval := Reference.eval;
  re_valid := Reference.valid;
  re_search := contains;
  lower_ascii := fun s _ => eq_refl;
  lower_digits := ReferenceFacts.lower_digit_fixed;
  upper_ascii := fun s _ => eq_refl;
  isspace_ascii := fun c _ => eq_refl;
  re_d_ascii := ReferenceFacts.digit_ascii;
  re_w_ascii := ReferenceFacts.word_ascii;
  re_d_arabic_indic := ReferenceFacts.digit_arabic_indic;
  digit_not_space := ReferenceFacts.digit_not_white;
  literal_eval_dict_str := fun d _ => ReferenceFacts.eval_dict_str d;
  re_plain_search := fun p s H => conj H eq_refl;
  re_unclosed_group := fun p _ => ReferenceFacts.valid_unclosed p
|}.

(** * The program on concrete inputs

    The runs below are on the reference runtime. *)

(** X24: a run of the theorem, three codes giving a LIST answer. *)
Lemma search_tag_witness :
  exists a,
    find_best_answer mode_store (py "mode") [] = Returns a
    /\ descriptor_mode (data_str a) = Some (py "LIST")
    /\ answer_status a = READY.
Proof.
  apply (search_tag_by_distinct_codes mode_store (py "mode") [] mode_store 3).
  - discriminate.
  - vm_compute. tauto.
  - split; [vm_compute; lia | vm_compute; discriminate].
  - vm_compute. reflexivity.
  - exact (distinct_codes_exists mode_store).
Defined.

(** C1: the code at the failing input.  The utterance [abc(] has intent
    TECHNICAL and passes the guard on the search term; no name equals the
    term, and the substring fallback, which compiles the term as a regular
    expression, raises on it: [find_best_answer] returns no descriptor,
    where the claim gives NOT_FOUND with status DATA_MISSING for a term that
    no name contains. *)
Lemma search_raises_on_unclosed_group :
  In (intent_of (py "abc(")) [TECHNICAL; NAME_QUERY; CODE_QUERY]
  /\ searchable (py "abc(")
  /\ find_best_answer abc_store (py "abc(") [] = Raises ReError.
Proof.
  split; [vm_compute; tauto|].
  split; [split; [vm_compute; lia | vm_compute; discriminate]|].
  vm_compute. reflexivity.
Qed.

(** C2 as stated fails twice.  With an empty store the utterance [yes]
    after a NAME_ONLY answer gets NOT_FOUND; and with the store
    [fax_store], the answer to [code for fax] is the NAME_ONLY descriptor of
    code 621, whose rendering quotes the name, and [yes] then gets the
    SUB_TABLE of code 999, a table of the two header lines and no row. *)
Lemma round_trip_fails :
  (exists text,
      generate_ai_response (py "code for fax") []
        (descriptor [(py "mode", py "NAME_ONLY"); (py "name", py "Fax");
                     (py "code", py "621")])
        CODE_QUERY READY = [text]
      /\ find_best_answer [] (py "yes")
           [user_turn (py "code for fax"); assistant_turn text]
         = Returns (mk_answer true (descriptor [(py "mode", py "NOT_FOUND")])
                      DATA_MISSING))
  /\ (exists text,
        find_best_answer fax_store (py "code for fax") []
        = Returns (name_only (py "Fax (Code: 999)") (py "621"))
        /\ generate_ai_response (py "code for fax") []
             (data_str (name_only (py "Fax (Code: 999)") (py "621")))
             CODE_QUERY READY = [text]
        /\ find_best_answer fax_store (py "yes")
             [user_turn (py "code for fax"); assistant_turn text]
           = Returns
               (mk_answer true
                  (descriptor
                     [(py "mode", py "SUB_TABLE");
                      (py "table",
                       py "| Sub-Code | Description / Values |" ++ NL
                       ++ py "| :--- | :--- |");
                      (py "code", py "999")])
                  READY)).
Proof.
  split.
  - eexists. split; vm_compute; reflexivity.
  - eexists. split; [vm_compute; reflexivity|].
    split; vm_compute; reflexivity.
Qed.

(** C3: a run of the theorem, [yes] after a greeting. *)
Lemma confirmation_without_offer_witness :
  find_best_answer abc_store (py "yes")
    [user_turn (py "hello"); assistant_turn GREETING]
  = Returns (mk_answer false (py "{}") NONE)
  /\ forall df',
       df' <> [] ->
       find_best_answer df' (py "yes")
         [user_turn (py "hello"); assistant_turn GREETING]
       = find_best_answer abc_store (py "yes")
           [user_turn (py "hello"); assistant_turn GREETING].
Proof.
  apply (confirmation_without_offer abc_store (py "yes")
           [user_turn (py "hello"); assistant_turn GREETING]).
  - discriminate.
  - vm_compute. reflexivity.
  - intros last_msg H. vm_compute in H. injection H as <-.
    vm_compute. auto.
Defined.

(** C4: a run of the theorem on [mode_store]. *)
Lemma list_table_order_witness :
  find_best_answer mode_store (py "mode") []
  = Returns
      (mk_answer true
         (descriptor
            [(py "mode", py "LIST"); (py "query", py "MODE");
             (py "content",
              py "| Access Code | Setting Name |" ++ NL
              ++ py "| :--- | :--- |" ++ NL
              ++ py "| 3000 | mode a |" ++ NL
              ++ py "| 2000 | mode b |" ++ NL
              ++ py "| 1000 | mode c |" ++ NL)])
         READY)
  /\ NoDup [(py "3000", py "mode a"); (py "2000", py "mode b");
            (py "1000", py "mode c")]
  /\ (forall q,
        In q [(py "3000", py "mode a"); (py "2000", py "mode b");
              (py "1000", py "mode c")]
        <-> exists r, In r mode_store /\ q = (CODE_COL r, NAME_COL r)).
Proof.
  assert (H1 : mode_store <> []) by discriminate.
  assert (H2 : In (intent_of (py "mode"))
                 [TECHNICAL; NAME_QUERY; CODE_QUERY])
    by (vm_compute; tauto).
  assert (H3 : searchable (py "mode"))
    by (split; [vm_compute; lia | vm_compute; discriminate]).
  assert (H4 : search_rows mode_store (intent_of (py "mode"))
                 (search_term_of (strip isspace (str_lower (py "mode"))))
               = Returns (inr mode_store))
    by (vm_compute; reflexivity).
  assert (H5 : 2 < 3) by lia.
  pose proof (list_table_order mode_store (py "mode") [] mode_store 3
                H1 H2 H3 H4 (distinct_codes_exists mode_store) H5) as H.
  vm_compute in H. vm_compute. exact H.
Defined.

(** C4 as stated fails: the rows found for [mode] have three distinct
    codes, and the table of the LIST answer lists them as 3000, 2000, 1000,
    which is not ascending. *)
Lemma list_table_not_sorted :
  distinct_codes mode_store 3
  /\ find_best_answer mode_store (py "mode") []
     = Returns
         (mk_answer true
            (descriptor
               [(py "mode", py "LIST"); (py "query", py "MODE");
                (py "content",
                 py "| Access Code | Setting Name |" ++ NL
                 ++ py "| :--- | :--- |" ++ NL
                 ++ py "| 3000 | mode a |" ++ NL
                 ++ py "| 2000 | mode b |" ++ NL
                 ++ py "| 1000 | mode c |" ++ NL)])
            READY)
  /\ ascending [py "3000"; py "2000"; py "1000"] = false.
Proof.
  split; [exact (distinct_codes_exists mode_store)|].
  split; vm_compute; reflexivity.
Qed.

(** C7: runs of the theorem on a string that is no Python literal, on a
    SINGLE descriptor without its fields, and on a dict without a mode. *)
Lemma malformed_descriptor_witness :
  generate_ai_response (py "621") [] (py "oops") TECHNICAL READY
  = [FALLBACK_GREETING]
  /\ generate_ai_response (py "621") [] (py "{'mode': 'SINGLE'}") TECHNICAL
       READY
     = [FALLBACK_GREETING]
  /\ generate_ai_response (py "621") [] (py "{'query': 'x'}") TECHNICAL READY
     = [GREETING].
Proof.
  assert (H1 : READY <> DATA_MISSING) by discriminate.
  assert (H2 : READY <> SHOW_PROCEDURE) by discriminate.
  assert (Ha : parses (py "oops") = false) by (vm_compute; reflexivity).
  assert (Hb : parses (py "{'mode': 'SINGLE'}") = false)
    by (vm_compute; reflexivity).
  assert (Hc : parses (py "{'query': 'x'}") = false)
    by (vm_compute; reflexivity).
  pose proof (malformed_descriptor_greeting (py "621") [] (py "oops")
                TECHNICAL READY H1 H2 Ha) as Ea.
  pose proof (malformed_descriptor_greeting (py "621") []
                (py "{'mode': 'SINGLE'}") TECHNICAL READY H1 H2 Hb) as Eb.
  pose proof (malformed_descriptor_greeting (py "621") []
                (py "{'query': 'x'}") TECHNICAL READY H1 H2 Hc) as Ec.
  vm_compute in Ea, Eb, Ec.
  split; [|split]; vm_compute; assumption.
Defined.

(** C8 as stated fails: the Arabic-Indic digit three is kept, and it is
    not one of [0-9]. *)
Lemma clean_to_digits_keeps_unicode_digit :
  clean_to_digits (StrVal [1635%N]) = [1635%N]
  /\ ascii_digits (clean_to_digits (StrVal [1635%N])) = false.
Proof. split; vm_compute; reflexivity. Qed.

(** C9 as stated fails: in [offer_store] the answer to [1234] is a SINGLE
    answer whose rendering contains the sub-code offer marker, and [yes]
    then gets the SUB_TABLE of code 1234 with status READY, not
    SHOW_PROCEDURE. *)
Lemma single_answer_with_offer_marker :
  exists a text,
    find_best_answer offer_store (py "1234") [] = Returns a
    /\ descriptor_mode (data_str a) = Some (py "SINGLE")
    /\ generate_ai_response (py "1234") [] (data_str a) TECHNICAL
         (answer_status a) = [text]
    /\ contains SUB_OFFER text = true
    /\ find_best_answer offer_store (py "yes")
         [user_turn (py "1234"); assistant_turn text]
       = Returns
           (mk_answer true
              (descriptor
                 [(py "mode", py "SUB_TABLE");
                  (py "table",
                   sub_table (rows_with_code offer_store (py "1234")));
                  (py "code", py "1234")])
              READY).
Proof.
  eexists. eexists. split; [vm_compute; reflexivity|].
  split; [vm_compute; reflexivity|].
  split; [vm_compute; reflexivity|].
  split; vm_compute; reflexivity.
Qed.

(** C10: a run of the theorem, [hi] inside [machine]. *)
Lemma courtesy_word_witness :
  detect_intent (py "machine") = CONVERSATIONAL
  /\ detect_intent (py "machine") <> TECHNICAL.
Proof.
  apply (courtesy_word_substring (py "machine") (py "mac") (py "hi")
           (py "ne")).
  - vm_compute. reflexivity.
  - vm_compute. reflexivity.
  - vm_compute. reflexivity.
  - vm_compute. reflexivity.
  - vm_compute. tauto.
  - vm_compute. reflexivity.
Defined.

(** C2: a run of the theorem: the offer for code 621 of [network_store]
    and the [yes] that follows it. *)
Lemma name_only_round_trip_witness :
  contains (py "(Code: 621)")
    (name_only_text CODE_QUERY (py "Network Protocol") (py "621")) = true
  /\ find_best_answer network_store (py "yes")
       [user_turn (py "code for Network Protocol");
        assistant_turn
          (name_only_text CODE_QUERY (py "Network Protocol") (py "621"))]
     = Returns
         (mk_answer true
            (descriptor
               [(py "mode", py "SUB_TABLE");
                (py "table",
                 py "| Sub-Code | Description / Values |" ++ NL
                 ++ py "| :--- | :--- |" ++ NL
                 ++ py "| NA | 0: Off <br> 1: On |" ++ NL
                 ++ py "| 1 | No data |");
                (py "code", py "621")])
            READY).
Proof.
  destruct (name_only_round_trip network_store
              (py "code for Network Protocol")
              [user_turn (py "code for Network Protocol")] CODE_QUERY
              (py "Network Protocol") (py "621")) as [H1 H2].
  assert (Hdf : network_store <> []) by discriminate.
  assert (Hne : py "621" <> []) by discriminate.
  assert (Hd : forallb re_d (py "621") = true) by (vm_compute; reflexivity).
  assert (Hname : code_tag_search (py "Network Protocol") = None)
    by (vm_compute; reflexivity).
  specialize (H2 Hdf Hne Hd Hname).
  vm_compute in H1, H2. split; vm_compute; assumption.
Defined.

(** C5: a run of the theorem on [ OK ]. *)
Lemma detect_intent_ok_witness :
  detect_intent (py " OK ") = CONFIRMATION
  /\ detect_intent (py " OK ") <> TECHNICAL.
Proof.
  apply (detect_intent_priority (py " OK ")). vm_compute. reflexivity.
Defined.

(** C8: a run of the theorem on the float 621.0. *)
Lemma clean_to_digits_witness :
  clean_to_digits (StrVal (clean_to_digits (FloatVal (py "621.0"))))
  = clean_to_digits (FloatVal (py "621.0"))
  /\ ascii_digits (clean_to_digits (FloatVal (py "621.0"))) = true.
Proof.
  destruct (clean_to_digits_idempotent (FloatVal (py "621.0")))
    as [H1 [_ [H3 _]]].
  split; [exact H1|]. apply H3. vm_compute. reflexivity.
Defined.

(** C9: a run of the theorem: [ok] after the SINGLE answer for the fax
    mode of [network_store]. *)
Lemma confirmation_after_results_witness :
  contains BULB
    (single_text (py "Fax Mode") (py "700")
       (sub_table (rows_with_code network_store (py "700")))) = true
  /\ contains SUB_OFFER
       (single_text (py "Fax Mode") (py "700")
          (sub_table (rows_with_code network_store (py "700")))) = false
  /\ find_best_answer network_store (py "ok")
       [user_turn (py "fax mode");
        assistant_turn
          (single_text (py "Fax Mode") (py "700")
             (sub_table (rows_with_code network_store (py "700"))))]
     = Returns (mk_answer true (py "{}") SHOW_PROCEDURE).
Proof.
  destruct (confirmation_after_results network_store (py "fax mode")
              (py "ok") [user_turn (py "fax mode")] TECHNICAL
              (Single (py "Fax Mode") (py "700")
                 (sub_table (rows_with_code network_store (py "700")))))
    as [H1 H2].
  assert (Hp : Forall (fun s => contains SUB_OFFER s = false)
                 (payload_texts
                    (Single (py "Fax Mode") (py "700")
                       (sub_table (rows_with_code network_store (py "700"))))))
    by (repeat constructor).
  destruct (H2 Hp) as [H3 H4].
  assert (Hdf : network_store <> []) by discriminate.
  assert (Hi : intent_of (py "ok") = CONFIRMATION)
    by (vm_compute; reflexivity).
  specialize (H4 Hdf Hi).
  vm_compute in H1, H3, H4. repeat split; vm_compute; assumption.
Defined.

(** ** Scenarios of the specification *)

Example clean_to_digits_samples :
  clean_to_digits (FloatVal (py "621.0")) = py "621"
  /\ clean_to_digits (IntVal (-621)) = py "621"
  /\ clean_to_digits (StrVal (py " NW-621.5 ")) = py "621"
  /\ clean_to_digits (StrVal (py "   ")) = []
  /\ clean_to_digits NaN = []
  /\ clean_to_digits NoneVal = [].
Proof. repeat split; vm_compute; reflexivity. Qed.

Example format_clean_description_samples :
  format_clean_description (py "  0: Off 1: On 22:x ")
  = py "0: Off <br> 1: On <br> 22: x"
  /\ format_clean_description (py " No data ") = py "No data".
Proof. split; vm_compute; reflexivity. Qed.

Example text_helpers_samples :
  search_term_of (py "what is the code for network protocol")
  = py "network protocol"
  /\ findall_codes None 0 (py "12345 a1234 9999 123456 4321")
     = [py "12345"; py "9999"; py "4321"]
  /\ code_tag_search (py "(Code: x) sub code (Code: 621) (Code: 7)")
     = Some (py "621").
Proof. repeat split; vm_compute; reflexivity. Qed.

(** Scenario A: a code query by name gets the NAME_ONLY answer. *)
Example scenario_name_only :
  intent_of (py "code for Network Protocol") = CODE_QUERY
  /\ find_best_answer network_store (py "code for Network Protocol") []
     = Returns (name_only (py "Network Protocol") (py "621")).
Proof. split; vm_compute; reflexivity. Qed.

(** A name that matches one code gets the SINGLE answer, one table row
    for each sub-code. *)
Example scenario_single :
  find_best_answer network_store (py "Network Protocol") []
  = Returns
      (mk_answer true
         (descriptor
            [(py "mode", py "SINGLE"); (py "name", py "Network Protocol");
             (py "code", py "621");
             (py "table",
              py "| Sub-Code | Description / Values |" ++ NL
              ++ py "| :--- | :--- |" ++ NL
              ++ py "| NA | 0: Off <br> 1: On |" ++ NL
              ++ py "| 1 | No data |")])
         READY).
Proof. vm_compute. reflexivity. Qed.

(** Scenario C: [yes] after the sub-code offer for code 621. *)
Example scenario_sub_table :
  intent_of (py "yes") = CONFIRMATION
  /\ find_best_answer network_store (py "yes")
       [assistant_turn
          (py "Do you want to know the sub code for that? (Code: 621)")]
     = Returns
         (mk_answer true
            (descriptor
               [(py "mode", py "SUB_TABLE");
                (py "table",
                 py "| Sub-Code | Description / Values |" ++ NL
                 ++ py "| :--- | :--- |" ++ NL
                 ++ py "| NA | 0: Off <br> 1: On |" ++ NL
                 ++ py "| 1 | No data |");
                (py "code", py "621")])
            READY).
Proof. split; vm_compute; reflexivity. Qed.

(** Scenario D: [yes] with no history. *)
Example scenario_no_offer :
  find_best_answer network_store (py "yes") []
  = Returns (mk_answer false (py "{}") NONE).
Proof. vm_compute. reflexivity. Qed.

(** Scenario E: the empty store. *)
Example scenario_empty_store :
  find_best_answer [] (py "Network Protocol") []
  = Returns (mk_answer true (descriptor [(py "mode", py "NOT_FOUND")])
               DATA_MISSING)
  /\ generate_ai_response (py "Network Protocol") []
       (descriptor [(py "mode", py "NOT_FOUND")]) TECHNICAL DATA_MISSING
     = [NOT_FOUND_MESSAGE].
Proof. split; vm_compute; reflexivity. Qed.

(** Two codes under one name give the COMPARE answer, its columns in the
    order of the codes and its rows in the order of the sub-codes. *)
Example scenario_compare :
  find_best_answer
    [mk_record "700" "Fax Mode" "2" "0: A 1: B";
     mk_record "621" "Fax Mode" "-" "No data";
     mk_record "621" "Fax Mode" "2" "on"]
    (py "fax mode") []
  = Returns
      (mk_answer true
         (descriptor
            [(py "mode", py "COMPARE"); (py "query", py "FAX MODE");
             (py "table",
              py "| Sub | 621 (Fax Mode) | 700 (Fax Mode) |" ++ NL
              ++ py "| :--- | :--- | :--- |" ++ NL
              ++ py "| NA | No data | - |" ++ NL
              ++ py "| 2 | on | 0: A <br> 1: B |")])
         READY).
Proof. vm_compute. reflexivity. Qed.

(** * Further properties of chat_engine.py *)

Section Helpers.

Context {R : PyRuntime}.

(** ** The code tokens of a search term *)

Lemma digits_exactly_true (n : nat) (s : pystr) :
  digits_exactly n s = true ->
  length (firstn n s) = n /\ forallb re_d (firstn n s) = true.
Proof.
  unfold digits_exactly. intros H. apply andb_true_iff in H as [H1 H2].
  apply Nat.eqb_eq in H1. now split.
Qed.

Lemma code_token_at_digits (prev : option N) (s tok : pystr) :
  code_token_at prev s = Some tok ->
  (length tok = 4 \/ length tok = 5)
  /\ forallb re_d tok = true
  /\ exists n, tok = firstn n s.
Proof.
  unfold code_token_at.
  destruct (boundary prev (nth_error s 0)); [|discriminate].
  destruct (digits_exactly 5 s && boundary (nth_error s 4) (nth_error s 5))
    eqn:E5.
  - intros [= <-]. apply andb_true_iff in E5 as [E5 _].
    destruct (digits_exactly_true _ _ E5) as [Hl Hd].
    split; [now right|]. split; [assumption | now exists 5].
  - destruct (digits_exactly 4 s
              && boundary (nth_error s 3) (nth_error s 4)) eqn:E4;
      [|discriminate].
    intros [= <-]. apply andb_true_iff in E4 as [E4 _].
    destruct (digits_exactly_true _ _ E4) as [Hl Hd].
    split; [now left|]. split; [assumption | now exists 4].
Qed.

Lemma startswith_firstn (n : nat) (s : pystr) :
  startswith (firstn n s) s = true.
Proof.
  rewrite <- (firstn_skipn n s) at 2. apply startswith_app.
Qed.

Lemma contains_startswith (n h : pystr) :
  startswith n h = true -> contains n h = true.
Proof. intros H. destruct h; simpl; now rewrite H. Qed.

Lemma contains_tail (n : pystr) (c : N) (t : pystr) :
  contains n t = true -> contains n (c :: t) = true.
Proof. intros H. rewrite contains_cons, H. apply orb_true_r. Qed.

Lemma contains_length (n h : pystr) :
  contains n h = true -> length n <= length h.
Proof.
  intros H. apply contains_spec in H as [a [b ->]].
  rewrite !length_app. lia.
Qed.

Lemma findall_codes_tokens_from (prev : option N) (skip : nat)
    (s tok : pystr) :
  In tok (findall_codes prev skip s) ->
  (length tok = 4 \/ length tok = 5)
  /\ forallb re_d tok = true
  /\ contains tok s = true.
Proof.
  revert prev skip; induction s as [|c t IH]; intros prev skip;
    [intros []|].
  simpl findall_codes. destruct skip as [|k].
  - destruct (code_token_at prev (c :: t)) as [tok0|] eqn:E.
    + intros [<-|Hin].
      * destruct (code_token_at_digits _ _ _ E) as [Hl [Hd [n ->]]].
        split; [assumption|]. split; [assumption|].
        apply contains_startswith, startswith_firstn.
      * destruct (IH _ _ Hin) as [Hl [Hd Hc]].
        split; [assumption|]. split; [assumption|].
        now apply contains_tail.
    + intros Hin. destruct (IH _ _ Hin) as [Hl [Hd Hc]].
      split; [assumption|]. split; [assumption|]. now apply contains_tail.
  - intros Hin. destruct (IH _ _ Hin) as [Hl [Hd Hc]].
    split; [assumption|]. split; [assumption|]. now apply contains_tail.
Qed.

(** X1.  Every token that [re.findall(r'\b\d{4,5}\b', search_term)] finds is
    a run of four or five decimal digits that occurs in the search term. *)
Theorem findall_codes_tokens (search_term tok : pystr) :
  In tok (findall_codes None 0 search_term) ->
  (length tok = 4 \/ length tok = 5)
  /\ forallb re_d tok = true
  /\ contains tok search_term = true.
Proof. apply findall_codes_tokens_from. Qed.

(** X2.  A search term of fewer than four characters has no code token, so
    a query such as [621] is never looked up by code: with a non-empty
    store it goes to the name filter, whatever the intent. *)
Theorem short_term_searched_by_name (df : list record) (i : intent)
    (search_term : pystr) :
  length search_term < 4 ->
  findall_codes None 0 search_term = []
  /\ search_rows df i search_term
     = (rows <- rows_with_name df search_term ;;
        match i, rows with
        | CODE_QUERY, r :: _ =>
            Returns (inl (name_only (NAME_COL r) (CODE_COL r)))
        | _, _ => Returns (inr rows)
        end).
Proof.
  intros Hlen.
  assert (E : findall_codes None 0 search_term = []).
  { destruct (findall_codes None 0 search_term) as [|tok l] eqn:E;
      [reflexivity|].
    assert (Hin : In tok (findall_codes None 0 search_term))
      by (rewrite E; now left).
    destruct (findall_codes_tokens_from _ _ _ _ Hin) as [Hl [_ Hc]].
    apply contains_length in Hc. lia. }
  split; [assumption|]. unfold search_rows. now rewrite E.
Qed.

(** ** Descriptions without labels *)

Lemma digits_then_absent (close : N) (s : pystr) :
  ~ In close s -> digits_then close s = None.
Proof.
  induction s as [|c rest IH]; intros H; [reflexivity|].
  rewrite digits_then_cons. destruct (re_d c); [|reflexivity].
  rewrite IH by (intros Hin; apply H; now right).
  destruct rest as [|c' rest']; [reflexivity|].
  destruct (N.eqb_spec c' close) as [->|_]; [|reflexivity].
  exfalso. apply H. right. now left.
Qed.

Lemma re_split_labels_cons (c : N) (t : pystr) :
  re_split_labels 0 (c :: t)
  = match digits_then 58 (c :: t) with
    | Some ds =>
        let '(v, more) := re_split_labels (length ds) t in
        ([], (ds ++ [58%N], v) :: more)
    | None => let '(v, more) := re_split_labels 0 t in (c :: v, more)
    end.
Proof. reflexivity. Qed.

Lemma re_split_labels_plain (s : pystr) :
  ~ In 58%N s -> re_split_labels 0 s = (s, []).
Proof.
  induction s as [|c t IH]; intros H; [reflexivity|].
  rewrite re_split_labels_cons, (digits_then_absent _ _ H).
  rewrite IH by (intros Hin; apply H; now right). reflexivity.
Qed.

(** X3.  A description without a colon has no [<digits>:] label, and
    [format_clean_description] returns it unchanged but for the white space
    at its ends. *)
Theorem format_clean_description_plain (text : pystr) :
  ~ In 58%N text ->
  format_clean_description text = strip isspace text.
Proof.
  intros H. unfold format_clean_description. cbv zeta.
  rewrite re_split_labels_plain; [reflexivity|].
  intros Hin. apply H. eapply strip_incl; eassumption.
Qed.

End Helpers.

(** ** The answers of the resolver *)

Section Answers.

Context {R : PyRuntime}.

(** The answers [find_best_answer] can return for the store [df]. *)
Inductive answer_shape (df : list record) : answer -> Prop :=
| shape_data_missing :
    answer_shape df
      (mk_answer true (descriptor [(py "mode", py "NOT_FOUND")]) DATA_MISSING)
| shape_exit :
    answer_shape df
      (mk_answer true (descriptor [(py "mode", py "EXIT")]) READY)
| shape_none : answer_shape df (mk_answer false (py "{}") NONE)
| shape_procedure : answer_shape df (mk_answer true (py "{}") SHOW_PROCEDURE)
| shape_sub_table (code : pystr) :
    answer_shape df
      (mk_answer true
         (descriptor [(py "mode", py "SUB_TABLE");
                      (py "table", sub_table (rows_with_code df code));
                      (py "code", code)])
         READY)
| shape_name_only (r : record) :
    In r df -> answer_shape df (name_only (NAME_COL r) (CODE_COL r))
| shape_not_found (query : pystr) :
    answer_shape df
      (mk_answer true
         (descriptor [(py "mode", py "NOT_FOUND"); (py "query", query)])
         DATA_MISSING)
| shape_result (p : result_payload) :
    answer_shape df (mk_answer true (descriptor (result_dict p)) READY).

Lemma process_results_shape (df : list record) (term : pystr)
    (rows : list record) (a : answer) :
  process_results term rows = Returns a -> answer_shape df a.
Proof.
  unfold process_results. destruct rows as [|r rows].
  - intros [= <-]. constructor.
  - cbv zeta.
    destruct (Nat.ltb 2
                (length (sorted (unique (map CODE_COL (r :: rows)))))).
    + intros [= <-].
      apply (shape_result df
               (Listing (str_upper term) (list_table (match_list (r :: rows))))).
    + destruct (Nat.eqb
                  (length (sorted (unique (map CODE_COL (r :: rows))))) 2).
      * destruct (iloc0 (rows_with_code (r :: rows)
                           (nth 0 (sorted (unique (map CODE_COL (r :: rows))))
                              []))) as [r1|e]; [|discriminate].
        destruct (iloc0 (rows_with_code (r :: rows)
                           (nth 1 (sorted (unique (map CODE_COL (r :: rows))))
                              []))) as [r2|e]; [|discriminate].
        intros [= <-].
        apply (shape_result df (Comparison (str_upper term) _)).
      * destruct (iloc0 (drop_duplicates Str.eqb SUB_CODE_COL (r :: rows)))
          as [r0|e]; [|discriminate].
        intros [= <-].
        apply (shape_result df (Single (NAME_COL r0) (CODE_COL r0) _)).
Qed.

Lemma rows_with_name_incl (df : list record) (term : pystr)
    (rows : list record) (r : record) :
  rows_with_name df term = Returns rows -> In r rows -> In r df.
Proof.
  unfold rows_with_name.
  destruct (filter (fun r0 => Str.eqb (str_lower (NAME_COL r0)) term) df)
    as [|r0 l] eqn:E.
  - destruct (re_valid term); [|discriminate].
    intros [= <-] H. now apply filter_In in H.
  - intros [= <-] H. rewrite <- E in H. now apply filter_In in H.
Qed.

Lemma technical_search_shape (df : list record) (i : intent)
    (user_text : pystr) (a : answer) :
  technical_search df i user_text = Returns a -> answer_shape df a.
Proof.
  unfold technical_search. cbv zeta.
  destruct (Nat.ltb (length (search_term_of user_text)) 2
            || Str.eqb (search_term_of user_text) (py "ok")).
  { intros [= <-]. constructor. }
  unfold search_rows.
  destruct (findall_codes None 0 (search_term_of user_text)) as [|code l].
  - destruct (rows_with_name df (search_term_of user_text)) as [rows|e] eqn:E;
      [|discriminate].
    cbn [bind].
    assert (Hname : forall r rest, rows = r :: rest ->
              answer_shape df (name_only (NAME_COL r) (CODE_COL r))).
    { intros r rest ->. constructor.
      apply (rows_with_name_incl _ _ _ _ E). now left. }
    destruct i, rows as [|r rest]; cbn [bind];
      try (apply process_results_shape);
      intros [= <-]; eapply Hname; reflexivity.
  - assert (Hname : forall r rest,
              rows_with_code df code = r :: rest ->
              answer_shape df (name_only (NAME_COL r) code)).
    { intros r rest E.
      assert (Hin : In r (rows_with_code df code)) by (rewrite E; now left).
      apply filter_In in Hin as [Hin Hc]. apply eqb_eq in Hc. subst code.
      now constructor. }
    destruct i, (rows_with_code df code) as [|r rest] eqn:E; cbn [bind];
      try (apply process_results_shape);
      intros [= <-]; eapply Hname; reflexivity.
Qed.

(** Every answer of [find_best_answer] has one of the shapes. *)
Lemma find_best_answer_shape (df : list record) (user_prompt : pystr)
    (history : list turn) (a : answer) :
  find_best_answer df user_prompt history = Returns a -> answer_shape df a.
Proof.
  unfold find_best_answer. destruct df as [|r df].
  { intros [= <-]. constructor. }
  cbv zeta.
  destruct (detect_intent (strip isspace (str_lower user_prompt)));
    try apply technical_search_shape.
  - intros [= <-]. unfold confirmation_answer.
    destruct (last_content history) as [last_msg|]; [|constructor].
    destruct (if contains SUB_OFFER last_msg
              then code_tag_search last_msg else None) as [code|].
    + constructor.
    + destruct (contains PROCEDURE_OFFER last_msg || contains BULB last_msg);
        constructor.
  - intros [= <-]. constructor.
  - intros [= <-]. constructor.
Qed.

Lemma descriptor_mode_empty : descriptor_mode (py "{}") = None.
Proof.
  unfold descriptor_mode.
  change (py "{}") with (dict_str str_repr []).
  rewrite literal_eval_dict_str by constructor. reflexivity.
Qed.

Lemma descriptor_mode_result (p : result_payload) :
  exists tag,
    descriptor_mode (descriptor (result_dict p)) = Some tag
    /\ In tag [py "SINGLE"; py "LIST"; py "COMPARE"].
Proof.
  destruct p; simpl result_dict; eexists;
    (split; [apply descriptor_mode_descriptor; distinct_keys|]);
    simpl; tauto.
Qed.

(** X4.  Whatever [find_best_answer] returns keeps to one protocol:
    [match_found] is false exactly under status NONE; the status is
    DATA_MISSING exactly when the descriptor's tag is NOT_FOUND; under
    READY the descriptor carries one of the six tags the renderer knows;
    under NONE and SHOW_PROCEDURE the descriptor is the empty dict; and the
    second component is always the empty string. *)
Theorem find_best_answer_protocol (df : list record) (user_prompt : pystr)
    (history : list turn) (a : answer) :
  find_best_answer df user_prompt history = Returns a ->
  (match_found a = false <-> answer_status a = NONE)
  /\ (answer_status a = DATA_MISSING
      <-> descriptor_mode (data_str a) = Some (py "NOT_FOUND"))
  /\ (answer_status a = READY ->
      exists tag,
        descriptor_mode (data_str a) = Some tag /\ In tag known_tags)
  /\ (answer_status a = NONE \/ answer_status a = SHOW_PROCEDURE ->
      data_str a = py "{}")
  /\ excel_text a = [].
Proof.
  intros H. apply find_best_answer_shape in H.
  destruct H as [| | | |code|r Hr|query|p]; unfold name_only; simpl;
    try rewrite descriptor_mode_empty;
    try (rewrite descriptor_mode_descriptor by distinct_keys);
    try (destruct (descriptor_mode_result p) as [tag [Ht Hin]]; rewrite Ht;
         vm_compute in Hin);
    repeat split; intros;
    try reflexivity;
    try match goal with
        | H : _ \/ _ |- _ => destruct H
        end;
    try match goal with
        | H : @eq status _ _ |- _ => discriminate H
        | H : @eq bool _ _ |- _ => discriminate H
        | H : @eq (option pystr) _ _ |- _ =>
            vm_compute in H; try discriminate H
        end;
    try (eexists; split; [reflexivity | vm_compute; tauto]);
    try (exfalso;
         match goal with
         | H : Some _ = Some _ |- _ => injection H as H; subst
         end;
         intuition discriminate).
Qed.

(** X5.  A NAME_ONLY answer always names a record of the store: its name and
    its code are those of one record. *)
Theorem name_only_answer_sound (df : list record) (user_prompt : pystr)
    (history : list turn) (a : answer) :
  find_best_answer df user_prompt history = Returns a ->
  descriptor_mode (data_str a) = Some (py "NAME_ONLY") ->
  exists r, In r df /\ a = name_only (NAME_COL r) (CODE_COL r).
Proof.
  intros H Hm. apply find_best_answer_shape in H.
  destruct H as [| | | |code|r Hr|query|p]; unfold name_only in *;
    simpl in Hm;
    try rewrite descriptor_mode_empty in Hm;
    try (rewrite descriptor_mode_descriptor in Hm by distinct_keys);
    try discriminate;
    try (vm_compute in Hm; discriminate).
  - exists r. now split.
  - exfalso. destruct (descriptor_mode_result p) as [tag [Ht Hin]].
    rewrite Ht in Hm. injection Hm as ->.
    vm_compute in Hin. intuition discriminate.
Qed.

End Answers.

(** ** The intent seen by the resolver, the renderer and the web layer *)

Section Intents.

Context {R : PyRuntime}.

Lemma ascii_lower_is_ascii (c : N) :
  is_ascii c = true -> is_ascii (ascii_lower c) = true.
Proof.
  unfold is_ascii, ascii_lower, ascii_upper_letter. intros H.
  apply N.ltb_lt in H. apply N.ltb_lt.
  destruct (N.leb_spec 65 c), (N.leb_spec c 90); simpl; lia.
Qed.

Lemma ascii_lower_idem (c : N) : ascii_lower (ascii_lower c) = ascii_lower c.
Proof.
  unfold ascii_lower at 2.
  destruct (ascii_upper_letter c) eqn:E.
  - unfold ascii_lower.
    assert (E' : ascii_upper_letter (c + 32) = false).
    { unfold ascii_upper_letter in *. apply andb_true_iff in E as [E _].
      apply N.leb_le in E.
      destruct (N.leb_spec (c + 32) 90); [lia|]. apply andb_false_r. }
    now rewrite E', E.
  - reflexivity.
Qed.

(** Lowercasing and trimming an ASCII text a second time changes nothing. *)
Lemma lower_strip_idem_ascii (text : pystr) :
  forallb is_ascii text = true ->
  strip isspace (str_lower (strip isspace (str_lower text)))
  = strip isspace (str_lower text).
Proof.
  intros H. rewrite (lower_strip_ascii text H).
  set (q := strip ascii_space (map ascii_lower text)).
  assert (Hq : forall c, In c q -> exists x, In x text /\ c = ascii_lower x).
  { intros c Hc. unfold q in Hc. apply strip_incl in Hc.
    apply in_map_iff in Hc as [x [<- Hx]]. now exists x. }
  assert (Ha : forallb is_ascii q = true).
  { apply forallb_forall. intros c Hc. destruct (Hq c Hc) as [x [Hx ->]].
    apply ascii_lower_is_ascii. rewrite forallb_forall in H. now apply H. }
  rewrite (lower_strip_ascii q Ha).
  assert (Hm : map ascii_lower q = q).
  { rewrite <- (map_id q) at 2. apply map_ext_in. intros c Hc.
    destruct (Hq c Hc) as [x [_ ->]]. apply ascii_lower_idem. }
  rewrite Hm. apply strip_idem.
Qed.

(** X6.  For an ASCII prompt the intent that [find_best_answer] computes from
    the lowercased, trimmed text is the intent that [chat_submit] and the
    NAME_ONLY branch of the renderer compute from the prompt as typed. *)
Theorem intent_of_ascii_prompt (user_prompt : pystr) :
  forallb is_ascii user_prompt = true ->
  intent_of user_prompt = detect_intent user_prompt.
Proof.
  intros H. unfold intent_of, detect_intent. cbv zeta.
  now rewrite (lower_strip_idem_ascii user_prompt H).
Qed.

End Intents.

(** ** Sorting *)






Lemma sorted_In (l : list pystr) (x : pystr) : In x (sorted l) <-> In x l.
Proof.
  split; apply Permutation_in;
    [apply sorted_perm | apply Permutation_sym, sorted_perm].
Qed.

Lemma dedup_from_subset {A K : Type} (keq : K -> K -> bool) (key : A -> K)
    (seen : list K) (l : list A) (x : A) :
  In x (dedup_from keq key seen l) -> In x l.
Proof.
  revert seen; induction l as [|y l IH]; intros seen; simpl; [tauto|].
  destruct (existsb (keq (key y)) seen).
  - intros H. right. eapply IH; eassumption.
  - intros [H|H]; [now left | right; eapply IH; eassumption].
Qed.

(** ** The COMPARE and SINGLE answers *)

Section Results.

Context {R : PyRuntime}.



(** [l'] takes some of the elements of [l], in their order. *)
Inductive in_order {A : Type} : list A -> list A -> Prop :=
| in_order_nil : in_order [] []
| in_order_keep (x : A) (l' l : list A) :
    in_order l' l -> in_order (x :: l') (x :: l)
| in_order_skip (x : A) (l' l : list A) :
    in_order l' l -> in_order l' (x :: l).

Lemma dedup_from_in_order {A K : Type} (keq : K -> K -> bool) (key : A -> K)
    (seen : list K) (l : list A) :
  in_order (dedup_from keq key seen l) l.
Proof.
  revert seen; induction l as [|x l IH]; intros seen; simpl.
  - constructor.
  - destruct (existsb (keq (key x)) seen); constructor; apply IH.
Qed.

(** A row that [dedup_from] keeps is the first of the list with its key. *)
Lemma dedup_from_first {A K : Type} (keq : K -> K -> bool) (key : A -> K)
    (keq_eq : forall a b, keq a b = true <-> a = b)
    (seen : list K) (l : list A) (r : A) :
  In r (dedup_from keq key seen l) ->
  ~ In (key r) seen
  /\ exists before after,
       l = before ++ r :: after
       /\ forall x, In x before -> key x <> key r.
Proof.
  revert seen; induction l as [|x l IH]; intros seen; simpl; [tauto|].
  destruct (existsb (keq (key x)) seen) eqn:E.
  - intros Hr. destruct (IH _ Hr) as [Hs [before [after [-> Hb]]]].
    split; [exact Hs|]. exists (x :: before), after. split; [reflexivity|].
    intros y [<-|Hy]; [|now apply Hb].
    apply (existsb_keq _ keq keq_eq) in E. intros Ek. apply Hs.
    now rewrite <- Ek.
  - assert (Hx : ~ In (key x) seen).
    { intros H. apply (existsb_keq _ keq keq_eq) in H. congruence. }
    intros [<-|Hr].
    + split; [exact Hx|]. exists [], l. split; [reflexivity|].
      intros y [].
    + destruct (IH _ Hr) as [Hs [before [after [-> Hb]]]].
      split; [intros H; apply Hs; now right|].
      exists (x :: before), after. split; [reflexivity|].
      intros y [<-|Hy]; [|now apply Hb].
      intros Ek. apply Hs. left. exact Ek.
Qed.

(** X8.  When the rows found have exactly one code, the answer is the
    SINGLE descriptor with the name and the code of the first row.  Its
    table is the two header lines and then one line, with the sub-code
    ([NA] for [-]) and the formatted description, for each row shown; the
    rows shown are taken from the rows found, in their order: for every
    sub-code of the rows found, the first row with that sub-code, and no
    other. *)
Theorem single_answer_rows (term : pystr) (rows : list record) :
  distinct_codes rows 1 ->
  exists r0 rest kept,
    rows = r0 :: rest
    /\ (forall r, In r rows -> CODE_COL r = CODE_COL r0)
    /\ process_results term rows
       = Returns
           (mk_answer true
              (descriptor
                 [(py "mode", py "SINGLE"); (py "name", NAME_COL r0);
                  (py "code", CODE_COL r0);
                  (py "table",
                   join NL
                     ([py "| Sub-Code | Description / Values |"; py "| :--- | :--- |"]
                      ++ map (fun r =>
                                py "| "
                                ++ (if Str.eqb (SUB_CODE_COL r) (py "-") then py "NA"
                                    else SUB_CODE_COL r)
                                ++ py " | " ++ format_clean_description (DESCRIPTION_COL r)
                                ++ py " |")
                             (r0 :: kept)))])
              READY)
    /\ in_order (r0 :: kept) rows
    /\ NoDup (map SUB_CODE_COL (r0 :: kept))
    /\ (forall s,
          In s (map SUB_CODE_COL (r0 :: kept))
          <-> In s (map SUB_CODE_COL rows))
    /\ (forall r,
          In r (r0 :: kept) ->
          exists before after,
            rows = before ++ r :: after
            /\ forall x, In x before -> SUB_CODE_COL x <> SUB_CODE_COL r).
Proof.
  intros Hn. pose proof (unique_codes_length _ _ Hn) as Hlen.
  destruct rows as [|r0 rest].
  { simpl in Hlen. discriminate. }
  assert (Hin : forall c,
            In c (sorted (unique (map CODE_COL (r0 :: rest))))
            <-> In c (map CODE_COL (r0 :: rest))).
  { intros c. rewrite sorted_In. apply unique_In. }
  assert (Hsame : forall r, In r (r0 :: rest) -> CODE_COL r = CODE_COL r0).
  { intros r Hr.
    destruct (sorted (unique (map CODE_COL (r0 :: rest))))
      as [|c [|c' l]] eqn:Ec; try discriminate.
    assert (Hc : In (CODE_COL r) [c]) by (apply Hin; now apply in_map).
    assert (Hc0 : In (CODE_COL r0) [c])
      by (apply Hin; apply in_map; now left).
    simpl in Hc, Hc0. destruct Hc as [<-|[]], Hc0 as [<-|[]]. reflexivity. }
  exists r0, rest,
    (dedup_from Str.eqb SUB_CODE_COL [SUB_CODE_COL r0] rest).
  assert (Ed : drop_duplicates Str.eqb SUB_CODE_COL (r0 :: rest)
               = r0 :: dedup_from Str.eqb SUB_CODE_COL [SUB_CODE_COL r0] rest)
    by reflexivity.
  split; [reflexivity|]. split; [exact Hsame|].
  split.
  { unfold process_results. cbv zeta. rewrite Hlen.
    cbn [Nat.ltb Nat.leb Nat.eqb]. rewrite Ed. reflexivity. }
  rewrite <- Ed. unfold drop_duplicates.
  split; [apply dedup_from_in_order|].
  split; [apply dedup_from_NoDup, eqb_eq|].
  split.
  { intros s. rewrite (dedup_from_keys _ _ Str.eqb _ eqb_eq). simpl. tauto. }
  intros r Hr. now apply (dedup_from_first Str.eqb SUB_CODE_COL eqb_eq []).
Qed.

End Results.

(** ** The sub-code table and the procedure offer *)

Ltac not_in_marker := vm_compute; intuition discriminate.

Section Offers.

Context {R : PyRuntime}.

Lemma render_sub_table (user_prompt code table : pystr) :
  render_descriptor user_prompt
    (descriptor [(py "mode", py "SUB_TABLE"); (py "table", table);
                 (py "code", code)])
  = Some (sub_table_text code table).
Proof.
  unfold render_descriptor, descriptor.
  rewrite literal_eval_dict_str by distinct_keys. reflexivity.
Qed.

Lemma render_exit (user_prompt : pystr) :
  render_descriptor user_prompt (descriptor [(py "mode", py "EXIT")])
  = Some EXIT_MESSAGE.
Proof.
  unfold render_descriptor, descriptor.
  rewrite literal_eval_dict_str by distinct_keys. reflexivity.
Qed.

Lemma render_empty (user_prompt : pystr) :
  render_descriptor user_prompt (py "{}") = Some GREETING.
Proof.
  unfold render_descriptor. change (py "{}") with (dict_str str_repr []).
  rewrite literal_eval_dict_str by constructor. reflexivity.
Qed.

Lemma sub_table_text_has_procedure_offer (code table : pystr) :
  contains PROCEDURE_OFFER (sub_table_text code table) = true.
Proof.
  apply contains_spec.
  exists (py "Here are the sub codes for code **" ++ code ++ py "**:"
          ++ NL ++ NL ++ table ++ NL ++ NL ++ py " " ++ BULB
          ++ py " Do you want to know "), (py "?").
  unfold sub_table_text. repeat rewrite <- app_assoc. reflexivity.
Qed.

Lemma sub_table_text_no_offer (code table : pystr) :
  contains SUB_OFFER code = false ->
  contains SUB_OFFER table = false ->
  contains SUB_OFFER (sub_table_text code table) = false.
Proof.
  intros Hcode Htable.
  change (sub_table_text code table)
    with (py "Here are the sub codes for code *"
          ++ 42%N
          :: code
          ++ 42%N
          :: py "*:"
          ++ 10%N
          :: 10%N
          :: table
          ++ 10%N
          :: [10%N] ++ py " " ++ BULB
          ++ py " Do you want to know how to set the 08 code?").
  rewrite offer_sep by (not_in_marker || reflexivity).
  rewrite (offer_sep code) by (not_in_marker || assumption).
  rewrite offer_sep by (not_in_marker || reflexivity).
  rewrite offer_skip by discriminate.
  rewrite (offer_sep table) by (not_in_marker || assumption).
  reflexivity.
Qed.

(** X9.  The rendered SUB_TABLE answer ends in the procedure offer; when the
    code and the table it shows do not contain the sub-code offer marker,
    an utterance of intent CONFIRMATION that follows it gets status
    SHOW_PROCEDURE, for every non-empty store. *)
Theorem procedure_offer_round_trip (df : list record)
    (shown_prompt user_prompt : pystr) (history : list turn) (i : intent)
    (code table : pystr) :
  let text :=
    full_response
      (generate_ai_response shown_prompt history
         (descriptor [(py "mode", py "SUB_TABLE"); (py "table", table);
                      (py "code", code)])
         i READY) in
  contains PROCEDURE_OFFER text = true
  /\ (contains SUB_OFFER code = false ->
      contains SUB_OFFER table = false ->
      df <> [] ->
      intent_of user_prompt = CONFIRMATION ->
      find_best_answer df user_prompt
        (history ++ [{| role := py "assistant"; content := text |}])
      = Returns (mk_answer true (py "{}") SHOW_PROCEDURE)).
Proof.
  intros text.
  assert (Et : text = sub_table_text code table).
  { unfold text, generate_ai_response. rewrite render_sub_table.
    unfold full_response. cbn [concat]. apply app_nil_r. }
  rewrite Et. split; [apply sub_table_text_has_procedure_offer|].
  intros Hcode Htable Hdf Hint.
  destruct df as [|r df]; [contradiction|].
  rewrite (find_best_answer_confirmation _ _ _ _ Hint).
  unfold confirmation_answer. rewrite last_content_snoc. cbn [content].
  rewrite (sub_table_text_no_offer _ _ Hcode Htable).
  now rewrite sub_table_text_has_procedure_offer.
Qed.

Lemma digits_then_closed (close : N) (code rest : pystr) :
  code <> [] -> forallb re_d code = true -> re_d close = false ->
  digits_then close (code ++ close :: rest) = Some code.
Proof.
  intros Hne Hd Hc. induction code as [|c code IH]; [contradiction|].
  simpl in Hd. apply andb_true_iff in Hd as [Hdc Hd].
  change ((c :: code) ++ close :: rest) with (c :: (code ++ close :: rest)).
  rewrite digits_then_cons, Hdc.
  destruct code as [|c' code].
  - cbn [app]. rewrite digits_then_cons, Hc. now rewrite N.eqb_refl.
  - now rewrite (IH ltac:(discriminate) Hd).
Qed.

(** The first opening parenthesis of a text starts a code tag: that tag is
    the one [re.search] finds, whatever follows it. *)
Lemma code_tag_search_first (pre code post : pystr) :
  ~ In 40%N pre -> code <> [] -> forallb re_d code = true ->
  code_tag_search (pre ++ py "(Code: " ++ code ++ py ")" ++ post)
  = Some code.
Proof.
  intros Hpre Hne Hd. rewrite (code_tag_search_no_paren _ _ Hpre).
  apply code_tag_search_at. unfold code_tag_at.
  change (py "(Code: ") with CODE_TAG_OPEN. rewrite strip_prefix_app.
  change (py ")" ++ post) with (41%N :: post).
  apply digits_then_closed; try assumption.
  now apply re_d_not_ascii_other.
Qed.

(** X10.  The confirmation branch reads the last turn whatever its role,
    and takes the first code tag of its text.  When that text contains the
    sub-code offer marker and its first opening parenthesis starts a tag
    [(Code: <digits>)], a confirmation gets the SUB_TABLE answer for these
    digits with status READY, whatever follows the tag, later tags
    included.  The table is the two header lines and then, for every record
    of the store whose code is these digits, in the order of the store, one
    line with the sub-code ([NA] for [-]) and the formatted description. *)
Theorem offer_confirmation (df : list record) (user_prompt : pystr)
    (history : list turn) (t : turn) (pre code post : pystr) :
  df <> [] ->
  intent_of user_prompt = CONFIRMATION ->
  content t = pre ++ py "(Code: " ++ code ++ py ")" ++ post ->
  ~ In 40%N pre ->
  code <> [] ->
  forallb re_d code = true ->
  contains (py "know the sub code") (content t) = true ->
  find_best_answer df user_prompt (history ++ [t])
  = Returns
      (mk_answer true
         (descriptor
            [(py "mode", py "SUB_TABLE");
             (py "table",
              join NL
                ([py "| Sub-Code | Description / Values |"; py "| :--- | :--- |"]
                 ++ map (fun r =>
                           py "| "
                           ++ (if Str.eqb (SUB_CODE_COL r) (py "-") then py "NA"
                               else SUB_CODE_COL r)
                           ++ py " | " ++ format_clean_description (DESCRIPTION_COL r)
                           ++ py " |")
                        (filter (fun r => Str.eqb (CODE_COL r) code) df)));
             (py "code", code)])
         READY).
Proof.
  intros Hdf Hint Ht Hpre Hne Hd Hoffer.
  destruct df as [|r df]; [contradiction|].
  rewrite (find_best_answer_confirmation _ _ _ _ Hint).
  unfold confirmation_answer. rewrite last_content_snoc.
  change SUB_OFFER with (py "know the sub code"). rewrite Hoffer, Ht.
  rewrite (code_tag_search_first _ _ _ Hpre Hne Hd). reflexivity.
Qed.

(** X11.  For every store of records, whose names are text (a table with
    a missing name is outside the model), whatever [find_best_answer]
    returns, the renderer decodes: with the descriptor and the status of
    the answer, for any prompt, it yields one chunk, and that chunk is never
    the fallback greeting of its [except] branch. *)
Theorem resolver_answer_renders (df : list record)
    (user_prompt : pystr) (history : list turn) (a : answer)
    (shown_prompt : pystr) (shown_history : list turn) (i : intent) :
  find_best_answer df user_prompt history = Returns a ->
  exists text,
    generate_ai_response shown_prompt shown_history (data_str a) i
      (answer_status a) = [text]
    /\ text <> FALLBACK_GREETING.
Proof.
  intros H. apply find_best_answer_shape in H.
  destruct H as [| | | |code|r Hr|query|p]; unfold name_only;
    cbn [data_str answer_status mk_answer generate_ai_response].
  - eexists. split; [reflexivity|]. intros E. vm_compute in E. discriminate E.
  - rewrite render_exit. eexists. split; [reflexivity|].
    intros E. vm_compute in E. discriminate E.
  - rewrite render_empty. eexists. split; [reflexivity|].
    intros E. vm_compute in E. discriminate E.
  - eexists. split; [reflexivity|]. intros E. vm_compute in E. discriminate E.
  - rewrite render_sub_table. eexists. split; [reflexivity|].
    intros E. vm_compute in E. discriminate E.
  - rewrite render_name_only. eexists. split; [reflexivity|].
    destruct (detect_intent shown_prompt); intros E; vm_compute in E;
      discriminate E.
  - eexists. split; [reflexivity|]. intros E. vm_compute in E. discriminate E.
  - rewrite render_result. eexists. split; [reflexivity|].
    destruct p; intros E; vm_compute in E; discriminate E.
Qed.

End Offers.

(** * The conversation store and the chat route

    [user_model.py] keeps users and conversations in two module-level
    dicts and a class-level counter; they are the state here, passed in and
    out of every function.  A dict is the list of its items in insertion
    order. *)

Module UserModel.

Record User := {
  u_id : Z;
  u_username : pystr;
  u_password : pystr;
  u_is_admin : bool
}.

Record Message := { m_role : pystr; m_content : pystr }.

Record Conversation := {
  c_id : Z;
  c_user_id : Z;
  c_title : pystr;
  c_messages : list Message
}.

Record state := {
  USERS : list (Z * User);
  CONVERSATIONS : list (Z * list Conversation);
  conversation_id_counter : Z
}.

(** [d.get(k)] *)
Fixpoint dict_lookup {V : Type} (k : Z) (d : list (Z * V)) : option V :=
  match d with
  | [] => None
  | (k', v) :: t => if Z.eqb k' k then Some v else dict_lookup k t
  end.

(** [d[k] = v]: a present key keeps its place, a new one goes last. *)
Fixpoint dict_set {V : Type} (k : Z) (v : V) (d : list (Z * V))
  : list (Z * V) :=
  match d with
  | [] => [(k, v)]
  | (k', v') :: t =>
      if Z.eqb k' k then (k, v) :: t else (k', v') :: dict_set k v t
  end.

(** [max(d.keys())] of a dict that is not empty. *)
Definition max_key {V : Type} (d : list (Z * V)) : Z :=
  match map fst d with
  | [] => 0%Z
  | k :: ks => fold_left Z.max ks k
  end.

(** The module as loaded: two users, and two conversations of the first,
    created with the ids 3 and 4 and renumbered 1 and 2. *)
Definition initial_state : state :=
  {| USERS :=
       [(1%Z, {| u_id := 1; u_username := py "testuser";
                 u_password := py "password"; u_is_admin := false |});
        (2%Z, {| u_id := 2; u_username := py "admin";
                 u_password := py "admin123"; u_is_admin := true |})];
     CONVERSATIONS :=
       [(1%Z,
         [{| c_id := 1; c_user_id := 1; c_title := py "NW-621 Search";
             c_messages :=
               [{| m_role := py "user";
                   m_content := py "Give the 08 code of NW-621" |};
                {| m_role := py "assistant";
                   m_content :=
                     py "Details for Code: NW-621. Access Code: NW-621. Setting Item Name: Network Protocol for 621." |}] |};
          {| c_id := 2; c_user_id := 1;
             c_title := py "Logging Configuration";
             c_messages :=
               [{| m_role := py "user";
                   m_content := py "How do I change the logging level?" |};
                {| m_role := py "assistant";
                   m_content :=
                     py "To change the logging level, use Access Code PR-401." |}] |}]);
        (2%Z, [])];
     conversation_id_counter := 5 |}.

(** [get_user_by_id]; [parsed] is [int(user_id)], [None] when it raises. *)
Definition get_user_by_id (st : state) (parsed : option Z) : option User :=
  match parsed with
  | Some k => dict_lookup k (USERS st)
  | None => None
  end.

Definition get_user_by_username (st : state) (username : pystr)
  : option User :=
  find (fun user => Str.eqb (u_username user) username) (map snd (USERS st)).

Definition get_all_users (st : state) : list User := map snd (USERS st).

Definition create_new_user (st : state) (username password : pystr)
    (is_admin : bool) : option User * state :=
  match get_user_by_username st username with
  | Some _ => (None, st)
  | None =>
      let new_id :=
        match USERS st with
        | [] => 1%Z
        | _ :: _ => (max_key (USERS st) + 1)%Z
        end in
      let new_user :=
        {| u_id := new_id; u_username := username; u_password := password;
           u_is_admin := is_admin |} in
      (Some new_user,
       {| USERS := dict_set new_id new_user (USERS st);
          CONVERSATIONS := dict_set new_id [] (CONVERSATIONS st);
          conversation_id_counter := conversation_id_counter st |})
  end.

Definition get_conversations_for_user (st : state) (user_id : Z)
  : list Conversation * state :=
  match dict_lookup user_id (CONVERSATIONS st) with
  | Some convs => (convs, st)
  | None =>
      ([],
       {| USERS := USERS st;
          CONVERSATIONS := dict_set user_id [] (CONVERSATIONS st);
          conversation_id_counter := conversation_id_counter st |})
  end.

Definition get_conversation_by_id (st : state) (user_id conv_id : Z)
  : option Conversation * state :=
  let '(convs, st) := get_conversations_for_user st user_id in
  (find (fun conv => Z.eqb (c_id conv) conv_id) convs, st).

(** [Conversation(user_id, title=title)] with its two first messages. *)
Definition new_conversation (st : state) (user_id : Z)
    (title user_message assistant_response : pystr) : Conversation :=
  {| c_id := conversation_id_counter st;
     c_user_id := user_id;
     c_title := match title with [] => py "New Chat" | _ :: _ => title end;
     c_messages :=
       [{| m_role := py "user"; m_content := user_message |};
        {| m_role := py "assistant"; m_content := assistant_response |}] |}.

Definition add_new_conversation (st : state) (user_id : Z)
    (title user_message assistant_response : pystr) : Z * state :=
  let conv :=
    new_conversation st user_id title user_message assistant_response in
  let convs :=
    match dict_lookup user_id (CONVERSATIONS st) with
    | Some convs => convs
    | None => []
    end in
  (c_id conv,
   {| USERS := USERS st;
      CONVERSATIONS := dict_set user_id (conv :: convs) (CONVERSATIONS st);
      conversation_id_counter := (conversation_id_counter st + 1)%Z |}).

(** The two [conv.messages.append] on the conversation found. *)
Definition with_exchange (user_message assistant_response : pystr)
    (conv : Conversation) : Conversation :=
  {| c_id := c_id conv; c_user_id := c_user_id conv; c_title := c_title conv;
     c_messages :=
       c_messages conv
       ++ [{| m_role := py "user"; m_content := user_message |};
           {| m_role := py "assistant"; m_content := assistant_response |}] |}.

(** The first conversation with the id is the object that is mutated. *)
Fixpoint update_first (conv_id : Z) (f : Conversation -> Conversation)
    (convs : list Conversation) : list Conversation :=
  match convs with
  | [] => []
  | conv :: t =>
      if Z.eqb (c_id conv) conv_id then f conv :: t
      else conv :: update_first conv_id f t
  end.

Definition append_to_conversation (st : state) (user_id conv_id : Z)
    (user_message assistant_response : pystr) : bool * state :=
  let '(convs, st) := get_conversations_for_user st user_id in
  match find (fun conv => Z.eqb (c_id conv) conv_id) convs with
  | Some _ =>
      (true,
       {| USERS := USERS st;
          CONVERSATIONS :=
            dict_set user_id
              (update_first conv_id
                 (with_exchange user_message assistant_response) convs)
              (CONVERSATIONS st);
          conversation_id_counter := conversation_id_counter st |})
  | None => (false, st)
  end.

End UserModel.

Import UserModel.

(** *** The routes of app.py that use the store *)

Section Routes.

Context {R : PyRuntime}.

(** The credentials check of [login]: the user that is logged in. *)
Definition login (st : state) (form_username form_password : pystr)
  : option User :=
  let username := strip isspace form_username in
  match get_user_by_username st username with
  | Some user =>
      if Str.eqb (u_password user) form_password then Some user else None
  | None => None
  end.

(** [signup]: the state after the request. *)
Definition signup (st : state) (form_username form_password : pystr)
  : state :=
  let username := strip isspace form_username in
  match username, form_password with
  | _ :: _, _ :: _ => snd (create_new_user st username form_password false)
  | _, _ => st
  end.

(** What [generate] yields: a chunk of the answer, or the id of the
    conversation it created (each framed as a server-sent event). *)
Inductive event :=
| Chunk (text : pystr)
| NewConversation (conv_id : Z).

Definition history_of (conv : Conversation) : list turn :=
  map (fun m => {| role := m_role m; content := m_content m |})
    (c_messages conv).

(** [if conv_id:] for the id parsed from the form; the id is [None] when
    the field is absent or is not a string of digits. *)
Definition given (conv_id : option Z) : option Z :=
  match conv_id with
  | Some c => if Z.eqb c 0 then None else Some c
  | None => None
  end.

(** The generator [generate] of [chat_submit], run to its end: the state it
    leaves and the events it yields, or the exception that ends it. *)
Definition generate (df : list record) (st : state) (user_id : Z)
    (prompt : pystr) (conv_id : option Z) : state * outcome (list event) :=
  let intent := detect_intent prompt in
  let '(history, st) :=
    match given conv_id with
    | Some c =>
        let '(conv, st) := get_conversation_by_id st user_id c in
        (match conv with
         | Some conv => history_of conv
         | None => []
         end, st)
    | None => ([], st)
    end in
  match find_best_answer df prompt history with
  | Raises e => (st, Raises e)
  | Returns a =>
      let chunks :=
        generate_ai_response prompt history (data_str a) intent
          (answer_status a) in
      let full_resp := full_response chunks in
      match given conv_id with
      | Some c =>
          let '(_, st) :=
            append_to_conversation st user_id c prompt full_resp in
          (st, Returns (map Chunk chunks))
      | None =>
          let '(new_id, st) :=
            add_new_conversation st user_id (firstn 30 prompt) prompt
              full_resp in
          (st, Returns (map Chunk chunks ++ [NewConversation new_id]))
      end
  end.

(** The answer of [chat_submit]. *)
Inductive response :=
| BadRequest
| Stream (events : outcome (list event)).

Definition chat_submit (df : list record) (st : state) (user_id : Z)
    (form_prompt : pystr) (conv_id : option Z) : state * response :=
  let prompt := strip isspace form_prompt in
  match prompt with
  | [] => (st, BadRequest)
  | _ :: _ =>
      let '(st, events) := generate df st user_id prompt conv_id in
      (st, Stream events)
  end.

End Routes.

(** *** Notions for the store *)

(** The threads of a user, as [get_conversations_for_user] returns them. *)
Definition threads_of (st : state) (user_id : Z) : list Conversation :=
  fst (get_conversations_for_user st user_id).

(** The thread that [get_conversation_by_id] finds. *)
Definition thread_of (st : state) (user_id conv_id : Z)
  : option Conversation :=
  fst (get_conversation_by_id st user_id conv_id).

Section Serving.

Context {R : PyRuntime}.

(** The chunks streamed for a prompt and a history: the resolver, then the
    renderer with the intent of the prompt, as [generate] chains them. *)
Definition respond (df : list record) (prompt : pystr) (history : list turn)
  : outcome (list pystr) :=
  a <- find_best_answer df prompt history ;;
  Returns
    (generate_ai_response prompt history (data_str a) (detect_intent prompt)
       (answer_status a)).

(** The requests that change the store: a posted signup form, the index
    page of a user, and a chat request of a user against the records loaded
    at that time. *)
Inductive request :=
| Signup (form_username form_password : pystr)
| Index (user_id : Z)
| ChatSubmit (df : list record) (user_id : Z) (form_prompt : pystr)
    (conv_id : option Z).

Definition serve (st : state) (req : request) : state :=
  match req with
  | Signup form_username form_password =>
      signup st form_username form_password
  | Index user_id => snd (get_conversations_for_user st user_id)
  | ChatSubmit df user_id form_prompt conv_id =>
      fst (chat_submit df st user_id form_prompt conv_id)
  end.

(** The store after a sequence of requests to the freshly loaded module. *)
Definition served (reqs : list request) : state :=
  fold_left serve reqs initial_state.

End Serving.

(** What holds of the store between requests. *)
Record consistent (st : state) : Prop := {
  counter_positive : (0 < conversation_id_counter st)%Z;
  users_by_key :
    forall k user,
      dict_lookup k (USERS st) = Some user ->
      u_id user = k
      /\ get_user_by_username st (u_username user) = Some user;
  users_by_name :
    forall name user,
      get_user_by_username st name = Some user ->
      u_username user = name
      /\ dict_lookup (u_id user) (USERS st) = Some user;
  thread_ids : forall k, NoDup (map c_id (threads_of st k));
  thread_owner :
    forall k1 k2 conv1 conv2,
      In conv1 (threads_of st k1) -> In conv2 (threads_of st k2) ->
      c_id conv1 = c_id conv2 -> k1 = k2;
  thread_facts :
    forall k conv,
      In conv (threads_of st k) ->
      (0 < c_id conv < conversation_id_counter st)%Z
      /\ c_user_id conv = k
      /\ conversation (history_of conv)
}.

(** ** Facts about dicts *)

Section DictFacts.

Context {V : Type}.

Lemma dict_lookup_set (k k' : Z) (v : V) (d : list (Z * V)) :
  dict_lookup k' (dict_set k v d)
  = if Z.eqb k k' then Some v else dict_lookup k' d.
Proof.
  induction d as [|[k0 v0] d IH]; simpl.
  - reflexivity.
  - destruct (Z.eqb k0 k) eqn:E; simpl.
    + apply Z.eqb_eq in E. subst k0. destruct (Z.eqb k k'); reflexivity.
    + rewrite IH. destruct (Z.eqb k0 k') eqn:E'; [|reflexivity].
      apply Z.eqb_eq in E'. subst k0. rewrite Z.eqb_sym, E. reflexivity.
Qed.

Lemma dict_set_fresh (k : Z) (v : V) (d : list (Z * V)) :
  dict_lookup k d = None -> dict_set k v d = d ++ [(k, v)].
Proof.
  induction d as [|[k0 v0] d IH]; simpl; [reflexivity|].
  destruct (Z.eqb k0 k); [discriminate|]. intros H. now rewrite IH.
Qed.

Lemma dict_lookup_key (k : Z) (v : V) (d : list (Z * V)) :
  dict_lookup k d = Some v -> In k (map fst d).
Proof.
  induction d as [|[k0 v0] d IH]; simpl; [discriminate|].
  destruct (Z.eqb k0 k) eqn:E.
  - apply Z.eqb_eq in E. now left.
  - intros H. right. now apply IH.
Qed.

Lemma fold_left_max (ks : list Z) (k0 : Z) :
  (k0 <= fold_left Z.max ks k0)%Z
  /\ forall k, In k ks -> (k <= fold_left Z.max ks k0)%Z.
Proof.
  revert k0. induction ks as [|k1 ks IH]; intros k0; simpl.
  - split; [lia | tauto].
  - destruct (IH (Z.max k0 k1)) as [H1 H2]. split; [lia|].
    intros k [<-|Hk]; [lia | now apply H2].
Qed.

Lemma max_key_bound (k : Z) (d : list (Z * V)) :
  In k (map fst d) -> (k <= max_key d)%Z.
Proof.
  unfold max_key. destruct (map fst d) as [|k0 ks]; [contradiction|].
  destruct (fold_left_max ks k0) as [H1 H2].
  intros [<-|Hk]; [exact H1 | now apply H2].
Qed.

Lemma dict_lookup_above (d : list (Z * V)) :
  dict_lookup (max_key d + 1) d = None.
Proof.
  destruct (dict_lookup (max_key d + 1) d) as [v|] eqn:E; [|reflexivity].
  apply dict_lookup_key, max_key_bound in E. lia.
Qed.

End DictFacts.

Lemma find_app {A : Type} (f : A -> bool) (l l' : list A) :
  find f (l ++ l')
  = match find f l with Some x => Some x | None => find f l' end.
Proof.
  induction l as [|a l IH]; simpl; [reflexivity|].
  now destruct (f a).
Qed.

(** ** Facts about the store functions *)

Lemma threads_of_lookup (st : state) (k : Z) :
  threads_of st k
  = match dict_lookup k (CONVERSATIONS st) with
    | Some convs => convs
    | None => []
    end.
Proof.
  unfold threads_of, get_conversations_for_user.
  now destruct (dict_lookup k (CONVERSATIONS st)).
Qed.

Lemma thread_of_find (st : state) (user_id conv_id : Z) :
  thread_of st user_id conv_id
  = find (fun conv => Z.eqb (c_id conv) conv_id) (threads_of st user_id).
Proof.
  unfold thread_of, get_conversation_by_id, threads_of.
  now destruct (get_conversations_for_user st user_id).
Qed.

(** Reading the threads of a user changes no thread and no user. *)
Lemma get_conversations_threads (st : state) (user_id k : Z) :
  threads_of (snd (get_conversations_for_user st user_id)) k
  = threads_of st k.
Proof.
  rewrite !threads_of_lookup. unfold get_conversations_for_user.
  destruct (dict_lookup user_id (CONVERSATIONS st)) eqn:E; simpl;
    [reflexivity|].
  rewrite dict_lookup_set. destruct (Z.eqb user_id k) eqn:Ek; [|reflexivity].
  apply Z.eqb_eq in Ek. subst k. now rewrite E.
Qed.

Lemma get_conversations_users (st : state) (user_id : Z) :
  USERS (snd (get_conversations_for_user st user_id)) = USERS st
  /\ conversation_id_counter (snd (get_conversations_for_user st user_id))
     = conversation_id_counter st.
Proof.
  unfold get_conversations_for_user.
  now destruct (dict_lookup user_id (CONVERSATIONS st)).
Qed.

Lemma add_new_conversation_threads (st : state) (user_id k : Z)
    (title user_message assistant_response : pystr) :
  threads_of
    (snd (add_new_conversation st user_id title user_message
            assistant_response)) k
  = if Z.eqb user_id k
    then new_conversation st user_id title user_message assistant_response
         :: threads_of st k
    else threads_of st k.
Proof.
  rewrite !threads_of_lookup. unfold add_new_conversation. simpl.
  rewrite dict_lookup_set. destruct (Z.eqb user_id k) eqn:Ek; [|reflexivity].
  apply Z.eqb_eq in Ek. now subst k.
Qed.

Lemma update_first_absent (conv_id : Z) (f : Conversation -> Conversation)
    (convs : list Conversation) :
  find (fun conv => Z.eqb (c_id conv) conv_id) convs = None ->
  update_first conv_id f convs = convs.
Proof.
  induction convs as [|c convs IH]; simpl; [reflexivity|].
  destruct (Z.eqb (c_id c) conv_id); [discriminate|].
  intros H. now rewrite IH.
Qed.

Lemma append_to_conversation_threads (st : state) (user_id conv_id k : Z)
    (user_message assistant_response : pystr) :
  threads_of
    (snd (append_to_conversation st user_id conv_id user_message
            assistant_response)) k
  = if Z.eqb user_id k
    then update_first conv_id (with_exchange user_message assistant_response)
           (threads_of st k)
    else threads_of st k.
Proof.
  unfold append_to_conversation.
  pose proof (get_conversations_threads st user_id) as Hk.
  pose proof (threads_of_lookup st user_id) as Hu.
  unfold threads_of in Hu at 1.
  destruct (get_conversations_for_user st user_id) as [convs st1] eqn:E.
  simpl in Hk, Hu.
  destruct (find (fun conv => Z.eqb (c_id conv) conv_id) convs) eqn:F; simpl.
  - rewrite threads_of_lookup. simpl. rewrite dict_lookup_set.
    destruct (Z.eqb user_id k) eqn:Ek.
    + apply Z.eqb_eq in Ek. subst k. rewrite threads_of_lookup, <- Hu.
      reflexivity.
    + rewrite <- Hk, threads_of_lookup. reflexivity.
  - rewrite Hk. destruct (Z.eqb user_id k) eqn:Ek; [|reflexivity].
    apply Z.eqb_eq in Ek. subst k. rewrite threads_of_lookup, <- Hu.
    now rewrite update_first_absent.
Qed.

Lemma append_to_conversation_users (st : state) (user_id conv_id : Z)
    (user_message assistant_response : pystr) :
  USERS (snd (append_to_conversation st user_id conv_id user_message
                assistant_response)) = USERS st
  /\ conversation_id_counter
       (snd (append_to_conversation st user_id conv_id user_message
               assistant_response))
     = conversation_id_counter st.
Proof.
  unfold append_to_conversation.
  pose proof (get_conversations_users st user_id) as H.
  destruct (get_conversations_for_user st user_id) as [convs st1].
  simpl in H.
  now destruct (find (fun conv => Z.eqb (c_id conv) conv_id) convs).
Qed.

Lemma update_first_ids (conv_id : Z) (f : Conversation -> Conversation)
    (convs : list Conversation) :
  (forall conv, c_id (f conv) = c_id conv) ->
  map c_id (update_first conv_id f convs) = map c_id convs.
Proof.
  intros Hf. induction convs as [|c convs IH]; simpl; [reflexivity|].
  destruct (Z.eqb (c_id c) conv_id); simpl; [now rewrite Hf|].
  now rewrite IH.
Qed.

Lemma update_first_In (conv_id : Z) (f : Conversation -> Conversation)
    (convs : list Conversation) (conv : Conversation) :
  In conv (update_first conv_id f convs) ->
  In conv convs \/ exists c0, In c0 convs /\ conv = f c0.
Proof.
  induction convs as [|c convs IH]; simpl; [tauto|].
  destruct (Z.eqb (c_id c) conv_id); simpl.
  - intros [<-|H]; [right; exists c; tauto | tauto].
  - intros [<-|H]; [tauto|].
    destruct (IH H) as [H1|[c0 [H1 H2]]]; [tauto|].
    right. exists c0. tauto.
Qed.

Lemma update_first_find (conv_id : Z) (f : Conversation -> Conversation)
    (convs : list Conversation) :
  (forall conv, c_id (f conv) = c_id conv) ->
  find (fun conv => Z.eqb (c_id conv) conv_id) (update_first conv_id f convs)
  = option_map f (find (fun conv => Z.eqb (c_id conv) conv_id) convs).
Proof.
  intros Hf. induction convs as [|c convs IH]; simpl; [reflexivity|].
  destruct (Z.eqb (c_id c) conv_id) eqn:E; simpl.
  - now rewrite Hf, E.
  - now rewrite E.
Qed.

Lemma history_of_with_exchange (user_message assistant_response : pystr)
    (conv : Conversation) :
  history_of (with_exchange user_message assistant_response conv)
  = history_of conv
    ++ [user_turn user_message; assistant_turn assistant_response].
Proof. unfold history_of, with_exchange. simpl. now rewrite map_app. Qed.

(** ** The store stays consistent *)

Lemma get_user_by_username_users (st st' : state) (name : pystr) :
  USERS st' = USERS st ->
  get_user_by_username st' name = get_user_by_username st name.
Proof. unfold get_user_by_username. now intros ->. Qed.

(** A step that leaves the users alone and does not lower the counter
    keeps the store consistent when its threads are. *)
Lemma consistent_threads (st st' : state) :
  consistent st ->
  USERS st' = USERS st ->
  (0 < conversation_id_counter st')%Z ->
  (forall k, NoDup (map c_id (threads_of st' k))) ->
  (forall k1 k2 conv1 conv2,
     In conv1 (threads_of st' k1) -> In conv2 (threads_of st' k2) ->
     c_id conv1 = c_id conv2 -> k1 = k2) ->
  (forall k conv,
     In conv (threads_of st' k) ->
     (0 < c_id conv < conversation_id_counter st')%Z
     /\ c_user_id conv = k
     /\ conversation (history_of conv)) ->
  consistent st'.
Proof.
  intros H HU Hc Hn Ho Hf. constructor; try assumption.
  - intros k user Hk. rewrite HU in Hk.
    rewrite (get_user_by_username_users st st' _ HU).
    now apply (users_by_key st H).
  - intros name user Hk.
    rewrite (get_user_by_username_users st st' _ HU) in Hk. rewrite HU.
    now apply (users_by_name st H).
Qed.

Lemma consistent_initial : consistent initial_state.
Proof.
  constructor.
  - reflexivity.
  - intros k user. unfold initial_state. cbn [USERS dict_lookup].
    destruct (Z.eqb_spec 1 k) as [<-|_]; [intros [= <-]; now split|].
    destruct (Z.eqb_spec 2 k) as [<-|_]; [intros [= <-]; now split|].
    discriminate.
  - intros name user. unfold get_user_by_username, initial_state.
    cbn [USERS map snd find u_username].
    destruct (Str.eqb (py "testuser") name) eqn:E1.
    { apply eqb_eq in E1. subst name. intros [= <-]. now split. }
    destruct (Str.eqb (py "admin") name) eqn:E2; [|discriminate].
    apply eqb_eq in E2. subst name. intros [= <-]. now split.
  - intros k. rewrite threads_of_lookup. unfold initial_state.
    cbn [CONVERSATIONS dict_lookup].
    destruct (Z.eqb 1 k).
    { simpl. repeat constructor; simpl; intuition discriminate. }
    destruct (Z.eqb 2 k); constructor.
  - intros k1 k2 conv1 conv2. rewrite !threads_of_lookup.
    unfold initial_state. cbn [CONVERSATIONS dict_lookup].
    destruct (Z.eqb_spec 1 k1) as [<-|_].
    + destruct (Z.eqb_spec 1 k2) as [<-|_]; [reflexivity|].
      destruct (Z.eqb 2 k2); contradiction.
    + destruct (Z.eqb 2 k1); contradiction.
  - intros k conv. rewrite threads_of_lookup. unfold initial_state.
    cbn [CONVERSATIONS dict_lookup conversation_id_counter].
    destruct (Z.eqb_spec 1 k) as [<-|_].
    + intros [<-|[<-|[]]]; (split; [simpl; lia|]); (split; [reflexivity|]);
        apply (conversation_pair [] _ _ conversation_empty).
    + destruct (Z.eqb 2 k); contradiction.
Qed.

Lemma consistent_get_conversations (st : state) (user_id : Z) :
  consistent st -> consistent (snd (get_conversations_for_user st user_id)).
Proof.
  intros H. destruct (get_conversations_users st user_id) as [HU HC].
  apply (consistent_threads st); try assumption.
  - rewrite HC. apply (counter_positive st H).
  - intros k. rewrite get_conversations_threads. apply (thread_ids st H).
  - intros k1 k2 conv1 conv2. rewrite !get_conversations_threads.
    apply (thread_owner st H).
  - intros k conv. rewrite get_conversations_threads, HC.
    apply (thread_facts st H).
Qed.

Lemma consistent_add_new_conversation (st : state) (user_id : Z)
    (title user_message assistant_response : pystr) :
  consistent st ->
  consistent
    (snd (add_new_conversation st user_id title user_message
            assistant_response)).
Proof.
  intros H.
  pose proof (counter_positive st H) as Hc.
  assert (Hold : forall k conv, In conv (threads_of st k) ->
                 (0 < c_id conv < conversation_id_counter st)%Z)
    by (intros k conv Hk; now apply (thread_facts st H k)).
  apply (consistent_threads st); try assumption.
  - reflexivity.
  - simpl. lia.
  - intros k. rewrite add_new_conversation_threads.
    destruct (Z.eqb user_id k); [|apply (thread_ids st H)].
    simpl. constructor; [|apply (thread_ids st H)].
    intros Hin. apply in_map_iff in Hin. destruct Hin as [conv [Hid Hin]].
    apply Hold in Hin. lia.
  - intros k1 k2 conv1 conv2. rewrite !add_new_conversation_threads.
    destruct (Z.eqb_spec user_id k1) as [<-|N1];
      destruct (Z.eqb_spec user_id k2) as [<-|N2]; try reflexivity.
    + intros [<-|H1] H2 E.
      * apply Hold in H2. simpl in E. lia.
      * now apply (thread_owner st H _ _ _ _ H1 H2).
    + intros H1 [<-|H2] E.
      * apply Hold in H1. simpl in E. lia.
      * now apply (thread_owner st H _ _ _ _ H1 H2).
    + apply (thread_owner st H).
  - intros k conv. rewrite add_new_conversation_threads.
    assert (Hk : In conv (threads_of st k) ->
                 (0 < c_id conv < conversation_id_counter
                    (snd (add_new_conversation st user_id title user_message
                            assistant_response)))%Z
                 /\ c_user_id conv = k /\ conversation (history_of conv)).
    { intros Hk. destruct (thread_facts st H k conv Hk) as [H1 H2].
      split; [simpl; lia | exact H2]. }
    destruct (Z.eqb_spec user_id k) as [<-|N]; [|exact Hk].
    intros [<-|Hin]; [|now apply Hk].
    split; [simpl; lia|]. split; [reflexivity|].
    apply (conversation_pair [] _ _ conversation_empty).
Qed.

Lemma update_first_source (conv_id : Z) (user_message assistant_response : pystr)
    (convs : list Conversation) (conv : Conversation) :
  In conv
    (update_first conv_id (with_exchange user_message assistant_response)
       convs) ->
  exists c0,
    In c0 convs /\ c_id conv = c_id c0 /\ c_user_id conv = c_user_id c0
    /\ (conversation (history_of c0) -> conversation (history_of conv)).
Proof.
  intros Hin. apply update_first_In in Hin.
  destruct Hin as [Hin|[c0 [Hin ->]]].
  - exists conv. tauto.
  - exists c0. split; [exact Hin|]. split; [reflexivity|].
    split; [reflexivity|]. intros Hc. rewrite history_of_with_exchange.
    now apply conversation_pair.
Qed.

Lemma consistent_append_to_conversation (st : state) (user_id conv_id : Z)
    (user_message assistant_response : pystr) :
  consistent st ->
  consistent
    (snd (append_to_conversation st user_id conv_id user_message
            assistant_response)).
Proof.
  intros H.
  destruct (append_to_conversation_users st user_id conv_id user_message
              assistant_response) as [HU HC].
  assert (Hsrc : forall k conv,
            In conv
              (threads_of
                 (snd (append_to_conversation st user_id conv_id user_message
                         assistant_response)) k) ->
            exists c0,
              In c0 (threads_of st k) /\ c_id conv = c_id c0
              /\ c_user_id conv = c_user_id c0
              /\ (conversation (history_of c0) ->
                  conversation (history_of conv))).
  { intros k conv. rewrite append_to_conversation_threads.
    destruct (Z.eqb user_id k); [apply update_first_source|].
    intros Hin. exists conv. tauto. }
  apply (consistent_threads st); try assumption.
  - rewrite HC. apply (counter_positive st H).
  - intros k. rewrite append_to_conversation_threads.
    destruct (Z.eqb user_id k); [|apply (thread_ids st H)].
    rewrite update_first_ids by reflexivity. apply (thread_ids st H).
  - intros k1 k2 conv1 conv2 H1 H2 E.
    apply Hsrc in H1. destruct H1 as [c1 [H1 [E1 _]]].
    apply Hsrc in H2. destruct H2 as [c2 [H2 [E2 _]]].
    apply (thread_owner st H _ _ _ _ H1 H2). congruence.
  - intros k conv Hin. apply Hsrc in Hin.
    destruct Hin as [c0 [Hin [E1 [E2 E3]]]].
    destruct (thread_facts st H k c0 Hin) as [F1 [F2 F3]].
    rewrite HC, E1, E2. auto.
Qed.

Lemma new_user_id_fresh (st : state) :
  dict_lookup
    (match USERS st with
     | [] => 1%Z
     | _ :: _ => (max_key (USERS st) + 1)%Z
     end) (USERS st) = None.
Proof.
  destruct (USERS st) as [|p users] eqn:E; [reflexivity|].
  apply dict_lookup_above.
Qed.

Lemma consistent_create_new_user (st : state) (username password : pystr)
    (is_admin : bool) :
  consistent st ->
  consistent (snd (create_new_user st username password is_admin)).
Proof.
  intros H. unfold create_new_user.
  destruct (get_user_by_username st username) as [u|] eqn:Eu; [exact H|].
  pose proof (new_user_id_fresh st) as Hfresh.
  set (new_id := match USERS st with
                 | [] => 1%Z
                 | _ :: _ => (max_key (USERS st) + 1)%Z
                 end) in *.
  set (new_user := {| u_id := new_id; u_username := username;
                      u_password := password; u_is_admin := is_admin |}).
  cbn [snd].
  assert (Hthreads : forall k conv,
            In conv
              (threads_of
                 {| USERS := dict_set new_id new_user (USERS st);
                    CONVERSATIONS := dict_set new_id [] (CONVERSATIONS st);
                    conversation_id_counter := conversation_id_counter st |}
                 k) ->
            In conv (threads_of st k)).
  { intros k conv. rewrite !threads_of_lookup. cbn [CONVERSATIONS].
    rewrite dict_lookup_set. destruct (Z.eqb new_id k); [contradiction|].
    tauto. }
  assert (Hfind : forall name,
            get_user_by_username
              {| USERS := dict_set new_id new_user (USERS st);
                 CONVERSATIONS := dict_set new_id [] (CONVERSATIONS st);
                 conversation_id_counter := conversation_id_counter st |}
              name
            = match get_user_by_username st name with
              | Some user => Some user
              | None =>
                  if Str.eqb username name then Some new_user else None
              end).
  { intros name. unfold get_user_by_username. cbn [USERS].
    rewrite (dict_set_fresh _ _ _ Hfresh), map_app, find_app. reflexivity. }
  constructor.
  - apply (counter_positive st H).
  - intros k user. cbn [USERS]. rewrite dict_lookup_set, Hfind.
    destruct (Z.eqb_spec new_id k) as [<-|N].
    + intros [= <-]. split; [reflexivity|].
      change (u_username new_user) with username.
      rewrite Eu. now rewrite eqb_refl.
    + intros Hk. destruct (users_by_key st H k user Hk) as [H1 H2].
      split; [exact H1|]. now rewrite H2.
  - intros name user. rewrite Hfind. cbn [USERS]. rewrite dict_lookup_set.
    destruct (get_user_by_username st name) as [u|] eqn:En.
    + intros [= <-]. destruct (users_by_name st H name u En) as [H1 H2].
      split; [exact H1|].
      destruct (Z.eqb_spec new_id (u_id u)) as [E|_]; [|exact H2].
      rewrite <- E, Hfresh in H2. discriminate.
    + destruct (Str.eqb username name) eqn:E; [|discriminate].
      apply eqb_eq in E. intros [= <-]. split; [exact E|].
      change (u_id new_user) with new_id. now rewrite Z.eqb_refl.
  - intros k. rewrite threads_of_lookup. cbn [CONVERSATIONS].
    rewrite dict_lookup_set. destruct (Z.eqb new_id k); [constructor|].
    rewrite <- threads_of_lookup. apply (thread_ids st H).
  - intros k1 k2 conv1 conv2 H1 H2.
    apply Hthreads in H1. apply Hthreads in H2.
    now apply (thread_owner st H).
  - intros k conv Hin. apply Hthreads in Hin.
    now apply (thread_facts st H).
Qed.

Section Invariant.

Context {R : PyRuntime}.

Lemma consistent_signup (st : state) (form_username form_password : pystr) :
  consistent st -> consistent (signup st form_username form_password).
Proof.
  intros H. unfold signup.
  destruct (strip isspace form_username); [exact H|].
  destruct form_password; [exact H|].
  now apply consistent_create_new_user.
Qed.

Lemma consistent_generate (df : list record) (st : state) (user_id : Z)
    (prompt : pystr) (conv_id : option Z) :
  consistent st -> consistent (fst (generate df st user_id prompt conv_id)).
Proof.
  intros H. unfold generate.
  destruct (given conv_id) as [c|].
  - unfold get_conversation_by_id.
    pose proof (consistent_get_conversations st user_id H) as H1.
    destruct (get_conversations_for_user st user_id) as [convs st1].
    cbn [snd] in H1.
    destruct (find_best_answer df prompt _) as [a|e]; [|exact H1].
    pose proof (consistent_append_to_conversation st1 user_id c prompt
                  (full_response
                     (generate_ai_response prompt
                        match find (fun conv => Z.eqb (c_id conv) c) convs with
                        | Some conv => history_of conv
                        | None => []
                        end (data_str a) (detect_intent prompt)
                        (answer_status a))) H1) as H2.
    destruct (append_to_conversation st1 user_id c prompt _) as [b st2].
    exact H2.
  - destruct (find_best_answer df prompt []) as [a|e]; [|exact H].
    pose proof (consistent_add_new_conversation st user_id (firstn 30 prompt)
                  prompt
                  (full_response
                     (generate_ai_response prompt [] (data_str a)
                        (detect_intent prompt) (answer_status a))) H) as H2.
    destruct (add_new_conversation st user_id (firstn 30 prompt) prompt _)
      as [new_id st2].
    exact H2.
Qed.

Lemma consistent_serve (st : state) (req : request) :
  consistent st -> consistent (serve st req).
Proof.
  intros H. destruct req as [u p|user_id|df user_id form_prompt conv_id].
  - now apply consistent_signup.
  - now apply consistent_get_conversations.
  - unfold serve, chat_submit.
    destruct (strip isspace form_prompt) as [|c prompt]; [exact H|].
    pose proof (consistent_generate df st user_id (c :: prompt) conv_id H)
      as H1.
    destruct (generate df st user_id (c :: prompt) conv_id) as [st1 events].
    exact H1.
Qed.

(** After any sequence of requests on the freshly loaded store, the store
    is consistent. *)
Lemma consistent_served (reqs : list request) : consistent (served reqs).
Proof.
  unfold served. induction reqs as [|req reqs IH] using rev_ind.
  - apply consistent_initial.
  - rewrite fold_left_app. simpl. now apply consistent_serve.
Qed.

(** X13.  After any sequence of signups, index pages and chat requests on
    the freshly loaded store, a thread that [get_conversation_by_id] finds
    for a user and an id has that id, belongs to that user, is a sequence
    of user/assistant pairs, so that the last turn of the history handed to
    the resolver is the assistant's, and is found under that id for no
    other user. *)
Theorem served_thread_of_owner (reqs : list request) (user_id conv_id : Z)
    (conv : Conversation) :
  thread_of (served reqs) user_id conv_id = Some conv ->
  c_id conv = conv_id
  /\ c_user_id conv = user_id
  /\ (0 < conv_id < conversation_id_counter (served reqs))%Z
  /\ conversation (history_of conv)
  /\ last_content (history_of conv) = last_assistant_content (history_of conv)
  /\ forall other,
       other <> user_id -> thread_of (served reqs) other conv_id = None.
Proof.
  pose proof (consistent_served reqs) as H. rewrite thread_of_find.
  intros F. apply find_some in F. destruct F as [Hin Hid].
  apply Z.eqb_eq in Hid.
  destruct (thread_facts _ H _ _ Hin) as [H1 [H2 H3]].
  split; [exact Hid|]. split; [exact H2|]. split; [now rewrite <- Hid|].
  split; [exact H3|]. split; [now apply conversation_last_turn|].
  intros other Hother. rewrite thread_of_find.
  destruct (find _ (threads_of (served reqs) other)) as [conv'|] eqn:F';
    [|reflexivity].
  apply find_some in F'. destruct F' as [Hin' Hid'].
  apply Z.eqb_eq in Hid'. exfalso. apply Hother.
  apply (thread_owner _ H _ _ _ _ Hin' Hin). congruence.
Qed.

(** X14.  After any such sequence of requests, the user that the login
    finds by name carries that name and is the user that [get_user_by_id]
    loads for its id; and the user loaded for an id carries that id and is
    the one found by its name: no two accounts share a name or an id. *)
Theorem served_users_agree (reqs : list request) :
  (forall name user,
     get_user_by_username (served reqs) name = Some user ->
     u_username user = name
     /\ get_user_by_id (served reqs) (Some (u_id user)) = Some user)
  /\ (forall k user,
        get_user_by_id (served reqs) (Some k) = Some user ->
        u_id user = k
        /\ get_user_by_username (served reqs) (u_username user) = Some user).
Proof.
  pose proof (consistent_served reqs) as H. split.
  - intros name user. apply (users_by_name _ H).
  - intros k user. apply (users_by_key _ H).
Qed.

End Invariant.

(** ** Signing up and logging in *)

Section Accounts.

Context {R : PyRuntime}.

Lemma signup_users (st : state) (form_username form_password : pystr)
    (name : pystr) :
  get_user_by_username (signup st form_username form_password) name
  = match get_user_by_username st name with
    | Some user => Some user
    | None =>
        match strip isspace form_username, form_password with
        | _ :: _, _ :: _ =>
            if Str.eqb (strip isspace form_username) name
            then
              Some {| u_id := match USERS st with
                              | [] => 1%Z
                              | _ :: _ => (max_key (USERS st) + 1)%Z
                              end;
                      u_username := strip isspace form_username;
                      u_password := form_password;
                      u_is_admin := false |}
            else None
        | _, _ => None
        end
    end.
Proof.
  unfold signup.
  destruct (strip isspace form_username) as [|c username] eqn:Eu;
    [now destruct (get_user_by_username st name)|].
  destruct form_password as [|d password];
    [now destruct (get_user_by_username st name)|].
  unfold create_new_user.
  destruct (get_user_by_username st (c :: username)) as [u|] eqn:Et.
  - cbn [snd]. destruct (get_user_by_username st name) as [u'|] eqn:En;
      [reflexivity|].
    destruct (Str.eqb (c :: username) name) eqn:E; [|reflexivity].
    apply eqb_eq in E. congruence.
  - cbn [snd]. unfold get_user_by_username at 1. cbn [USERS].
    rewrite (dict_set_fresh _ _ _ (new_user_id_fresh st)), map_app, find_app.
    fold (get_user_by_username st name).
    destruct (get_user_by_username st name); reflexivity.
Qed.

(** X15.  No signup changes an existing account: whatever the form holds,
    a user found by name before the request is found unchanged after it,
    with the same password, so a login that succeeded still succeeds. *)
Theorem signup_keeps_accounts (st : state)
    (form_username form_password name password : pystr) (user : User) :
  login st name password = Some user ->
  login (signup st form_username form_password) name password = Some user.
Proof.
  unfold login. rewrite signup_users.
  destruct (get_user_by_username st (strip isspace name)); [tauto|].
  discriminate.
Qed.

(** X16.  A signup with a name that is free after trimming and a password
    that is not empty creates the account: the login with the same form
    values then succeeds, the user is not an administrator, its id was not
    in use, it starts with no thread, and Flask-Login reloads it by its
    id. *)
Theorem signup_then_login (st : state) (form_username form_password : pystr) :
  strip isspace form_username <> [] ->
  form_password <> [] ->
  get_user_by_username st (strip isspace form_username) = None ->
  exists user,
    login (signup st form_username form_password) form_username form_password
    = Some user
    /\ u_username user = strip isspace form_username
    /\ u_password user = form_password
    /\ u_is_admin user = false
    /\ get_user_by_id st (Some (u_id user)) = None
    /\ get_user_by_id (signup st form_username form_password)
         (Some (u_id user)) = Some user
    /\ threads_of (signup st form_username form_password) (u_id user) = [].
Proof.
  intros Hu Hp Hfree.
  exists {| u_id := match USERS st with
                    | [] => 1%Z
                    | _ :: _ => (max_key (USERS st) + 1)%Z
                    end;
            u_username := strip isspace form_username;
            u_password := form_password;
            u_is_admin := false |}.
  split.
  { unfold login. rewrite signup_users, Hfree.
    destruct (strip isspace form_username) as [|c username]; [contradiction|].
    destruct form_password as [|d password]; [contradiction|].
    rewrite eqb_refl. cbn [u_password]. rewrite eqb_refl. reflexivity. }
  cbn [u_username u_password u_is_admin u_id get_user_by_id].
  split; [reflexivity|]. split; [reflexivity|]. split; [reflexivity|].
  split; [apply new_user_id_fresh|].
  unfold signup.
  destruct (strip isspace form_username) as [|c username]; [contradiction|].
  destruct form_password as [|d password]; [contradiction|].
  unfold create_new_user. rewrite Hfree. cbn [snd]. split.
  - cbn [USERS]. rewrite dict_lookup_set. now rewrite Z.eqb_refl.
  - rewrite threads_of_lookup. cbn [CONVERSATIONS].
    rewrite dict_lookup_set. now rewrite Z.eqb_refl.
Qed.

End Accounts.

(** ** The chat route and the threads *)

Section Chat.

Context {R : PyRuntime}.

Lemma chat_submit_generate (df : list record) (st : state) (user_id : Z)
    (form_prompt : pystr) (conv_id : option Z) :
  strip isspace form_prompt <> [] ->
  chat_submit df st user_id form_prompt conv_id
  = (fst (generate df st user_id (strip isspace form_prompt) conv_id),
     Stream (snd (generate df st user_id (strip isspace form_prompt)
                    conv_id))).
Proof.
  unfold chat_submit. destruct (strip isspace form_prompt) as [|c prompt];
    [contradiction|].
  intros _. now destruct (generate df st user_id (c :: prompt) conv_id).
Qed.

Lemma generate_fresh (df : list record) (st : state) (user_id : Z)
    (prompt : pystr) (conv_id : option Z) :
  given conv_id = None ->
  generate df st user_id prompt conv_id
  = match respond df prompt [] with
    | Raises e => (st, Raises e)
    | Returns chunks =>
        (snd (add_new_conversation st user_id (firstn 30 prompt) prompt
                (full_response chunks)),
         Returns
           (map Chunk chunks
            ++ [NewConversation (conversation_id_counter st)]))
    end.
Proof.
  intros H. unfold generate, respond. rewrite H.
  destruct (find_best_answer df prompt []) as [a|e]; reflexivity.
Qed.

Lemma generate_given (df : list record) (st : state) (user_id : Z)
    (prompt : pystr) (conv_id : option Z) (c : Z) :
  given conv_id = Some c ->
  generate df st user_id prompt conv_id
  = match respond df prompt
            match thread_of st user_id c with
            | Some conv => history_of conv
            | None => []
            end with
    | Raises e => (snd (get_conversations_for_user st user_id), Raises e)
    | Returns chunks =>
        (snd (append_to_conversation
                (snd (get_conversations_for_user st user_id)) user_id c
                prompt (full_response chunks)),
         Returns (map Chunk chunks))
    end.
Proof.
  intros H. unfold generate, respond, thread_of, get_conversation_by_id.
  rewrite H.
  destruct (get_conversations_for_user st user_id) as [convs st1].
  cbn [fst snd].
  destruct (find_best_answer df prompt _) as [a|e]; [|reflexivity].
  cbn [bind].
  now destruct (append_to_conversation st1 user_id c prompt _).
Qed.

(** X17.  A chat request without a conversation id (or with the id 0)
    whose prompt is answered starts a thread: the chunks of the answer are
    streamed, followed by the id of the new thread, which is the counter
    before the request; the thread is put before the user's other threads,
    titled with the first 30 characters of the trimmed prompt, and holds the
    prompt and the whole answer; and the counter moves on by one. *)
Theorem chat_starts_thread (df : list record) (st : state) (user_id : Z)
    (form_prompt : pystr) (conv_id : option Z) (chunks : list pystr) :
  let prompt := strip isspace form_prompt in
  let result := chat_submit df st user_id form_prompt conv_id in
  prompt <> [] ->
  given conv_id = None ->
  respond df prompt [] = Returns chunks ->
  snd result
  = Stream
      (Returns
         (map Chunk chunks ++ [NewConversation (conversation_id_counter st)]))
  /\ threads_of (fst result) user_id
     = {| c_id := conversation_id_counter st;
          c_user_id := user_id;
          c_title := firstn 30 prompt;
          c_messages :=
            [{| m_role := py "user"; m_content := prompt |};
             {| m_role := py "assistant";
                m_content := full_response chunks |}] |}
       :: threads_of st user_id
  /\ conversation_id_counter (fst result)
     = (conversation_id_counter st + 1)%Z.
Proof.
  intros prompt result Hp Hc Hr. unfold result.
  rewrite (chat_submit_generate _ _ _ _ _ Hp). cbn [fst snd].
  fold prompt. rewrite (generate_fresh _ _ _ _ _ Hc), Hr. cbn [fst snd].
  split; [reflexivity|]. split; [|reflexivity].
  rewrite add_new_conversation_threads, Z.eqb_refl.
  unfold new_conversation. destruct prompt as [|c p]; [contradiction|].
  reflexivity.
Qed.

(** X18.  A chat request with the id of one of the user's threads is
    answered from the history of that thread, and the exchange is appended
    to it: the chunks of the answer are streamed with no conversation id
    after them, the thread then ends with the prompt and the whole answer,
    and the user's threads keep their ids and their order. *)
Theorem chat_continues_thread (df : list record) (st : state) (user_id : Z)
    (form_prompt : pystr) (conv_id : option Z) (c : Z) (conv : Conversation)
    (chunks : list pystr) :
  let prompt := strip isspace form_prompt in
  let result := chat_submit df st user_id form_prompt conv_id in
  prompt <> [] ->
  given conv_id = Some c ->
  thread_of st user_id c = Some conv ->
  respond df prompt (history_of conv) = Returns chunks ->
  snd result = Stream (Returns (map Chunk chunks))
  /\ (exists conv',
        thread_of (fst result) user_id c = Some conv'
        /\ c_title conv' = c_title conv
        /\ history_of conv'
           = history_of conv
             ++ [user_turn prompt; assistant_turn (full_response chunks)])
  /\ map c_id (threads_of (fst result) user_id)
     = map c_id (threads_of st user_id)
  /\ conversation_id_counter (fst result) = conversation_id_counter st.
Proof.
  intros prompt result Hp Hc Ht Hr. unfold result.
  rewrite (chat_submit_generate _ _ _ _ _ Hp). cbn [fst snd].
  fold prompt. rewrite (generate_given _ _ _ _ _ _ Hc), Ht, Hr.
  cbn [fst snd].
  split; [reflexivity|].
  assert (Hth : threads_of
                  (snd (append_to_conversation
                          (snd (get_conversations_for_user st user_id))
                          user_id c prompt (full_response chunks))) user_id
                = update_first c
                    (with_exchange prompt (full_response chunks))
                    (threads_of st user_id)).
  { rewrite append_to_conversation_threads, Z.eqb_refl.
    now rewrite get_conversations_threads. }
  split.
  { exists (with_exchange prompt (full_response chunks) conv).
    rewrite thread_of_find, Hth, update_first_find by reflexivity.
    rewrite <- thread_of_find, Ht. split; [reflexivity|].
    split; [reflexivity|]. apply history_of_with_exchange. }
  split.
  { rewrite Hth. now apply update_first_ids. }
  destruct (append_to_conversation_users
              (snd (get_conversations_for_user st user_id)) user_id c prompt
              (full_response chunks)) as [_ ->].
  apply get_conversations_users.
Qed.

(** X19.  A chat request with an id under which the user has no thread is
    answered without history, and the exchange is lost: the chunks are
    streamed, no conversation id is sent, and no thread of any user is
    created or changed. *)
Theorem chat_unknown_thread (df : list record) (st : state) (user_id : Z)
    (form_prompt : pystr) (conv_id : option Z) (c : Z)
    (chunks : list pystr) :
  let prompt := strip isspace form_prompt in
  let result := chat_submit df st user_id form_prompt conv_id in
  prompt <> [] ->
  given conv_id = Some c ->
  thread_of st user_id c = None ->
  respond df prompt [] = Returns chunks ->
  snd result = Stream (Returns (map Chunk chunks))
  /\ (forall k, threads_of (fst result) k = threads_of st k)
  /\ conversation_id_counter (fst result) = conversation_id_counter st.
Proof.
  intros prompt result Hp Hc Ht Hr. unfold result.
  rewrite (chat_submit_generate _ _ _ _ _ Hp). cbn [fst snd].
  fold prompt. rewrite (generate_given _ _ _ _ _ _ Hc), Ht, Hr.
  cbn [fst snd].
  split; [reflexivity|]. split.
  - intros k. rewrite append_to_conversation_threads.
    rewrite !get_conversations_threads.
    destruct (Z.eqb_spec user_id k) as [<-|_]; [|reflexivity].
    apply update_first_absent. rewrite <- thread_of_find. exact Ht.
  - destruct (append_to_conversation_users
                (snd (get_conversations_for_user st user_id)) user_id c
                prompt (full_response chunks)) as [_ ->].
    apply get_conversations_users.
Qed.


End Chat.

(** ** A dialogue over two requests *)

Section Dialogue.

Context {R : PyRuntime}.

Lemma full_response_one (text : pystr) : full_response [text] = text.
Proof. unfold full_response. cbn [concat]. apply app_nil_r. Qed.

Lemma respond_name_only (df : list record) (prompt : pystr)
    (history : list turn) (name code : pystr) :
  find_best_answer df prompt history = Returns (name_only name code) ->
  respond df prompt history
  = Returns [name_only_text (detect_intent prompt) name code].
Proof.
  intros H. unfold respond. rewrite H. cbn [bind]. unfold name_only.
  cbn [data_str answer_status mk_answer generate_ai_response].
  now rewrite render_name_only.
Qed.

Lemma respond_yes_after_offer (df : list record) (prompt : pystr)
    (history : list turn) (i : intent) (name code : pystr) :
  df <> [] ->
  intent_of prompt = CONFIRMATION ->
  code <> [] -> forallb re_d code = true -> code_tag_search name = None ->
  respond df prompt
    (history ++ [assistant_turn (name_only_text i name code)])
  = Returns [sub_table_text code (sub_table (rows_with_code df code))].
Proof.
  intros Hdf Hi Hne Hd Hname. destruct df as [|r df]; [contradiction|].
  unfold respond. rewrite (find_best_answer_confirmation _ _ _ _ Hi).
  unfold confirmation_answer. rewrite last_content_snoc.
  unfold assistant_turn. cbn [content].
  rewrite name_only_text_has_offer.
  rewrite (code_tag_search_name_only _ _ _ Hne Hd Hname).
  cbn [bind data_str answer_status mk_answer generate_ai_response].
  now rewrite render_sub_table.
Qed.

(** X21.  Two requests make the dialogue of the sub-code offer.  When the
    first prompt, sent without a conversation id, is answered with the code
    of a setting (a code of digits, a name without a code tag of its own),
    the reply is the code with the offer, followed by the id of the new
    thread; a confirmation sent next with that id is answered with the
    sub-code table of that code: the heading with the code, the two header
    lines, one line for every record of the store with that code, in the
    order of the store, with its sub-code ([NA] for [-]) and its formatted
    description, and the offer of the procedure.  The thread then holds the
    four turns.  The counter must not be 0, an id that the route takes for
    no id. *)
Theorem code_question_then_yes (df : list record) (st : state) (user_id : Z)
    (form_prompt1 form_prompt2 name code : pystr) :
  let prompt1 := strip isspace form_prompt1 in
  let prompt2 := strip isspace form_prompt2 in
  let new_id := conversation_id_counter st in
  let first := chat_submit df st user_id form_prompt1 None in
  let second :=
    chat_submit df (fst first) user_id form_prompt2 (Some new_id) in
  let offer := name_only_text (detect_intent prompt1) name code in
  let table :=
    py "Here are the sub codes for code **" ++ code ++ py "**:" ++ NL ++ NL
    ++ join NL
         ([py "| Sub-Code | Description / Values |"; py "| :--- | :--- |"]
          ++ map (fun r =>
                    py "| "
                    ++ (if Str.eqb (SUB_CODE_COL r) (py "-") then py "NA"
                        else SUB_CODE_COL r)
                    ++ py " | " ++ format_clean_description (DESCRIPTION_COL r)
                    ++ py " |")
                 (filter (fun r => Str.eqb (CODE_COL r) code) df))
    ++ NL ++ NL ++ py " " ++ BULB
    ++ py " Do you want to know how to set the 08 code?" in
  new_id <> 0%Z ->
  prompt1 <> [] ->
  prompt2 <> [] ->
  find_best_answer df prompt1 [] = Returns (name_only name code) ->
  code <> [] -> forallb re_d code = true -> code_tag_search name = None ->
  intent_of prompt2 = CONFIRMATION ->
  snd first = Stream (Returns [Chunk offer; NewConversation new_id])
  /\ snd second = Stream (Returns [Chunk table])
  /\ option_map history_of (thread_of (fst second) user_id new_id)
     = Some [user_turn prompt1; assistant_turn offer;
             user_turn prompt2; assistant_turn table].
Proof.
  intros prompt1 prompt2 new_id first second offer table
    Hid Hp1 Hp2 Hfirst Hne Hd Hname Hi.
  assert (Hdf : df <> []).
  { intros ->. unfold find_best_answer in Hfirst. discriminate Hfirst. }
  assert (Hgiven : given (Some new_id) = Some new_id).
  { unfold given. destruct (Z.eqb_spec new_id 0); [contradiction|].
    reflexivity. }
  pose proof (respond_name_only _ _ _ _ _ Hfirst) as Hr1. fold offer in Hr1.
  assert (E1 : first
               = (snd (add_new_conversation st user_id (firstn 30 prompt1)
                         prompt1 offer),
                  Stream (Returns [Chunk offer; NewConversation new_id]))).
  { unfold first. rewrite (chat_submit_generate _ _ _ _ _ Hp1).
    fold prompt1.
    rewrite (generate_fresh df st user_id prompt1 None eq_refl), Hr1.
    cbn [fst snd]. now rewrite full_response_one. }
  set (st1 := snd (add_new_conversation st user_id (firstn 30 prompt1)
                     prompt1 offer)) in *.
  set (conv := new_conversation st user_id (firstn 30 prompt1) prompt1 offer).
  assert (Hth : threads_of st1 user_id = conv :: threads_of st user_id).
  { unfold st1. now rewrite add_new_conversation_threads, Z.eqb_refl. }
  assert (Ht : thread_of st1 user_id new_id = Some conv).
  { rewrite thread_of_find, Hth. cbn [find].
    change (c_id conv) with new_id. now rewrite Z.eqb_refl. }
  assert (Hr2 : respond df prompt2 (history_of conv) = Returns [table]).
  { change (history_of conv)
      with ([user_turn prompt1] ++ [assistant_turn offer]).
    now apply respond_yes_after_offer. }
  assert (E2 : second
               = (snd (append_to_conversation
                         (snd (get_conversations_for_user st1 user_id))
                         user_id new_id prompt2 table),
                  Stream (Returns [Chunk table]))).
  { unfold second. rewrite E1. cbn [fst].
    rewrite (chat_submit_generate _ _ _ _ _ Hp2). fold prompt2.
    rewrite (generate_given _ _ _ _ _ _ Hgiven), Ht, Hr2. cbn [fst snd].
    now rewrite full_response_one. }
  split; [now rewrite E1|]. split; [now rewrite E2|].
  rewrite E2. cbn [fst].
  rewrite thread_of_find, append_to_conversation_threads, Z.eqb_refl.
  rewrite get_conversations_threads, update_first_find by reflexivity.
  rewrite <- thread_of_find, Ht. cbn [option_map].
  now rewrite history_of_with_exchange.
Qed.

End Dialogue.

(** ** The fixed replies *)

Section Replies.

Context {R : PyRuntime}.

(** X22.  With records loaded, three kinds of prompt get a fixed reply
    whatever the history: a word of refusal or exit gets the closing
    message; a courtesy word gets the greeting; and a technical, name or
    code question whose search term, once the boilerplate is removed, is
    shorter than two characters or is [ok] gets the greeting too, without a
    search. *)
Theorem fixed_replies (df : list record) (prompt : pystr)
    (history : list turn) :
  df <> [] ->
  (intent_of prompt = EXIT ->
   respond df prompt history = Returns [EXIT_MESSAGE])
  /\ (intent_of prompt = CONVERSATIONAL ->
      respond df prompt history = Returns [GREETING])
  /\ (In (intent_of prompt) [TECHNICAL; NAME_QUERY; CODE_QUERY] ->
      length (search_term_of (strip isspace (str_lower prompt))) < 2
      \/ search_term_of (strip isspace (str_lower prompt)) = py "ok" ->
      respond df prompt history = Returns [GREETING]).
Proof.
  intros Hdf. destruct df as [|r df]; [contradiction|].
  unfold respond, find_best_answer, intent_of. cbv zeta.
  split; [|split].
  - intros ->. cbn [bind data_str answer_status mk_answer
                      generate_ai_response].
    now rewrite render_exit.
  - intros ->. cbn [bind data_str answer_status mk_answer
                      generate_ai_response].
    now rewrite render_empty.
  - intros Hi Hshort.
    assert (Hts : forall i,
              technical_search (r :: df) i (strip isspace (str_lower prompt))
              = Returns (mk_answer false (py "{}") NONE)).
    { intros i. unfold technical_search. cbv zeta.
      destruct Hshort as [Hlen| ->].
      - apply Nat.ltb_lt in Hlen. now rewrite Hlen.
      - rewrite eqb_refl. now rewrite orb_true_r. }
    destruct Hi as [<-|[<-|[<-|[]]]]; rewrite Hts;
      cbn [bind data_str answer_status mk_answer generate_ai_response];
      now rewrite render_empty.
Qed.

End Replies.

(** ** A description with one label *)

Section Labels.

Context {R : PyRuntime}.

Lemma digits_then_label (label rest : pystr) :
  label <> [] -> forallb re_d label = true ->
  digits_then 58 (label ++ 58%N :: rest) = Some label.
Proof.
  assert (Hc : re_d 58 = false)
    by (apply re_d_not_ascii_other; reflexivity).
  intros Hne Hd. induction label as [|c label IH]; [contradiction|].
  simpl in Hd. apply andb_true_iff in Hd as [Hdc Hd].
  change ((c :: label) ++ 58%N :: rest) with (c :: (label ++ 58%N :: rest)).
  rewrite digits_then_cons, Hdc.
  destruct label as [|c' label].
  - cbn [app]. rewrite digits_then_cons, Hc. now rewrite N.eqb_refl.
  - now rewrite (IH ltac:(discriminate) Hd).
Qed.

Lemma re_split_labels_skip (a s : pystr) :
  re_split_labels (length a) (a ++ s) = re_split_labels 0 s.
Proof. induction a as [|c a IH]; [reflexivity | exact IH]. Qed.

Lemma re_split_labels_lead (lead s : pystr) :
  forallb (fun c => negb (re_d c)) lead = true ->
  re_split_labels 0 (lead ++ s)
  = (lead ++ fst (re_split_labels 0 s), snd (re_split_labels 0 s)).
Proof.
  induction lead as [|c lead IH]; intros H.
  - cbn [app]. now destruct (re_split_labels 0 s).
  - simpl in H. apply andb_true_iff in H as [Hc H].
    apply negb_true_iff in Hc.
    change ((c :: lead) ++ s) with (c :: (lead ++ s)).
    rewrite re_split_labels_cons, digits_then_cons, Hc, (IH H).
    reflexivity.
Qed.

Lemma re_split_labels_label (label value : pystr) :
  label <> [] -> forallb re_d label = true -> ~ In 58%N value ->
  re_split_labels 0 (label ++ 58%N :: value)
  = ([], [(label ++ [58%N], value)]).
Proof.
  intros Hne Hd Hv. pose proof (digits_then_label label value Hne Hd) as E.
  destruct label as [|c label]; [contradiction|].
  change ((c :: label) ++ 58%N :: value)
    with (c :: (label ++ 58%N :: value)) in *.
  rewrite re_split_labels_cons, E.
  replace (length (c :: label)) with (length (label ++ [58%N]))
    by (rewrite length_app; simpl; lia).
  replace (label ++ 58%N :: value) with ((label ++ [58%N]) ++ value)
    by (now rewrite <- app_assoc).
  rewrite re_split_labels_skip, (re_split_labels_plain _ Hv). reflexivity.
Qed.

(** X23.  When a description, trimmed, is some text without a digit, then
    one label of digits and a colon, then a value without a colon,
    [format_clean_description] returns the label and the trimmed value: the
    text before the label is dropped. *)
Theorem format_clean_description_drops_lead (text lead label value : pystr) :
  strip isspace text = lead ++ label ++ 58%N :: value ->
  forallb (fun c => negb (re_d c)) lead = true ->
  label <> [] ->
  forallb re_d label = true ->
  ~ In 58%N value ->
  format_clean_description text = label ++ py ": " ++ strip isspace value.
Proof.
  intros Ht Hlead Hne Hd Hv. unfold format_clean_description. cbv zeta.
  rewrite Ht, (re_split_labels_lead _ _ Hlead).
  rewrite (re_split_labels_label _ _ Hne Hd Hv). cbn [snd map join fst].
  now rewrite <- app_assoc.
Qed.

End Labels.

(** * Runs of the further theorems

    Each lemma below runs one of the further theorems on the reference
    runtime, at an input at which its hypotheses hold. *)

(** X1: the token [1234] of a search term. *)
Lemma findall_codes_tokens_witness :
  In (py "1234") (findall_codes None 0 (py "set 1234 now"))
  /\ (length (py "1234") = 4 \/ length (py "1234") = 5)
  /\ forallb re_d (py "1234") = true
  /\ contains (py "1234") (py "set 1234 now") = true.
Proof.
  assert (H : In (py "1234") (findall_codes None 0 (py "set 1234 now")))
    by (vm_compute; tauto).
  split; [exact H|].
  exact (findall_codes_tokens (py "set 1234 now") (py "1234") H).
Defined.

(** X2: the term [fax] is searched among the names. *)
Lemma short_term_searched_by_name_witness :
  length (py "fax") < 4
  /\ findall_codes None 0 (py "fax") = []
  /\ search_rows network_store TECHNICAL (py "fax")
     = (rows <- rows_with_name network_store (py "fax") ;;
        match TECHNICAL, rows with
        | CODE_QUERY, r :: _ =>
            Returns (inl (name_only (NAME_COL r) (CODE_COL r)))
        | _, _ => Returns (inr rows)
        end).
Proof.
  assert (H : length (py "fax") < 4) by (vm_compute; lia).
  split; [exact H|].
  exact (short_term_searched_by_name network_store TECHNICAL (py "fax") H).
Defined.

(** X3: a description without a colon. *)
Lemma format_clean_description_plain_witness :
  ~ In 58%N (py " No data ")
  /\ format_clean_description (py " No data ") = strip isspace (py " No data ").
Proof.
  assert (H : ~ In 58%N (py " No data ")) by (vm_compute; intuition discriminate).
  split; [exact H|].
  exact (format_clean_description_plain (py " No data ") H).
Defined.

(** X4: the answer to a code question. *)
Lemma find_best_answer_protocol_witness :
  find_best_answer network_store (py "code for Network Protocol") []
  = Returns (name_only (py "Network Protocol") (py "621"))
  /\ (match_found (name_only (py "Network Protocol") (py "621")) = false
      <-> answer_status (name_only (py "Network Protocol") (py "621")) = NONE)
  /\ (answer_status (name_only (py "Network Protocol") (py "621"))
      = DATA_MISSING
      <-> descriptor_mode
            (data_str (name_only (py "Network Protocol") (py "621")))
          = Some (py "NOT_FOUND"))
  /\ (answer_status (name_only (py "Network Protocol") (py "621")) = READY ->
      exists tag,
        descriptor_mode
          (data_str (name_only (py "Network Protocol") (py "621")))
        = Some tag
        /\ In tag known_tags)
  /\ (answer_status (name_only (py "Network Protocol") (py "621")) = NONE
      \/ answer_status (name_only (py "Network Protocol") (py "621"))
         = SHOW_PROCEDURE ->
      data_str (name_only (py "Network Protocol") (py "621")) = py "{}")
  /\ excel_text (name_only (py "Network Protocol") (py "621")) = [].
Proof.
  assert (H : find_best_answer network_store (py "code for Network Protocol")
                []
              = Returns (name_only (py "Network Protocol") (py "621")))
    by (vm_compute; reflexivity).
  split; [exact H|].
  exact (find_best_answer_protocol network_store
           (py "code for Network Protocol") [] _ H).
Defined.

(** X5: the record behind the answer to a code question. *)
Lemma name_only_answer_sound_witness :
  find_best_answer network_store (py "code for Network Protocol") []
  = Returns (name_only (py "Network Protocol") (py "621"))
  /\ descriptor_mode (data_str (name_only (py "Network Protocol") (py "621")))
     = Some (py "NAME_ONLY")
  /\ exists r,
       In r network_store
       /\ name_only (py "Network Protocol") (py "621")
          = name_only (NAME_COL r) (CODE_COL r).
Proof.
  assert (H : find_best_answer network_store (py "code for Network Protocol")
                []
              = Returns (name_only (py "Network Protocol") (py "621")))
    by (vm_compute; reflexivity).
  assert (H' : descriptor_mode
                 (data_str (name_only (py "Network Protocol") (py "621")))
               = Some (py "NAME_ONLY"))
    by (vm_compute; reflexivity).
  split; [exact H|]. split; [exact H'|].
  exact (name_only_answer_sound network_store
           (py "code for Network Protocol") [] _ H H').
Defined.

(** X6: an ASCII prompt with capitals and blanks around it. *)
Lemma intent_of_ascii_prompt_witness :
  forallb is_ascii (py "  Code for FAX ") = true
  /\ intent_of (py "  Code for FAX ") = detect_intent (py "  Code for FAX ").
Proof.
  assert (H : forallb is_ascii (py "  Code for FAX ") = true)
    by (vm_compute; reflexivity).
  split; [exact H|].
  exact (intent_of_ascii_prompt (py "  Code for FAX ") H).
Defined.


(** X8: the two rows of code 621. *)
Lemma single_answer_rows_witness :
  distinct_codes (firstn 2 network_store) 1
  /\ exists r0 rest kept,
       firstn 2 network_store = r0 :: rest
       /\ (forall r,
             In r (firstn 2 network_store) -> CODE_COL r = CODE_COL r0)
       /\ process_results (py "network") (firstn 2 network_store)
          = Returns
              (mk_answer true
                 (descriptor
                    [(py "mode", py "SINGLE"); (py "name", NAME_COL r0);
                     (py "code", CODE_COL r0);
                     (py "table",
                      join NL
                        ([py "| Sub-Code | Description / Values |"; py "| :--- | :--- |"]
                         ++ map (fun r =>
                                   py "| "
                                   ++ (if Str.eqb (SUB_CODE_COL r) (py "-") then py "NA"
                                       else SUB_CODE_COL r)
                                   ++ py " | " ++ format_clean_description (DESCRIPTION_COL r)
                                   ++ py " |")
                                (r0 :: kept)))])
                 READY)
       /\ in_order (r0 :: kept) (firstn 2 network_store)
       /\ NoDup (map SUB_CODE_COL (r0 :: kept))
       /\ (forall s,
             In s (map SUB_CODE_COL (r0 :: kept))
             <-> In s (map SUB_CODE_COL (firstn 2 network_store)))
       /\ (forall r,
             In r (r0 :: kept) ->
             exists before after,
               firstn 2 network_store = before ++ r :: after
               /\ forall x,
                    In x before -> SUB_CODE_COL x <> SUB_CODE_COL r).
Proof.
  assert (H : distinct_codes (firstn 2 network_store) 1)
    by exact (distinct_codes_exists (firstn 2 network_store)).
  split; [exact H|].
  exact (single_answer_rows (py "network") (firstn 2 network_store) H).
Defined.

(** X9: [ok] after the table of the sub-codes of code 621. *)
Lemma procedure_offer_round_trip_witness :
  contains PROCEDURE_OFFER
    (full_response
       (generate_ai_response (py "yes") []
          (descriptor
             [(py "mode", py "SUB_TABLE");
              (py "table",
               sub_table (rows_with_code network_store (py "621")));
              (py "code", py "621")])
          CONFIRMATION READY)) = true
  /\ find_best_answer network_store (py "ok")
       ([]
        ++ [{| role := py "assistant";
               content :=
                 full_response
                   (generate_ai_response (py "yes") []
                      (descriptor
                         [(py "mode", py "SUB_TABLE");
                          (py "table",
                           sub_table
                             (rows_with_code network_store (py "621")));
                          (py "code", py "621")])
                      CONFIRMATION READY) |}])
     = Returns (mk_answer true (py "{}") SHOW_PROCEDURE).
Proof.
  destruct (procedure_offer_round_trip network_store (py "yes") (py "ok") []
              CONFIRMATION (py "621")
              (sub_table (rows_with_code network_store (py "621"))))
    as [H1 H2].
  split; [exact H1|].
  apply H2.
  - vm_compute. reflexivity.
  - vm_compute. reflexivity.
  - discriminate.
  - vm_compute. reflexivity.
Defined.

(** X10: [yes] after a user turn that quotes the offer with two tags. *)
Lemma offer_confirmation_witness :
  network_store <> []
  /\ intent_of (py "yes") = CONFIRMATION
  /\ content (user_turn (py "know the sub code (Code: 700) (Code: 621)"))
     = py "know the sub code " ++ py "(Code: " ++ py "700" ++ py ")"
       ++ py " (Code: 621)"
  /\ contains (py "know the sub code")
       (content (user_turn (py "know the sub code (Code: 700) (Code: 621)")))
     = true
  /\ find_best_answer network_store (py "yes")
       ([] ++ [user_turn (py "know the sub code (Code: 700) (Code: 621)")])
     = Returns
         (mk_answer true
            (descriptor
               [(py "mode", py "SUB_TABLE");
                (py "table",
                 py "| Sub-Code | Description / Values |" ++ NL
                 ++ py "| :--- | :--- |" ++ NL
                 ++ py "| NA | No data |");
                (py "code", py "700")])
            READY).
Proof.
  assert (H1 : network_store <> []) by discriminate.
  assert (H2 : intent_of (py "yes") = CONFIRMATION)
    by (vm_compute; reflexivity).
  assert (H3 : content
                 (user_turn (py "know the sub code (Code: 700) (Code: 621)"))
               = py "know the sub code " ++ py "(Code: " ++ py "700"
                 ++ py ")" ++ py " (Code: 621)")
    by reflexivity.
  assert (H4 : ~ In 40%N (py "know the sub code "))
    by (vm_compute; intuition discriminate).
  assert (H5 : py "700" <> []) by discriminate.
  assert (H6 : forallb re_d (py "700") = true) by (vm_compute; reflexivity).
  assert (H7 : contains (py "know the sub code")
                 (content
                    (user_turn
                       (py "know the sub code (Code: 700) (Code: 621)")))
               = true)
    by (vm_compute; reflexivity).
  split; [exact H1|]. split; [exact H2|]. split; [exact H3|].
  split; [exact H7|].
  pose proof (offer_confirmation network_store (py "yes") []
                (user_turn (py "know the sub code (Code: 700) (Code: 621)"))
                (py "know the sub code ") (py "700") (py " (Code: 621)")
                H1 H2 H3 H4 H5 H6 H7) as H.
  vm_compute in H. vm_compute. exact H.
Defined.

(** X11: the answer to a code question, rendered. *)
Lemma resolver_answer_renders_witness :
  find_best_answer network_store (py "code for Network Protocol") []
  = Returns (name_only (py "Network Protocol") (py "621"))
  /\ exists text,
       generate_ai_response (py "code for Network Protocol") []
         (data_str (name_only (py "Network Protocol") (py "621"))) CODE_QUERY
         (answer_status (name_only (py "Network Protocol") (py "621")))
       = [text]
       /\ text <> FALLBACK_GREETING.
Proof.
  assert (H : find_best_answer network_store (py "code for Network Protocol")
                []
              = Returns (name_only (py "Network Protocol") (py "621")))
    by (vm_compute; reflexivity).
  split; [exact H|].
  exact (resolver_answer_renders network_store
           (py "code for Network Protocol") [] _
           (py "code for Network Protocol") [] CODE_QUERY H).
Defined.

(** X13: the thread that a new user starts, after a signup and a chat
    request. *)
Lemma served_thread_of_owner_witness :
  exists conv,
    thread_of
      (served [Signup (py " carol ") (py "secret");
               ChatSubmit network_store 3 (py "code for Network Protocol")
                 None]) 3 5
    = Some conv
    /\ c_id conv = 5%Z
    /\ c_user_id conv = 3%Z
    /\ conversation (history_of conv)
    /\ thread_of
         (served [Signup (py " carol ") (py "secret");
                  ChatSubmit network_store 3 (py "code for Network Protocol")
                    None]) 1 5
       = None.
Proof.
  destruct (thread_of
              (served [Signup (py " carol ") (py "secret");
                       ChatSubmit network_store 3
                         (py "code for Network Protocol") None]) 3 5)
    as [conv|] eqn:E; [|vm_compute in E; discriminate E].
  exists conv. split; [reflexivity|].
  destruct (served_thread_of_owner _ _ _ _ E) as [H1 [H2 [_ [H3 [_ H4]]]]].
  split; [exact H1|]. split; [exact H2|]. split; [exact H3|].
  apply H4. discriminate.
Defined.

(** X15: a signup under the name of the administrator leaves the login of
    the test user as it was. *)
Lemma signup_keeps_accounts_witness :
  exists user,
    login initial_state (py "testuser") (py "password") = Some user
    /\ login (signup initial_state (py "admin") (py "mine")) (py "testuser")
         (py "password") = Some user.
Proof.
  eexists.
  assert (H : login initial_state (py "testuser") (py "password")
              = Some {| u_id := 1; u_username := py "testuser";
                        u_password := py "password"; u_is_admin := false |})
    by (vm_compute; reflexivity).
  split; [exact H|].
  exact (signup_keeps_accounts initial_state (py "admin") (py "mine")
           (py "testuser") (py "password") _ H).
Defined.

(** X16: a new user signs up and logs in. *)
Lemma signup_then_login_witness :
  strip isspace (py " carol ") <> []
  /\ py "secret" <> []
  /\ get_user_by_username initial_state (strip isspace (py " carol ")) = None
  /\ exists user,
       login (signup initial_state (py " carol ") (py "secret"))
         (py " carol ") (py "secret") = Some user
       /\ u_username user = strip isspace (py " carol ")
       /\ u_password user = py "secret"
       /\ u_is_admin user = false
       /\ get_user_by_id initial_state (Some (u_id user)) = None
       /\ get_user_by_id (signup initial_state (py " carol ") (py "secret"))
            (Some (u_id user)) = Some user
       /\ threads_of (signup initial_state (py " carol ") (py "secret"))
            (u_id user) = [].
Proof.
  assert (H1 : strip isspace (py " carol ") <> [])
    by (vm_compute; discriminate).
  assert (H2 : py "secret" <> []) by discriminate.
  assert (H3 : get_user_by_username initial_state
                 (strip isspace (py " carol ")) = None)
    by (vm_compute; reflexivity).
  split; [exact H1|]. split; [exact H2|]. split; [exact H3|].
  exact (signup_then_login initial_state (py " carol ") (py "secret")
           H1 H2 H3).
Defined.

(** X17: the test user asks a code question without a conversation id. *)
Lemma chat_starts_thread_witness :
  strip isspace (py " code for Network Protocol ") <> []
  /\ given None = None
  /\ respond network_store (strip isspace (py " code for Network Protocol "))
       []
     = Returns [name_only_text CODE_QUERY (py "Network Protocol") (py "621")]
  /\ snd (chat_submit network_store initial_state 1
            (py " code for Network Protocol ") None)
     = Stream
         (Returns
            [Chunk
               (name_only_text CODE_QUERY (py "Network Protocol") (py "621"));
             NewConversation 5])
  /\ map c_id
       (threads_of
          (fst (chat_submit network_store initial_state 1
                  (py " code for Network Protocol ") None)) 1)
     = [5; 1; 2]%Z.
Proof.
  assert (H1 : strip isspace (py " code for Network Protocol ") <> [])
    by (vm_compute; discriminate).
  assert (H2 : given None = None) by reflexivity.
  assert (H3 : respond network_store
                 (strip isspace (py " code for Network Protocol ")) []
               = Returns [name_only_text CODE_QUERY (py "Network Protocol")
                            (py "621")])
    by (vm_compute; reflexivity).
  split; [exact H1|]. split; [exact H2|]. split; [exact H3|].
  destruct (chat_starts_thread network_store initial_state 1
              (py " code for Network Protocol ") None _ H1 H2 H3)
    as [E1 [E2 _]].
  split; [exact E1|]. rewrite E2. reflexivity.
Defined.

(** X18: the test user says [yes] in the seeded thread 1, which holds no
    offer, and is greeted. *)
Lemma chat_continues_thread_witness :
  exists conv,
    thread_of initial_state 1 1 = Some conv
    /\ given (Some 1%Z) = Some 1%Z
    /\ respond network_store (strip isspace (py "yes")) (history_of conv)
       = Returns [GREETING]
    /\ snd (chat_submit network_store initial_state 1 (py "yes") (Some 1%Z))
       = Stream (Returns [Chunk GREETING])
    /\ map c_id
         (threads_of
            (fst (chat_submit network_store initial_state 1 (py "yes")
                    (Some 1%Z))) 1)
       = map c_id (threads_of initial_state 1).
Proof.
  destruct (thread_of initial_state 1 1) as [conv|] eqn:E;
    [|vm_compute in E; discriminate E].
  exists conv.
  assert (H1 : strip isspace (py "yes") <> []) by (vm_compute; discriminate).
  assert (H2 : given (Some 1%Z) = Some 1%Z) by reflexivity.
  assert (H3 : respond network_store (strip isspace (py "yes"))
                 (history_of conv) = Returns [GREETING]).
  { vm_compute in E. injection E as <-. vm_compute. reflexivity. }
  split; [reflexivity|]. split; [exact H2|]. split; [exact H3|].
  destruct (chat_continues_thread network_store initial_state 1 (py "yes")
              (Some 1%Z) 1 conv _ H1 H2 E H3) as [E1 [_ [E2 _]]].
  split; [exact E1 | exact E2].
Defined.

(** X19: the administrator sends the id of a thread of the test user. *)
Lemma chat_unknown_thread_witness :
  strip isspace (py "code for Network Protocol") <> []
  /\ given (Some 1%Z) = Some 1%Z
  /\ thread_of initial_state 2 1 = None
  /\ respond network_store (strip isspace (py "code for Network Protocol")) []
     = Returns [name_only_text CODE_QUERY (py "Network Protocol") (py "621")]
  /\ snd (chat_submit network_store initial_state 2
            (py "code for Network Protocol") (Some 1%Z))
     = Stream
         (Returns
            [Chunk
               (name_only_text CODE_QUERY (py "Network Protocol")
                  (py "621"))])
  /\ threads_of
       (fst (chat_submit network_store initial_state 2
               (py "code for Network Protocol") (Some 1%Z))) 1
     = threads_of initial_state 1
  /\ threads_of
       (fst (chat_submit network_store initial_state 2
               (py "code for Network Protocol") (Some 1%Z))) 2
     = threads_of initial_state 2.
Proof.
  assert (H1 : strip isspace (py "code for Network Protocol") <> [])
    by (vm_compute; discriminate).
  assert (H2 : given (Some 1%Z) = Some 1%Z) by reflexivity.
  assert (H3 : thread_of initial_state 2 1 = None)
    by (vm_compute; reflexivity).
  assert (H4 : respond network_store
                 (strip isspace (py "code for Network Protocol")) []
               = Returns [name_only_text CODE_QUERY (py "Network Protocol")
                            (py "621")])
    by (vm_compute; reflexivity).
  split; [exact H1|]. split; [exact H2|]. split; [exact H3|].
  split; [exact H4|].
  destruct (chat_unknown_thread network_store initial_state 2
              (py "code for Network Protocol") (Some 1%Z) 1 _ H1 H2 H3 H4)
    as [E1 [E2 _]].
  split; [exact E1|]. split; apply E2.
Defined.

(** X21: the test user asks for the code of a setting, then says [yes]. *)
Lemma code_question_then_yes_witness :
  conversation_id_counter initial_state <> 0%Z
  /\ find_best_answer network_store
       (strip isspace (py "code for Network Protocol")) []
     = Returns (name_only (py "Network Protocol") (py "621"))
  /\ code_tag_search (py "Network Protocol") = None
  /\ intent_of (strip isspace (py "yes")) = CONFIRMATION
  /\ snd (chat_submit network_store initial_state 1
            (py "code for Network Protocol") None)
     = Stream
         (Returns
            [Chunk
               (name_only_text
                  (detect_intent
                     (strip isspace (py "code for Network Protocol")))
                  (py "Network Protocol") (py "621"));
             NewConversation 5])
  /\ snd (chat_submit network_store
            (fst (chat_submit network_store initial_state 1
                    (py "code for Network Protocol") None))
            1 (py "yes") (Some 5%Z))
     = Stream
         (Returns
            [Chunk
               (py "Here are the sub codes for code **621**:" ++ NL ++ NL
                ++ py "| Sub-Code | Description / Values |" ++ NL
                ++ py "| :--- | :--- |" ++ NL
                ++ py "| NA | 0: Off <br> 1: On |" ++ NL
                ++ py "| 1 | No data |" ++ NL ++ NL ++ py " " ++ BULB
                ++ py " Do you want to know how to set the 08 code?")]).
Proof.
  assert (H1 : conversation_id_counter initial_state <> 0%Z) by discriminate.
  assert (H2 : strip isspace (py "code for Network Protocol") <> [])
    by (vm_compute; discriminate).
  assert (H3 : strip isspace (py "yes") <> []) by (vm_compute; discriminate).
  assert (H4 : find_best_answer network_store
                 (strip isspace (py "code for Network Protocol")) []
               = Returns (name_only (py "Network Protocol") (py "621")))
    by (vm_compute; reflexivity).
  assert (H5 : py "621" <> []) by discriminate.
  assert (H6 : forallb re_d (py "621") = true) by (vm_compute; reflexivity).
  assert (H7 : code_tag_search (py "Network Protocol") = None)
    by (vm_compute; reflexivity).
  assert (H8 : intent_of (strip isspace (py "yes")) = CONFIRMATION)
    by (vm_compute; reflexivity).
  split; [exact H1|]. split; [exact H4|]. split; [exact H7|].
  split; [exact H8|].
  destruct (code_question_then_yes network_store initial_state 1
              (py "code for Network Protocol") (py "yes")
              (py "Network Protocol") (py "621")
              H1 H2 H3 H4 H5 H6 H7 H8) as [E1 [E2 _]].
  split; [exact E1|].
  change (Some 5%Z) with (Some (conversation_id_counter initial_state)).
  rewrite E2. vm_compute. reflexivity.
Defined.

(** X22: a word of exit. *)
Lemma fixed_replies_witness :
  network_store <> []
  /\ intent_of (py " Stop") = EXIT
  /\ respond network_store (py " Stop") [] = Returns [EXIT_MESSAGE].
Proof.
  assert (H1 : network_store <> []) by discriminate.
  assert (H2 : intent_of (py " Stop") = EXIT) by (vm_compute; reflexivity).
  split; [exact H1|]. split; [exact H2|].
  exact (proj1 (fixed_replies network_store (py " Stop") [] H1) H2).
Defined.

(** X23: a description that names its range before the label. *)
Lemma format_clean_description_drops_lead_witness :
  strip isspace (py " Range 0: Off ")
  = py "Range " ++ py "0" ++ 58%N :: py " Off"
  /\ format_clean_description (py " Range 0: Off ")
     = py "0" ++ py ": " ++ strip isspace (py " Off").
Proof.
  assert (H1 : strip isspace (py " Range 0: Off ")
               = py "Range " ++ py "0" ++ 58%N :: py " Off")
    by (vm_compute; reflexivity).
  split; [exact H1|].
  apply (format_clean_description_drops_lead _ _ _ _ H1).
  - vm_compute. reflexivity.
  - discriminate.
  - vm_compute. reflexivity.
  - vm_compute. intuition discriminate.
Defined.
